(** * GenAIDeployment reconciler: a shallow embedding and its properties

    The development follows the controller source (package [controllers]) and
    the resource helpers of package [util].  Kubernetes API objects are
    records restricted to the fields the controller reads or writes, Go maps
    are finite maps, Go slices are lists, and the cluster API client is an
    interface whose calls are recorded in a trace. *)

From Stdlib Require Import ZArith.
From stdpp Require Import gmap strings list.

Open Scope string_scope.
Open Scope list_scope.

(** ** Go values *)

(** The address a [*int32] holds.  The controller takes the address of three
    fields of the descriptor struct it fetched ([&genAIDeployment.Spec...]);
    every other [int32] cell lives somewhere else on the heap, for instance
    where the client's decoder allocated it. *)
Inductive DescriptorField := RayReplicasField | SaisReplicasField | VectorDbReplicasField.

Inductive addr :=
| AddrOfField (f : DescriptorField)
| AddrHeap (n : nat).

#[global] Instance DescriptorField_eq_dec : EqDecision DescriptorField.
Proof. solve_decision. Defined.
#[global] Instance addr_eq_dec : EqDecision addr.
Proof. solve_decision. Defined.

(** A non-nil [*int32]: the cell it points to and the value stored there.
    The controller never writes through such a pointer, so the pointee is
    carried along with the address. *)
Record int32_ref := { ref_addr : addr; ref_val : Z }.

(** [*int32]; [None] is the nil pointer. *)
Definition int32_ptr : Type := option int32_ref.

(** Go's [==] on two [*int32]: the addresses are compared, not the pointees. *)
Definition ptr_eqb (p q : int32_ptr) : bool :=
  match p, q with
  | None, None => true
  | Some a, Some b => bool_decide (ref_addr a = ref_addr b)
  | _, _ => false
  end.

(** [types.NamespacedName] / [client.ObjectKey]. *)
Record NamespacedName := { nn_Namespace : string; nn_Name : string }.

#[global] Instance NamespacedName_eq_dec : EqDecision NamespacedName.
Proof. solve_decision. Defined.

#[global] Instance NamespacedName_countable : Countable NamespacedName.
Proof.
  refine (inj_countable' (fun k => (nn_Namespace k, nn_Name k))
                         (fun p => {| nn_Namespace := p.1; nn_Name := p.2 |}) _).
  intros []; reflexivity.
Defined.

(** ** Kubernetes API types (only the fields the controller touches) *)

Module metav1.
Record OwnerReference := {
  APIVersion : string;
  Kind : string;
  OwnerName : string;
  OwnerUID : string;
  Controller : bool;
  BlockOwnerDeletion : bool
}.

Record ObjectMeta := {
  Name : string;
  Namespace : string;
  UID : string;
  Labels : gmap string string;
  OwnerReferences : list OwnerReference
}.

Record LabelSelector := { MatchLabels : gmap string string }.

Record Condition := { CondType : string; CondStatus : string }.

(** The zero value of [ObjectMeta]. *)
Definition zero : ObjectMeta :=
  {| Name := ""; Namespace := ""; UID := ""; Labels := ∅; OwnerReferences := [] |}.
End metav1.

Module corev1.
(** [ResourceList] is [map[ResourceName]Quantity]; quantities are kept as
    their textual form. *)
Record ResourceRequirements := {
  Limits : gmap string string;
  Requests : gmap string string
}.

Record VolumeMount := { VolumeMount_Name : string; MountPath : string }.

Record Container := {
  Container_Name : string;
  Image : string;
  Resources : ResourceRequirements;
  VolumeMounts : list VolumeMount
}.

Record Volume := { Volume_Name : string; VolumeSource : string }.

Record Toleration := {
  Key : string; Operator : string; Value : string; Effect : string
}.

Record Affinity := {
  NodeAffinity : option string;
  PodAffinity : option string;
  PodAntiAffinity : option string
}.

Record TopologySpreadConstraint := {
  MaxSkew : Z; TopologyKey : string; WhenUnsatisfiable : string
}.

Record PodSpec := {
  Containers : list Container;
  Volumes : list Volume;
  SchedulerName : string;
  PodSpec_Affinity : option Affinity;
  Tolerations : list Toleration;
  TopologySpreadConstraints : list TopologySpreadConstraint
}.

Record PodTemplateSpec := {
  Template_ObjectMeta : metav1.ObjectMeta;
  Template_Spec : PodSpec
}.
End corev1.

Module appsv1.
Record DeploymentSpec := {
  Replicas : int32_ptr;
  Selector : option metav1.LabelSelector;
  Template : corev1.PodTemplateSpec
}.

Record Deployment := {
  ObjectMeta : metav1.ObjectMeta;
  Spec : DeploymentSpec
}.
End appsv1.

Module rayv1.
Record HeadGroupSpec := {
  RayStartParams : gmap string string;
  Head_Template : corev1.PodTemplateSpec
}.

Record WorkerGroupSpec := {
  GroupName : string;
  Replicas : int32_ptr;
  Worker_Template : corev1.PodTemplateSpec
}.

Record RayClusterSpec := {
  HeadGroup : HeadGroupSpec;
  WorkerGroupSpecs : list WorkerGroupSpec
}.

Record RayClusterStatus := {
  State : string;
  Conditions : list metav1.Condition
}.

Record RayCluster := {
  ObjectMeta : metav1.ObjectMeta;
  Spec : RayClusterSpec;
  Status : RayClusterStatus
}.

Definition zeroPodTemplate : corev1.PodTemplateSpec :=
  {| corev1.Template_ObjectMeta := metav1.zero;
     corev1.Template_Spec :=
       {| corev1.Containers := []; corev1.Volumes := []; corev1.SchedulerName := "";
          corev1.PodSpec_Affinity := None; corev1.Tolerations := [];
          corev1.TopologySpreadConstraints := [] |} |}.

(** [&rayv1.RayCluster{}]: the zero value the controller decodes into. *)
Definition zero : RayCluster :=
  {| ObjectMeta := metav1.zero;
     Spec := {| HeadGroup := {| RayStartParams := ∅; Head_Template := zeroPodTemplate |};
                WorkerGroupSpecs := [] |};
     Status := {| State := ""; Conditions := [] |} |}.
End rayv1.

(** Modelled from the spec: the declaration of the descriptor type
    [enterpriseApi.GenAIDeployment] (package [api/v4]) is missing; its fields
    are the ones the spec's data model lists and the controller reads. *)
Module enterpriseApi.
Record HeadGroup := { NumCpus : string; Head_Resources : corev1.ResourceRequirements }.
Record WorkerGroup := { Worker_Resources : corev1.ResourceRequirements }.

Record RayServiceSpec := {
  Enabled : bool;
  Ray_Image : string;
  Ray_HeadGroup : HeadGroup;
  Ray_WorkerGroup : WorkerGroup;
  Ray_Replicas : Z
}.

Record SaisServiceSpec := {
  Sais_Replicas : Z;
  Sais_Image : string;
  Sais_Resources : corev1.ResourceRequirements;
  Sais_Volume : corev1.Volume;
  Sais_SchedulerName : string;
  Sais_Affinity : corev1.Affinity;
  Sais_Tolerations : list corev1.Toleration
}.

Record VectorDbServiceSpec := {
  VectorDb_Replicas : Z;
  VectorDb_Image : string;
  VectorDb_Resources : corev1.ResourceRequirements;
  VectorDb_Volume : corev1.Volume;
  VectorDb_Affinity : corev1.Affinity;
  VectorDb_Tolerations : list corev1.Toleration;
  VectorDb_TopologySpreadConstraints : list corev1.TopologySpreadConstraint
}.

Record GenAIDeploymentSpec := {
  RayService : RayServiceSpec;
  SaisService : SaisServiceSpec;
  VectorDbService : VectorDbServiceSpec
}.

Record RayClusterStatus := {
  ClusterName : string;
  State : string;
  Conditions : list metav1.Condition
}.

Record GenAIDeploymentStatus := { RayClusterStatus_ : RayClusterStatus }.

Record GenAIDeployment := {
  ObjectMeta : metav1.ObjectMeta;
  Spec : GenAIDeploymentSpec;
  Status : GenAIDeploymentStatus
}.
End enterpriseApi.

(** [ctrl.Request]. *)
Record Request := { req_Namespace : string; req_Name : string }.

Definition req_NamespacedName (req : Request) : NamespacedName :=
  {| nn_Namespace := req_Namespace req; nn_Name := req_Name req |}.

(** ** Errors *)

(** Go [error] values the controller can see: the API status errors the spec
    names, any other backend error, and [fmt.Errorf("...: %w", err)]. *)
Inductive error :=
| ErrNotFound
| ErrAlreadyExists
| ErrConflict
| ErrOther (msg : string)
| ErrWrap (msg : string) (e : error).

(** [apierrors.IsNotFound]: looks through wrapped errors. *)
Fixpoint IsNotFound (e : error) : bool :=
  match e with
  | ErrNotFound => true
  | ErrWrap _ e' => IsNotFound e'
  | _ => false
  end.

(** [apierrors.IsAlreadyExists]. *)
Fixpoint IsAlreadyExists (e : error) : bool :=
  match e with
  | ErrAlreadyExists => true
  | ErrWrap _ e' => IsAlreadyExists e'
  | _ => false
  end.

(** [client.IgnoreNotFound]: nil for a not-found error, the error otherwise. *)
Definition IgnoreNotFound (e : error) : option error :=
  if IsNotFound e then None else Some e.

(** ** Ownership (controller-runtime's [SetControllerReference]) *)

(** [*runtime.Scheme], as far as the controller uses it: the API version and
    kind registered for the descriptor type, if any. *)
Record Scheme := { gvk_GenAIDeployment : option (string * string) }.

Definition referSameObject (a b : metav1.OwnerReference) : bool :=
  bool_decide (metav1.APIVersion a = metav1.APIVersion b)
  && bool_decide (metav1.Kind a = metav1.Kind b)
  && bool_decide (metav1.OwnerName a = metav1.OwnerName b).

Fixpoint upsertOwnerRef (ref : metav1.OwnerReference) (refs : list metav1.OwnerReference)
  : list metav1.OwnerReference :=
  match refs with
  | [] => [ref]
  | r :: rest => if referSameObject r ref then ref :: rest else r :: upsertOwnerRef ref rest
  end.

Definition setOwnerReferences (m : metav1.ObjectMeta) (refs : list metav1.OwnerReference)
  : metav1.ObjectMeta :=
  {| metav1.Name := metav1.Name m; metav1.Namespace := metav1.Namespace m;
     metav1.UID := metav1.UID m; metav1.Labels := metav1.Labels m;
     metav1.OwnerReferences := refs |}.

(** The owner must live in the namespace of the object it owns. *)
Definition validateOwner (owner object : metav1.ObjectMeta) : option error :=
  if bool_decide (metav1.Namespace owner = "") then None
  else if bool_decide (metav1.Namespace object = "") then
    Some (ErrOther "cluster-scoped resource must not have a namespace-scoped owner")
  else if bool_decide (metav1.Namespace owner = metav1.Namespace object) then None
  else Some (ErrOther "cross-namespace owner references are disallowed").

(** [ctrl.SetControllerReference(owner, controlled, scheme)]: the metadata of
    [controlled] afterwards, and the error returned.  On an error the object
    is left as it was. *)
Definition SetControllerReference (owner : enterpriseApi.GenAIDeployment)
    (controlled : metav1.ObjectMeta) (scheme : Scheme)
  : metav1.ObjectMeta * option error :=
  match validateOwner (enterpriseApi.ObjectMeta owner) controlled with
  | Some e => (controlled, Some e)
  | None =>
    match gvk_GenAIDeployment scheme with
    | None => (controlled, Some (ErrOther "no kind is registered for the type"))
    | Some (apiVersion, kind) =>
      let ref := {| metav1.APIVersion := apiVersion; metav1.Kind := kind;
                    metav1.OwnerName := metav1.Name (enterpriseApi.ObjectMeta owner);
                    metav1.OwnerUID := metav1.UID (enterpriseApi.ObjectMeta owner);
                    metav1.Controller := true; metav1.BlockOwnerDeletion := true |} in
      match List.find metav1.Controller (metav1.OwnerReferences controlled) with
      | Some existing =>
        if referSameObject existing ref
        then (setOwnerReferences controlled
                (upsertOwnerRef ref (metav1.OwnerReferences controlled)), None)
        else (controlled, Some (ErrOther "object is already owned by another controller"))
      | None =>
        (setOwnerReferences controlled
           (upsertOwnerRef ref (metav1.OwnerReferences controlled)), None)
      end
    end
  end.

(** ** Desired-state constructors *)

Section Constructors.
(** The reconciler's [Scheme] field. *)
Variable scheme : Scheme.

(** [&genAIDeployment.Spec.<service>.Replicas]. *)
Definition addressOf (f : DescriptorField) (v : Z) : int32_ptr :=
  Some {| ref_addr := AddrOfField f; ref_val := v |}.

Definition constructRayCluster (genAIDeployment : enterpriseApi.GenAIDeployment)
  : rayv1.RayCluster :=
  let meta := enterpriseApi.ObjectMeta genAIDeployment in
  let ray := enterpriseApi.RayService (enterpriseApi.Spec genAIDeployment) in
  let podOf (c : corev1.Container) : corev1.PodTemplateSpec :=
    {| corev1.Template_ObjectMeta := metav1.zero;
       corev1.Template_Spec :=
         {| corev1.Containers := [c]; corev1.Volumes := []; corev1.SchedulerName := "";
            corev1.PodSpec_Affinity := None; corev1.Tolerations := [];
            corev1.TopologySpreadConstraints := [] |} |} in
  {| rayv1.ObjectMeta :=
       {| metav1.Name := metav1.Name meta +:+ "-raycluster";
          metav1.Namespace := metav1.Namespace meta;
          metav1.UID := ""; metav1.Labels := ∅; metav1.OwnerReferences := [] |};
     rayv1.Spec :=
       {| rayv1.HeadGroup :=
            {| rayv1.RayStartParams :=
                 {[ "num-cpus" := enterpriseApi.NumCpus (enterpriseApi.Ray_HeadGroup ray) ]};
               rayv1.Head_Template :=
                 podOf {| corev1.Container_Name := "ray-head";
                          corev1.Image := enterpriseApi.Ray_Image ray;
                          corev1.Resources :=
                            enterpriseApi.Head_Resources (enterpriseApi.Ray_HeadGroup ray);
                          corev1.VolumeMounts := [] |} |};
          rayv1.WorkerGroupSpecs :=
            [ {| rayv1.GroupName := "ray-worker";
                 rayv1.Replicas := addressOf RayReplicasField (enterpriseApi.Ray_Replicas ray);
                 rayv1.Worker_Template :=
                   podOf {| corev1.Container_Name := "ray-worker";
                            corev1.Image := enterpriseApi.Ray_Image ray;
                            corev1.Resources :=
                              enterpriseApi.Worker_Resources (enterpriseApi.Ray_WorkerGroup ray);
                            corev1.VolumeMounts := [] |} |} ] |};
     rayv1.Status := {| rayv1.State := ""; rayv1.Conditions := [] |} |}.

(** The body is a placeholder in the source: the existing cluster is
    returned as it is. *)
Definition updateRayCluster (existingCluster : rayv1.RayCluster)
    (genAIDeployment : enterpriseApi.GenAIDeployment) : rayv1.RayCluster :=
  existingCluster.

Definition constructSaisServiceDeployment (genAIDeployment : enterpriseApi.GenAIDeployment)
  : appsv1.Deployment :=
  let meta := enterpriseApi.ObjectMeta genAIDeployment in
  let svc := enterpriseApi.SaisService (enterpriseApi.Spec genAIDeployment) in
  let labels : gmap string string :=
    <[ "app" := "sais-service" ]> (<[ "deployment" := metav1.Name meta ]> ∅) in
  let deploymentMeta :=
    {| metav1.Name := metav1.Name meta +:+ "-sais-service";
       metav1.Namespace := metav1.Namespace meta;
       metav1.UID := ""; metav1.Labels := ∅; metav1.OwnerReferences := [] |} in
  let spec :=
    {| appsv1.Replicas := addressOf SaisReplicasField (enterpriseApi.Sais_Replicas svc);
       appsv1.Selector := Some {| metav1.MatchLabels := labels |};
       appsv1.Template :=
         {| corev1.Template_ObjectMeta :=
              {| metav1.Name := ""; metav1.Namespace := ""; metav1.UID := "";
                 metav1.Labels := labels; metav1.OwnerReferences := [] |};
            corev1.Template_Spec :=
              {| corev1.Containers :=
                   [ {| corev1.Container_Name := "sais-service-container";
                        corev1.Image := enterpriseApi.Sais_Image svc;
                        corev1.Resources := enterpriseApi.Sais_Resources svc;
                        corev1.VolumeMounts :=
                          [ {| corev1.VolumeMount_Name :=
                                 corev1.Volume_Name (enterpriseApi.Sais_Volume svc);
                               corev1.MountPath := "/data" |} ] |} ];
                 corev1.Volumes := [ enterpriseApi.Sais_Volume svc ];
                 corev1.SchedulerName := enterpriseApi.Sais_SchedulerName svc;
                 corev1.PodSpec_Affinity := Some (enterpriseApi.Sais_Affinity svc);
                 corev1.Tolerations := enterpriseApi.Sais_Tolerations svc;
                 corev1.TopologySpreadConstraints := [] |} |} |} in
  (* the error of SetControllerReference is discarded *)
  {| appsv1.ObjectMeta := (SetControllerReference genAIDeployment deploymentMeta scheme).1;
     appsv1.Spec := spec |}.

Definition constructVectorDbDeployment (genAIDeployment : enterpriseApi.GenAIDeployment)
  : appsv1.Deployment :=
  let meta := enterpriseApi.ObjectMeta genAIDeployment in
  let svc := enterpriseApi.VectorDbService (enterpriseApi.Spec genAIDeployment) in
  let labels : gmap string string :=
    <[ "app" := "vectordb-service" ]> (<[ "deployment" := metav1.Name meta ]> ∅) in
  let deploymentMeta :=
    {| metav1.Name := metav1.Name meta +:+ "-vectordb-service";
       metav1.Namespace := metav1.Namespace meta;
       metav1.UID := ""; metav1.Labels := ∅; metav1.OwnerReferences := [] |} in
  let spec :=
    {| appsv1.Replicas :=
         addressOf VectorDbReplicasField (enterpriseApi.VectorDb_Replicas svc);
       appsv1.Selector := Some {| metav1.MatchLabels := labels |};
       appsv1.Template :=
         {| corev1.Template_ObjectMeta :=
              {| metav1.Name := ""; metav1.Namespace := ""; metav1.UID := "";
                 metav1.Labels := labels; metav1.OwnerReferences := [] |};
            corev1.Template_Spec :=
              {| corev1.Containers :=
                   [ {| corev1.Container_Name := "vectordb-container";
                        corev1.Image := enterpriseApi.VectorDb_Image svc;
                        corev1.Resources := enterpriseApi.VectorDb_Resources svc;
                        corev1.VolumeMounts :=
                          [ {| corev1.VolumeMount_Name :=
                                 corev1.Volume_Name (enterpriseApi.VectorDb_Volume svc);
                               corev1.MountPath := "/data" |} ] |} ];
                 corev1.Volumes := [ enterpriseApi.VectorDb_Volume svc ];
                 corev1.SchedulerName := "";
                 corev1.PodSpec_Affinity := Some (enterpriseApi.VectorDb_Affinity svc);
                 corev1.Tolerations := enterpriseApi.VectorDb_Tolerations svc;
                 corev1.TopologySpreadConstraints :=
                   enterpriseApi.VectorDb_TopologySpreadConstraints svc |} |} |} in
  {| appsv1.ObjectMeta := (SetControllerReference genAIDeployment deploymentMeta scheme).1;
     appsv1.Spec := spec |}.
End Constructors.

(** ** Diff/equality evaluator *)

Definition podContainers (d : appsv1.Deployment) : list corev1.Container :=
  corev1.Containers (corev1.Template_Spec (appsv1.Template (appsv1.Spec d))).

(** [isEqual]; [None] is the run-time panic of indexing an empty slice.  The
    left operand of [&&] compares the two [Replicas] pointers; the right
    operand, with its two [Containers[0]], is evaluated only when the left one
    is true. *)
Definition isEqual (desired existing : appsv1.Deployment) : option bool :=
  if ptr_eqb (appsv1.Replicas (appsv1.Spec desired)) (appsv1.Replicas (appsv1.Spec existing))
  then
    match podContainers desired with
    | [] => None
    | c :: _ =>
      match podContainers existing with
      | [] => None
      | c' :: _ => Some (bool_decide (corev1.Image c = corev1.Image c'))
      end
    end
  else Some false.

(** ** The cluster API client and the pass monad *)

(** One entry per call the controller issues on the client, with its argument. *)
Inductive Call :=
| CallGetGenAIDeployment (key : NamespacedName)
| CallGetRayCluster (key : NamespacedName)
| CallGetDeployment (key : NamespacedName)
| CallCreateRayCluster (obj : rayv1.RayCluster)
| CallCreateDeployment (obj : appsv1.Deployment)
| CallUpdateRayCluster (obj : rayv1.RayCluster)
| CallUpdateDeployment (obj : appsv1.Deployment)
| CallStatusUpdate (obj : enterpriseApi.GenAIDeployment).

Definition isCreate (c : Call) : bool :=
  match c with CallCreateRayCluster _ | CallCreateDeployment _ => true | _ => false end.

Definition isUpdate (c : Call) : bool :=
  match c with CallUpdateRayCluster _ | CallUpdateDeployment _ => true | _ => false end.

Definition isStatusUpdate (c : Call) : bool :=
  match c with CallStatusUpdate _ => true | _ => false end.

(** A write call: create, update or status-update. *)
Definition isWrite (c : Call) : bool := isCreate c || isUpdate c || isStatusUpdate c.

(** A call that concerns a managed resource (everything but the fetch of the
    descriptor itself). *)
Definition isManagedResourceCall (c : Call) : bool :=
  match c with CallGetGenAIDeployment _ => false | _ => true end.

(** [client.Client] over a world [W] (the cluster, and whatever else decides
    the answers).  A [Get] answers with an error or with the decoded object;
    the write calls answer with an error or nil.  The caller's copy of an
    object handed to a write call is taken to keep the fields read later. *)
Record Client (W : Type) := {
  Get_GenAIDeployment : NamespacedName -> W -> W * (error + enterpriseApi.GenAIDeployment);
  Get_RayCluster : NamespacedName -> W -> W * (error + rayv1.RayCluster);
  Get_Deployment : NamespacedName -> W -> W * (error + appsv1.Deployment);
  Create_RayCluster : rayv1.RayCluster -> W -> W * option error;
  Create_Deployment : appsv1.Deployment -> W -> W * option error;
  Update_RayCluster : rayv1.RayCluster -> W -> W * option error;
  Update_Deployment : appsv1.Deployment -> W -> W * option error;
  StatusUpdate_GenAIDeployment : enterpriseApi.GenAIDeployment -> W -> W * option error
}.
Arguments Get_GenAIDeployment {W}.
Arguments Get_RayCluster {W}.
Arguments Get_Deployment {W}.
Arguments Create_RayCluster {W}.
Arguments Create_Deployment {W}.
Arguments Update_RayCluster {W}.
Arguments Update_Deployment {W}.
Arguments StatusUpdate_GenAIDeployment {W}.

(** A computation of the pass: from a world to the world afterwards, the
    calls issued in order, and the value returned ([None]: the goroutine
    panicked). *)
Definition M (W A : Type) : Type := W -> W * list Call * option A.

Definition ret {W A} (a : A) : M W A := fun w => (w, [], Some a).

Definition bind {W A B} (m : M W A) (k : A -> M W B) : M W B :=
  fun w =>
    match m w with
    | (w1, t1, None) => (w1, t1, None)
    | (w1, t1, Some a) =>
      match k a w1 with
      | (w2, t2, r) => (w2, t1 ++ t2, r)
      end
    end.

Definition panic {W A} : M W A := fun w => (w, [], None).

(** Issue a client call and record it. *)
Definition call {W A} (c : Call) (op : W -> W * A) : M W A :=
  fun w => match op w with (w', a) => (w', [c], Some a) end.

Declare Scope pass_scope.
Delimit Scope pass_scope with pass.
Notation "x <- m ;; k" := (bind m (fun x => k))
  (at level 100, m at next level, right associativity) : pass_scope.
(** Go's [if err := step; err != nil { return ..., err }]. *)
Notation "'step' m ;; k" :=
  (bind m (fun r => match r with Some err => ret (Some err) | None => k end))
  (at level 100, m at next level, right associativity) : pass_scope.

Definition trace {W A} (r : W * list Call * option A) : list Call := r.1.2.
Definition world {W A} (r : W * list Call * option A) : W := r.1.1.
Definition returned {W A} (r : W * list Call * option A) : option A := r.2.

(** ** Package util: resource helpers *)

Module util.
(** [CreateResource]: [create] is the client's [Create] for the object. *)
Definition CreateResource {W} (create : M W (option error)) : M W (option error) :=
  (err <- create ;;
   match err with
   | Some e => if negb (IsAlreadyExists e) then ret (Some e) else ret None
   | None => ret None
   end)%pass.
(** [UpdateResource]: [update] is the client's [Update] for the object.  The
    source tests the error with [IsAlreadyExists], as [CreateResource] does. *)
Definition UpdateResource {W} (update : M W (option error)) : M W (option error) :=
  (err <- update ;;
   match err with
   | Some e => if negb (IsAlreadyExists e) then ret (Some e) else ret None
   | None => ret None
   end)%pass.

(** [DeleteResource]: [delete] is the client's [Delete] for the object. *)
Definition DeleteResource {W} (delete : M W (option error)) : M W (option error) :=
  (err <- delete ;;
   match err with
   | Some e => if negb (IsAlreadyExists e) then ret (Some e) else ret None
   | None => ret None
   end)%pass.

(** [b[i] = v] on a byte slice; [None] is the panic of an index out of range. *)
Definition setIndex (b : list Byte.byte) (i : nat) (v : Byte.byte) : option (list Byte.byte) :=
  if decide (i < length b) then Some (<[i := v]> b) else None.

(** The byte ['-']. *)
Definition dash : Byte.byte := Byte.x2d.

(** [generateHECToken], from the bytes [splcommon.GenerateSecret] returned:
    the four assignments in the order of the source. *)
Definition generateHECToken (hecToken : list Byte.byte) : option (list Byte.byte) :=
  hecToken ← setIndex hecToken 8 dash;
  hecToken ← setIndex hecToken 13 dash;
  hecToken ← setIndex hecToken 18 dash;
  hecToken ← setIndex hecToken 23 dash;
  Some hecToken.

(** [corev1.PodExecOptions]. *)
Record PodExecOptions := {
  Command : list string; Stdin : bool; Stdout : bool; Stderr : bool; TTY : bool
}.

(** The request [PodExecCommand] builds: the [exec] sub-resource of a pod,
    with its options. *)
Record ExecRequest := {
  exec_Name : string; exec_Namespace : string; exec_Options : PodExecOptions
}.

(** [remotecommand.StreamOptions] on entry: the text behind the [Stdin]
    reader. *)
Record StreamOptions := { stream_Stdin : string }.

(** What the collaborators of [PodExecCommand] answer: the fetch of the pod,
    the two sources of the REST configuration, the REST client, the executor,
    and the stream, which fills the two buffers and may fail. *)
Record ExecEnv := {
  getPod : NamespacedName -> option error;
  getConfig : error + string;
  pwd : string;
  buildConfigFromFlags : string -> error + string;
  restClientForGVK : string -> option error;
  newSPDYExecutor : string -> ExecRequest -> option error;
  stream : ExecRequest -> StreamOptions -> string * string * option error
}.

(** [PodExecCommand]: the two output strings and the error, or [None] for
    the panic of a nil dereference. *)
Definition PodExecCommand (env : ExecEnv) (podName namespace : string) (cmd : list string)
    (streamOptions : option StreamOptions) (tty mock : bool)
  : option (string * string * option error) :=
  match getPod env {| nn_Namespace := namespace; nn_Name := podName |} with
  | Some err => Some ("", "", Some err)
  | None =>
    match (if negb mock then getConfig env
           else buildConfigFromFlags env (pwd env +:+ "/kubeconfig")) with
    | inl err => Some ("", "", Some err)
    | inr restConfig =>
      match restClientForGVK env restConfig with
      | Some err => Some ("", "", Some err)
      | None =>
        let option :=
          {| Command := cmd;
             Stdin := match streamOptions with None => false | Some _ => true end;
             Stdout := true; Stderr := true; TTY := tty |} in
        let execReq :=
          {| exec_Name := podName; exec_Namespace := namespace; exec_Options := option |} in
        match newSPDYExecutor env restConfig execReq with
        | Some err => Some ("", "", Some err)
        | None =>
          match streamOptions with
          | None => None   (* streamOptions.Stdout = stdout on a nil pointer *)
          | Some options =>
            match stream env execReq options with
            | (_, _, Some err) => Some ("", "", Some err)
            | (stdout, stderr, None) => Some (stdout, stderr, None)
            end
          end
        end
      end
    end
  end.

(** [PodExecClient]: the namespace of its custom resource and the pod it
    targets (the client is part of the environment). *)
Record PodExecClient := { cr_Namespace : string; targetPodName : string }.

Definition RunPodExecCommand (env : ExecEnv) (podExecClient : PodExecClient) (cmd : string)
  : option (string * string * option error) :=
  let streamOptions := {| stream_Stdin := cmd |} in
  PodExecCommand env (targetPodName podExecClient) (cr_Namespace podExecClient)
    ["/bin/sh"] (Some streamOptions) false false.
End util.

(** The assignment [genAIDeployment.Status.RayClusterStatus = ...] of
    [updateRayClusterStatus]. *)
Definition withRayClusterStatus (genAIDeployment : enterpriseApi.GenAIDeployment)
    (rayCluster : rayv1.RayCluster) : enterpriseApi.GenAIDeployment :=
  {| enterpriseApi.ObjectMeta := enterpriseApi.ObjectMeta genAIDeployment;
     enterpriseApi.Spec := enterpriseApi.Spec genAIDeployment;
     enterpriseApi.Status :=
       {| enterpriseApi.RayClusterStatus_ :=
            {| enterpriseApi.ClusterName := metav1.Name (rayv1.ObjectMeta rayCluster);
               enterpriseApi.State := rayv1.State (rayv1.Status rayCluster);
               enterpriseApi.Conditions := rayv1.Conditions (rayv1.Status rayCluster) |} |} |}.

(** [existingDeployment.Spec = desiredDeployment.Spec]. *)
Definition withSpec (d : appsv1.Deployment) (s : appsv1.DeploymentSpec) : appsv1.Deployment :=
  {| appsv1.ObjectMeta := appsv1.ObjectMeta d; appsv1.Spec := s |}.

(** ** The reconciliation engine *)

Section Engine.
Context {W : Type}.

(** [GenAIDeploymentReconciler]. *)
Record GenAIDeploymentReconciler := {
  r_Client : Client W;
  r_Scheme : Scheme
}.

Variable r : GenAIDeploymentReconciler.

Local Open Scope pass_scope.

(** Sets the descriptor's status from the cluster and persists it; an error
    of the status update is logged and dropped.  The descriptor with its
    new status is what the rest of the pass sees. *)
Definition updateRayClusterStatus (genAIDeployment : enterpriseApi.GenAIDeployment)
    (rayCluster : rayv1.RayCluster) : M W enterpriseApi.GenAIDeployment :=
  let genAIDeployment' := withRayClusterStatus genAIDeployment rayCluster in
  err <- call (CallStatusUpdate genAIDeployment')
              (StatusUpdate_GenAIDeployment (r_Client r) genAIDeployment') ;;
  match err with
  | Some _ => ret genAIDeployment'   (* logged only *)
  | None => ret genAIDeployment'
  end.

(** The body shared, line for line, by [reconcileSaisServiceDeployment] and
    [reconcileVectorDbDeployment] once the desired deployment is built;
    [createMsg] and [updateMsg] are the texts of the two [fmt.Errorf]. *)
Definition reconcileDeployment (createMsg updateMsg : string)
    (desiredDeployment : appsv1.Deployment) : M W (option error) :=
  let key := {| nn_Namespace := metav1.Namespace (appsv1.ObjectMeta desiredDeployment);
                nn_Name := metav1.Name (appsv1.ObjectMeta desiredDeployment) |} in
  got <- call (CallGetDeployment key) (Get_Deployment (r_Client r) key) ;;
  match got with
  | inl err =>
    match IgnoreNotFound err with
    | Some err' => ret (Some err')
    | None =>
      cerr <- call (CallCreateDeployment desiredDeployment)
                   (Create_Deployment (r_Client r) desiredDeployment) ;;
      match cerr with
      | Some e => ret (Some (ErrWrap createMsg e))
      | None => ret None
      end
    end
  | inr existingDeployment =>
    match isEqual desiredDeployment existingDeployment with
    | None => panic
    | Some true => ret None
    | Some false =>
      let existingDeployment' := withSpec existingDeployment (appsv1.Spec desiredDeployment) in
      uerr <- call (CallUpdateDeployment existingDeployment')
                   (Update_Deployment (r_Client r) existingDeployment') ;;
      match uerr with
      | Some e => ret (Some (ErrWrap updateMsg e))
      | None => ret None
      end
    end
  end.

Definition reconcileSaisServiceDeployment (genAIDeployment : enterpriseApi.GenAIDeployment)
  : M W (option error) :=
  reconcileDeployment "failed to create new Deployment" "failed to update Deployment"
    (constructSaisServiceDeployment (r_Scheme r) genAIDeployment).

Definition reconcileVectorDbDeployment (genAIDeployment : enterpriseApi.GenAIDeployment)
  : M W (option error) :=
  reconcileDeployment "failed to create new VectorDb Deployment"
    "failed to update VectorDb Deployment"
    (constructVectorDbDeployment (r_Scheme r) genAIDeployment).

(** The fetch-then-create-or-update part of the compute-cluster block of
    [Reconcile]: the error the pass returns with, or the [rayCluster]
    variable as the block leaves it. *)
Definition ensureRayCluster (req : Request)
    (genAIDeployment : enterpriseApi.GenAIDeployment)
  : M W (error + rayv1.RayCluster) :=
  let key := {| nn_Namespace := req_Namespace req;
                nn_Name := req_Name req +:+ "-raycluster" |} in
  got <- call (CallGetRayCluster key) (Get_RayCluster (r_Client r) key) ;;
  match got with
  | inl _ =>
    (* any error of the fetch leads to a create; rayCluster stays zero *)
    let newRayCluster := constructRayCluster genAIDeployment in
    cerr <- call (CallCreateRayCluster newRayCluster)
                 (Create_RayCluster (r_Client r) newRayCluster) ;;
    match cerr with
    | Some e => ret (inl e)
    | None => ret (inr rayv1.zero)
    end
  | inr rayCluster =>
    let updatedRayCluster := updateRayCluster rayCluster genAIDeployment in
    uerr <- call (CallUpdateRayCluster updatedRayCluster)
                 (Update_RayCluster (r_Client r) updatedRayCluster) ;;
    match uerr with
    | Some e => ret (inl e)
    | None => ret (inr rayCluster)
    end
  end.

(** The whole compute-cluster block: the cluster, then its status on the
    descriptor. *)
Definition reconcileRayCluster (req : Request)
    (genAIDeployment : enterpriseApi.GenAIDeployment)
  : M W (error + enterpriseApi.GenAIDeployment) :=
  ensured <- ensureRayCluster req genAIDeployment ;;
  match ensured with
  | inl err => ret (inl err)
  | inr rayCluster =>
    g <- updateRayClusterStatus genAIDeployment rayCluster ;;
    ret (inr g)
  end.

(** The two service steps that end every pass. *)
Definition reconcileServices (genAIDeployment : enterpriseApi.GenAIDeployment)
  : M W (option error) :=
  step reconcileSaisServiceDeployment genAIDeployment ;;
  step reconcileVectorDbDeployment genAIDeployment ;;
  ret None.

(** [Reconcile]: the error returned ([None] is nil); the [ctrl.Result] is
    always the empty one. *)
Definition Reconcile (req : Request) : M W (option error) :=
  got <- call (CallGetGenAIDeployment (req_NamespacedName req))
              (Get_GenAIDeployment (r_Client r) (req_NamespacedName req)) ;;
  match got with
  | inl err => ret (IgnoreNotFound err)
  | inr genAIDeployment =>
    if enterpriseApi.Enabled (enterpriseApi.RayService (enterpriseApi.Spec genAIDeployment))
    then
      ray <- reconcileRayCluster req genAIDeployment ;;
      match ray with
      | inl err => ret (Some err)
      | inr genAIDeployment' => reconcileServices genAIDeployment'
      end
    else reconcileServices genAIDeployment
  end.
End Engine.
Arguments GenAIDeploymentReconciler : clear implicits.

(** ** A cluster: the state store behind the client *)

(** The objects of the three kinds the controller works with, each under its
    namespaced name, and the next free heap cell of the client's decoder. *)
Record Cluster := {
  genAIDeployments : gmap NamespacedName enterpriseApi.GenAIDeployment;
  rayClusters : gmap NamespacedName rayv1.RayCluster;
  deployments : gmap NamespacedName appsv1.Deployment;
  nextCell : nat
}.

Definition keyOf (m : metav1.ObjectMeta) : NamespacedName :=
  {| nn_Namespace := metav1.Namespace m; nn_Name := metav1.Name m |}.

(** An object read under a key carries that key as its identity. *)
Definition identify (key : NamespacedName) (m : metav1.ObjectMeta) : metav1.ObjectMeta :=
  {| metav1.Name := nn_Name key; metav1.Namespace := nn_Namespace key;
     metav1.UID := metav1.UID m; metav1.Labels := metav1.Labels m;
     metav1.OwnerReferences := metav1.OwnerReferences m |}.

(** Decoding an [int32] into a [*int32] field: nil stays nil, a value goes to
    a cell of the decoder's own. *)
Definition decodePtr (cell : nat) (p : int32_ptr) : int32_ptr :=
  match p with
  | None => None
  | Some ref => Some {| ref_addr := AddrHeap cell; ref_val := ref_val ref |}
  end.

Definition decodeDeployment (key : NamespacedName) (cell : nat) (d : appsv1.Deployment)
  : appsv1.Deployment :=
  {| appsv1.ObjectMeta := identify key (appsv1.ObjectMeta d);
     appsv1.Spec :=
       {| appsv1.Replicas := decodePtr cell (appsv1.Replicas (appsv1.Spec d));
          appsv1.Selector := appsv1.Selector (appsv1.Spec d);
          appsv1.Template := appsv1.Template (appsv1.Spec d) |} |}.

Definition decodeWorkerGroup (cell : nat) (g : rayv1.WorkerGroupSpec) : rayv1.WorkerGroupSpec :=
  {| rayv1.GroupName := rayv1.GroupName g;
     rayv1.Replicas := decodePtr cell (rayv1.Replicas g);
     rayv1.Worker_Template := rayv1.Worker_Template g |}.

Definition decodeRayCluster (key : NamespacedName) (cell : nat) (c : rayv1.RayCluster)
  : rayv1.RayCluster :=
  {| rayv1.ObjectMeta := identify key (rayv1.ObjectMeta c);
     rayv1.Spec :=
       {| rayv1.HeadGroup := rayv1.HeadGroup (rayv1.Spec c);
          rayv1.WorkerGroupSpecs :=
            imap (fun i => decodeWorkerGroup (cell + i)) (rayv1.WorkerGroupSpecs (rayv1.Spec c)) |};
     rayv1.Status := rayv1.Status c |}.

Definition decodeGenAIDeployment (key : NamespacedName) (g : enterpriseApi.GenAIDeployment)
  : enterpriseApi.GenAIDeployment :=
  {| enterpriseApi.ObjectMeta := identify key (enterpriseApi.ObjectMeta g);
     enterpriseApi.Spec := enterpriseApi.Spec g;
     enterpriseApi.Status := enterpriseApi.Status g |}.

Module cluster.
Definition getGenAIDeployment (key : NamespacedName) (c : Cluster)
  : Cluster * (error + enterpriseApi.GenAIDeployment) :=
  match genAIDeployments c !! key with
  | None => (c, inl ErrNotFound)
  | Some g => (c, inr (decodeGenAIDeployment key g))
  end.

Definition getRayCluster (key : NamespacedName) (c : Cluster)
  : Cluster * (error + rayv1.RayCluster) :=
  match rayClusters c !! key with
  | None => (c, inl ErrNotFound)
  | Some rc =>
    ({| genAIDeployments := genAIDeployments c; rayClusters := rayClusters c;
        deployments := deployments c;
        nextCell := nextCell c + length (rayv1.WorkerGroupSpecs (rayv1.Spec rc)) |},
     inr (decodeRayCluster key (nextCell c) rc))
  end.

Definition getDeployment (key : NamespacedName) (c : Cluster)
  : Cluster * (error + appsv1.Deployment) :=
  match deployments c !! key with
  | None => (c, inl ErrNotFound)
  | Some d =>
    ({| genAIDeployments := genAIDeployments c; rayClusters := rayClusters c;
        deployments := deployments c; nextCell := S (nextCell c) |},
     inr (decodeDeployment key (nextCell c) d))
  end.

Definition putRayCluster (rc : rayv1.RayCluster) (c : Cluster) : Cluster :=
  {| genAIDeployments := genAIDeployments c;
     rayClusters := <[ keyOf (rayv1.ObjectMeta rc) := rc ]> (rayClusters c);
     deployments := deployments c; nextCell := nextCell c |}.

Definition putDeployment (d : appsv1.Deployment) (c : Cluster) : Cluster :=
  {| genAIDeployments := genAIDeployments c; rayClusters := rayClusters c;
     deployments := <[ keyOf (appsv1.ObjectMeta d) := d ]> (deployments c);
     nextCell := nextCell c |}.

Definition createRayCluster (rc : rayv1.RayCluster) (c : Cluster) : Cluster * option error :=
  match rayClusters c !! keyOf (rayv1.ObjectMeta rc) with
  | Some _ => (c, Some ErrAlreadyExists)
  | None => (putRayCluster rc c, None)
  end.

Definition createDeployment (d : appsv1.Deployment) (c : Cluster) : Cluster * option error :=
  match deployments c !! keyOf (appsv1.ObjectMeta d) with
  | Some _ => (c, Some ErrAlreadyExists)
  | None => (putDeployment d c, None)
  end.

Definition updateRayCluster (rc : rayv1.RayCluster) (c : Cluster) : Cluster * option error :=
  match rayClusters c !! keyOf (rayv1.ObjectMeta rc) with
  | Some _ => (putRayCluster rc c, None)
  | None => (c, Some ErrNotFound)
  end.

Definition updateDeployment (d : appsv1.Deployment) (c : Cluster) : Cluster * option error :=
  match deployments c !! keyOf (appsv1.ObjectMeta d) with
  | Some _ => (putDeployment d c, None)
  | None => (c, Some ErrNotFound)
  end.

(** The status sub-resource: only the status of the stored object changes. *)
Definition statusUpdate (g : enterpriseApi.GenAIDeployment) (c : Cluster)
  : Cluster * option error :=
  match genAIDeployments c !! keyOf (enterpriseApi.ObjectMeta g) with
  | Some stored =>
    ({| genAIDeployments :=
          <[ keyOf (enterpriseApi.ObjectMeta g) :=
               {| enterpriseApi.ObjectMeta := enterpriseApi.ObjectMeta stored;
                  enterpriseApi.Spec := enterpriseApi.Spec stored;
                  enterpriseApi.Status := enterpriseApi.Status g |} ]> (genAIDeployments c);
        rayClusters := rayClusters c; deployments := deployments c;
        nextCell := nextCell c |}, None)
  | None => (c, Some ErrNotFound)
  end.

(** The client of a cluster nobody else writes to. *)
Definition client : Client Cluster :=
  {| Get_GenAIDeployment := getGenAIDeployment;
     Get_RayCluster := getRayCluster;
     Get_Deployment := getDeployment;
     Create_RayCluster := createRayCluster;
     Create_Deployment := createDeployment;
     Update_RayCluster := updateRayCluster;
     Update_Deployment := updateDeployment;
     StatusUpdate_GenAIDeployment := statusUpdate |}.

Definition empty : Cluster :=
  {| genAIDeployments := ∅; rayClusters := ∅; deployments := ∅; nextCell := 0 |}.
End cluster.

(** Fault injection: the same client, except that one call fails. *)
Definition failingGetRayCluster {W} (e : error) (c : Client W) : Client W :=
  {| Get_GenAIDeployment := Get_GenAIDeployment c;
     Get_RayCluster := fun _ w => (w, inl e);
     Get_Deployment := Get_Deployment c;
     Create_RayCluster := Create_RayCluster c;
     Create_Deployment := Create_Deployment c;
     Update_RayCluster := Update_RayCluster c;
     Update_Deployment := Update_Deployment c;
     StatusUpdate_GenAIDeployment := StatusUpdate_GenAIDeployment c |}.

Definition failingStatusUpdate {W} (e : error) (c : Client W) : Client W :=
  {| Get_GenAIDeployment := Get_GenAIDeployment c;
     Get_RayCluster := Get_RayCluster c;
     Get_Deployment := Get_Deployment c;
     Create_RayCluster := Create_RayCluster c;
     Create_Deployment := Create_Deployment c;
     Update_RayCluster := Update_RayCluster c;
     Update_Deployment := Update_Deployment c;
     StatusUpdate_GenAIDeployment := fun _ w => (w, Some e) |}.

(** ** A sample descriptor *)

Module sample.
Definition noResources : corev1.ResourceRequirements :=
  {| corev1.Limits := ∅; corev1.Requests := ∅ |}.

Definition noAffinity : corev1.Affinity :=
  {| corev1.NodeAffinity := None; corev1.PodAffinity := None; corev1.PodAntiAffinity := None |}.

Definition dataVolume : corev1.Volume :=
  {| corev1.Volume_Name := "data"; corev1.VolumeSource := "emptyDir" |}.

Definition spec (rayEnabled : bool) : enterpriseApi.GenAIDeploymentSpec :=
  {| enterpriseApi.RayService :=
       {| enterpriseApi.Enabled := rayEnabled;
          enterpriseApi.Ray_Image := "ray:2.9";
          enterpriseApi.Ray_HeadGroup :=
            {| enterpriseApi.NumCpus := "2"; enterpriseApi.Head_Resources := noResources |};
          enterpriseApi.Ray_WorkerGroup := {| enterpriseApi.Worker_Resources := noResources |};
          enterpriseApi.Ray_Replicas := 2 |};
     enterpriseApi.SaisService :=
       {| enterpriseApi.Sais_Replicas := 1;
          enterpriseApi.Sais_Image := "sais:1.0";
          enterpriseApi.Sais_Resources := noResources;
          enterpriseApi.Sais_Volume := dataVolume;
          enterpriseApi.Sais_SchedulerName := "default-scheduler";
          enterpriseApi.Sais_Affinity := noAffinity;
          enterpriseApi.Sais_Tolerations := [] |};
     enterpriseApi.VectorDbService :=
       {| enterpriseApi.VectorDb_Replicas := 3;
          enterpriseApi.VectorDb_Image := "vectordb:0.4";
          enterpriseApi.VectorDb_Resources := noResources;
          enterpriseApi.VectorDb_Volume := dataVolume;
          enterpriseApi.VectorDb_Affinity := noAffinity;
          enterpriseApi.VectorDb_Tolerations := [];
          enterpriseApi.VectorDb_TopologySpreadConstraints := [] |} |}.

(** The descriptor [x] of namespace [ns], as the user wrote it. *)
Definition descriptor (rayEnabled : bool) : enterpriseApi.GenAIDeployment :=
  {| enterpriseApi.ObjectMeta :=
       {| metav1.Name := "x"; metav1.Namespace := "ns"; metav1.UID := "uid-1";
          metav1.Labels := ∅; metav1.OwnerReferences := [] |};
     enterpriseApi.Spec := spec rayEnabled;
     enterpriseApi.Status :=
       {| enterpriseApi.RayClusterStatus_ :=
            {| enterpriseApi.ClusterName := ""; enterpriseApi.State := "";
               enterpriseApi.Conditions := [] |} |} |}.

Definition request : Request := {| req_Namespace := "ns"; req_Name := "x" |}.

Definition scheme : Scheme :=
  {| gvk_GenAIDeployment := Some ("enterprise.splunk.com/v4", "GenAIDeployment") |}.

(** A cluster that holds the descriptor and none of its managed resources. *)
Definition fresh (rayEnabled : bool) : Cluster :=
  {| genAIDeployments := {[ req_NamespacedName request := descriptor rayEnabled ]};
     rayClusters := ∅; deployments := ∅; nextCell := 0 |}.

Definition reconciler : GenAIDeploymentReconciler Cluster :=
  {| r_Client := cluster.client; r_Scheme := scheme |}.
End sample.

(** ** Notions the properties are stated with *)

(** The object a call is addressed to. *)
Definition target (c : Call) : NamespacedName :=
  match c with
  | CallGetGenAIDeployment key | CallGetRayCluster key | CallGetDeployment key => key
  | CallCreateRayCluster obj | CallUpdateRayCluster obj => keyOf (rayv1.ObjectMeta obj)
  | CallCreateDeployment obj | CallUpdateDeployment obj => keyOf (appsv1.ObjectMeta obj)
  | CallStatusUpdate obj => keyOf (enterpriseApi.ObjectMeta obj)
  end.

(** The two service deployments the engine manages. *)
Inductive Service := ServiceA | ServiceB.

Definition suffixOf (svc : Service) : string :=
  match svc with ServiceA => "-sais-service" | ServiceB => "-vectordb-service" end.

Definition constructFor (svc : Service) (s : Scheme) (g : enterpriseApi.GenAIDeployment)
  : appsv1.Deployment :=
  match svc with
  | ServiceA => constructSaisServiceDeployment s g
  | ServiceB => constructVectorDbDeployment s g
  end.

Definition reconcileFor {W} (svc : Service) (r : GenAIDeploymentReconciler W)
    (g : enterpriseApi.GenAIDeployment) : M W (option error) :=
  match svc with
  | ServiceA => reconcileSaisServiceDeployment r g
  | ServiceB => reconcileVectorDbDeployment r g
  end.

Definition derivedKey (svc : Service) (ns x : string) : NamespacedName :=
  {| nn_Namespace := ns; nn_Name := x +:+ suffixOf svc |}.

(** Replace the pod spec of a deployment and keep everything else. *)
Definition withPodSpec (d : appsv1.Deployment) (p : corev1.PodSpec) : appsv1.Deployment :=
  {| appsv1.ObjectMeta := appsv1.ObjectMeta d;
     appsv1.Spec :=
       {| appsv1.Replicas := appsv1.Replicas (appsv1.Spec d);
          appsv1.Selector := appsv1.Selector (appsv1.Spec d);
          appsv1.Template :=
            {| corev1.Template_ObjectMeta :=
                 corev1.Template_ObjectMeta (appsv1.Template (appsv1.Spec d));
               corev1.Template_Spec := p |} |} |}.

Definition nilReplicas (d : appsv1.Deployment) : appsv1.Deployment :=
  {| appsv1.ObjectMeta := appsv1.ObjectMeta d;
     appsv1.Spec :=
       {| appsv1.Replicas := None;
          appsv1.Selector := appsv1.Selector (appsv1.Spec d);
          appsv1.Template := appsv1.Template (appsv1.Spec d) |} |}.

Definition noContainers (p : corev1.PodSpec) : corev1.PodSpec :=
  {| corev1.Containers := [];
     corev1.Volumes := corev1.Volumes p;
     corev1.SchedulerName := corev1.SchedulerName p;
     corev1.PodSpec_Affinity := corev1.PodSpec_Affinity p;
     corev1.Tolerations := corev1.Tolerations p;
     corev1.TopologySpreadConstraints := corev1.TopologySpreadConstraints p |}.

Definition podSpecOf (d : appsv1.Deployment) : corev1.PodSpec :=
  corev1.Template_Spec (appsv1.Template (appsv1.Spec d)).

Definition firstImage (d : appsv1.Deployment) : option string :=
  corev1.Image <$> head (podContainers d).

Module diffSample.
(** The service-B deployment desired for the sample descriptor. *)
Definition desired : appsv1.Deployment :=
  constructVectorDbDeployment sample.scheme (sample.descriptor false).

Definition zoneSpread : corev1.TopologySpreadConstraint :=
  {| corev1.MaxSkew := 1; corev1.TopologyKey := "topology.kubernetes.io/zone";
     corev1.WhenUnsatisfiable := "DoNotSchedule" |}.

(** The same deployment, except for its topology-spread constraints. *)
Definition existing : appsv1.Deployment :=
  withPodSpec desired
    {| corev1.Containers := corev1.Containers (podSpecOf desired);
       corev1.Volumes := corev1.Volumes (podSpecOf desired);
       corev1.SchedulerName := corev1.SchedulerName (podSpecOf desired);
       corev1.PodSpec_Affinity := corev1.PodSpec_Affinity (podSpecOf desired);
       corev1.Tolerations := corev1.Tolerations (podSpecOf desired);
       corev1.TopologySpreadConstraints := [zoneSpread] |}.
End diffSample.

Definition ownerRefTo (s : string * string) (g : enterpriseApi.GenAIDeployment)
  : metav1.OwnerReference :=
  {| metav1.APIVersion := s.1; metav1.Kind := s.2;
     metav1.OwnerName := metav1.Name (enterpriseApi.ObjectMeta g);
     metav1.OwnerUID := metav1.UID (enterpriseApi.ObjectMeta g);
     metav1.Controller := true; metav1.BlockOwnerDeletion := true |}.

Module run.
(** The first pass over a cluster that holds only the descriptor, and the
    pass after it, with nothing else touching the cluster in between. *)
Definition first (rayEnabled : bool) :=
  Reconcile sample.reconciler sample.request (sample.fresh rayEnabled).

Definition second (rayEnabled : bool) :=
  Reconcile sample.reconciler sample.request (world (first rayEnabled)).

(** A client whose status updates fail. *)
Definition statusDown : GenAIDeploymentReconciler Cluster :=
  {| r_Client := failingStatusUpdate (ErrOther "status unavailable") cluster.client;
     r_Scheme := sample.scheme |}.

(** A client whose fetch of the compute cluster times out. *)
Definition rayFetchDown : GenAIDeploymentReconciler Cluster :=
  {| r_Client := failingGetRayCluster (ErrOther "timeout") cluster.client;
     r_Scheme := sample.scheme |}.

Definition fromInr {A} (default : A) (x : error + A) : A :=
  match x with inr a => a | inl _ => default end.
End run.

(** The reconciler on the client of a cluster nobody else writes to. *)
Definition onCluster (s : Scheme) : GenAIDeploymentReconciler Cluster :=
  {| r_Client := cluster.client; r_Scheme := s |}.

(** The name the engine fetches the compute cluster under. *)
Definition rayKey (req : Request) : NamespacedName :=
  {| nn_Namespace := req_Namespace req; nn_Name := req_Name req +:+ "-raycluster" |}.

(** The managed resources the descriptor of [req] asks for are all there. *)
Definition converged (req : Request) (c : Cluster) : Prop :=
  forall g0,
    genAIDeployments c !! req_NamespacedName req = Some g0 ->
    is_Some (deployments c !! derivedKey ServiceA (req_Namespace req) (req_Name req))
    /\ is_Some (deployments c !! derivedKey ServiceB (req_Namespace req) (req_Name req))
    /\ (enterpriseApi.Enabled (enterpriseApi.RayService (enterpriseApi.Spec g0)) = true ->
        is_Some (rayClusters c !! rayKey req)).

(** ** Further notions: kinds of calls *)

(** A call on the compute cluster resource. *)
Definition isRayClusterCall (c : Call) : bool :=
  match c with
  | CallGetRayCluster _ | CallCreateRayCluster _ | CallUpdateRayCluster _ => true
  | _ => false
  end.

(** A call on a deployment. *)
Definition isDeploymentCall (c : Call) : bool :=
  match c with
  | CallGetDeployment _ | CallCreateDeployment _ | CallUpdateDeployment _ => true
  | _ => false
  end.

(** The number of calls of a trace that satisfy [p]. *)
Definition count (p : Call -> bool) (t : list Call) : nat := length (List.filter p t).

(** The texts of the [fmt.Errorf] of the two service steps. *)
Definition createMessage (svc : Service) : string :=
  match svc with
  | ServiceA => "failed to create new Deployment"
  | ServiceB => "failed to create new VectorDb Deployment"
  end.

Definition updateMessage (svc : Service) : string :=
  match svc with
  | ServiceA => "failed to update Deployment"
  | ServiceB => "failed to update VectorDb Deployment"
  end.

(** Fault injection: every fetch of a deployment fails with [e]. *)
Definition failingGetDeployment {W} (e : error) (c : Client W) : Client W :=
  {| Get_GenAIDeployment := Get_GenAIDeployment c;
     Get_RayCluster := Get_RayCluster c;
     Get_Deployment := fun _ w => (w, inl e);
     Create_RayCluster := Create_RayCluster c;
     Create_Deployment := Create_Deployment c;
     Update_RayCluster := Update_RayCluster c;
     Update_Deployment := Update_Deployment c;
     StatusUpdate_GenAIDeployment := StatusUpdate_GenAIDeployment c |}.

Module scenario.
(** A client whose fetch of a deployment times out. *)
Definition deploymentFetchDown : GenAIDeploymentReconciler Cluster :=
  {| r_Client := failingGetDeployment (ErrOther "timeout") cluster.client;
     r_Scheme := sample.scheme |}.

(** A client that answers not-found for deployments that do exist, as a
    stale cache would. *)
Definition deploymentFetchStale : GenAIDeploymentReconciler Cluster :=
  {| r_Client := failingGetDeployment ErrNotFound cluster.client;
     r_Scheme := sample.scheme |}.

(** The descriptor as the client decodes it from the sample cluster. *)
Definition fetched (rayEnabled : bool) : enterpriseApi.GenAIDeployment :=
  decodeGenAIDeployment (req_NamespacedName sample.request) (sample.descriptor rayEnabled).
End scenario.

(** ** Further notions: what a pass leaves in the cluster *)

(** The deployment a service step leaves under [key]: the desired one when
    nothing was stored, and otherwise the stored one, as decoded, with the
    desired specification. *)
Definition deploymentAfter (desired : appsv1.Deployment) (c : Cluster) : appsv1.Deployment :=
  let key := keyOf (appsv1.ObjectMeta desired) in
  match deployments c !! key with
  | None => desired
  | Some stored =>
    withSpec (decodeDeployment key (nextCell c) stored) (appsv1.Spec desired)
  end.

(** The write a service step issues for it. *)
Definition deploymentWrite (desired : appsv1.Deployment) (c : Cluster) : Call :=
  match deployments c !! keyOf (appsv1.ObjectMeta desired) with
  | None => CallCreateDeployment desired
  | Some _ => CallUpdateDeployment (deploymentAfter desired c)
  end.

(** The specification of a compute cluster without the addresses of its
    [Replicas] cells: what a comparison by value sees. *)
Definition rayClusterContent (rc : rayv1.RayCluster) :=
  (rayv1.HeadGroup (rayv1.Spec rc),
   map (fun g => (rayv1.GroupName g, ref_val <$> rayv1.Replicas g, rayv1.Worker_Template g))
       (rayv1.WorkerGroupSpecs (rayv1.Spec rc))).

(** What the compute-cluster block leaves under the cluster's name, and what
    the [rayCluster] variable holds for the status. *)
Definition rayClusterAfter (req : Request) (g : enterpriseApi.GenAIDeployment) (c : Cluster)
  : rayv1.RayCluster :=
  match rayClusters c !! rayKey req with
  | None => constructRayCluster g
  | Some rc => decodeRayCluster (rayKey req) (nextCell c) rc
  end.

Definition rayClusterSeen (req : Request) (c : Cluster) : rayv1.RayCluster :=
  match rayClusters c !! rayKey req with
  | None => rayv1.zero
  | Some rc => decodeRayCluster (rayKey req) (nextCell c) rc
  end.

(** ** Further notions: labels and pods *)

(** A label selector with match labels only selects the pods that carry each
    of its labels. *)
Definition selects (sel : metav1.LabelSelector) (labels : gmap string string) : Prop :=
  metav1.MatchLabels sel ⊆ labels.

(** The labels of the pods a deployment creates. *)
Definition podLabels (d : appsv1.Deployment) : gmap string string :=
  metav1.Labels (corev1.Template_ObjectMeta (appsv1.Template (appsv1.Spec d))).

(** Every volume mount of every container names a volume of the pod. *)
Definition mountsDeclared (p : corev1.PodSpec) : Prop :=
  Forall (fun c =>
            Forall (fun m => exists v, In v (corev1.Volumes p)
                                       /\ corev1.Volume_Name v = corev1.VolumeMount_Name m)
                   (corev1.VolumeMounts c))
         (corev1.Containers p).

(** ** A sample environment for the pod exec helpers *)

Module execSample.
(** Collaborators that all succeed, with a stream that has written to both
    buffers when it fails. *)
Definition env (streamError : option error) : util.ExecEnv :=
  {| util.getPod := fun _ => None;
     util.getConfig := inr "in-cluster";
     util.pwd := "/home/operator";
     util.buildConfigFromFlags := fun path => inr path;
     util.restClientForGVK := fun _ => None;
     util.newSPDYExecutor := fun _ _ => None;
     util.stream := fun _ options =>
                      ("ran: " +:+ util.stream_Stdin options, "warning", streamError) |}.

Definition client : util.PodExecClient :=
  {| util.cr_Namespace := "ns"; util.targetPodName := "splunk-idxc-indexer-0" |}.
End execSample.

(** ** Further notions: the verbs of a trace *)

Inductive Verb :=
| GetDescriptor | GetCluster | CreateCluster | UpdateCluster | UpdateStatus
| GetService | CreateService | UpdateService.

Definition verbOf (c : Call) : Verb :=
  match c with
  | CallGetGenAIDeployment _ => GetDescriptor
  | CallGetRayCluster _ => GetCluster
  | CallCreateRayCluster _ => CreateCluster
  | CallUpdateRayCluster _ => UpdateCluster
  | CallStatusUpdate _ => UpdateStatus
  | CallGetDeployment _ => GetService
  | CallCreateDeployment _ => CreateService
  | CallUpdateDeployment _ => UpdateService
  end.

(** * Properties *)

(** ** Names and ownership of the constructed resources *)

Lemma SetControllerReference_identity owner m s :
  metav1.Name (SetControllerReference owner m s).1 = metav1.Name m
  /\ metav1.Namespace (SetControllerReference owner m s).1 = metav1.Namespace m.
Proof.
  unfold SetControllerReference.
  destruct (validateOwner _ _); [done|].
  destruct (gvk_GenAIDeployment s) as [[v k]|]; [|done].
  destruct (List.find _ _); [|done].
  destruct (referSameObject _ _); done.
Qed.

Lemma constructSaisServiceDeployment_key s g :
  keyOf (appsv1.ObjectMeta (constructSaisServiceDeployment s g)) =
  {| nn_Namespace := metav1.Namespace (enterpriseApi.ObjectMeta g);
     nn_Name := metav1.Name (enterpriseApi.ObjectMeta g) +:+ "-sais-service" |}.
Proof.
  unfold keyOf, constructSaisServiceDeployment; cbn [appsv1.ObjectMeta].
  by destruct (SetControllerReference_identity g
       {| metav1.Name := metav1.Name (enterpriseApi.ObjectMeta g) +:+ "-sais-service";
          metav1.Namespace := metav1.Namespace (enterpriseApi.ObjectMeta g);
          metav1.UID := ""; metav1.Labels := ∅; metav1.OwnerReferences := [] |} s) as [-> ->].
Qed.

Lemma constructVectorDbDeployment_key s g :
  keyOf (appsv1.ObjectMeta (constructVectorDbDeployment s g)) =
  {| nn_Namespace := metav1.Namespace (enterpriseApi.ObjectMeta g);
     nn_Name := metav1.Name (enterpriseApi.ObjectMeta g) +:+ "-vectordb-service" |}.
Proof.
  unfold keyOf, constructVectorDbDeployment; cbn [appsv1.ObjectMeta].
  by destruct (SetControllerReference_identity g
       {| metav1.Name := metav1.Name (enterpriseApi.ObjectMeta g) +:+ "-vectordb-service";
          metav1.Namespace := metav1.Namespace (enterpriseApi.ObjectMeta g);
          metav1.UID := ""; metav1.Labels := ∅; metav1.OwnerReferences := [] |} s) as [-> ->].
Qed.

Lemma constructRayCluster_key g :
  keyOf (rayv1.ObjectMeta (constructRayCluster g)) =
  {| nn_Namespace := metav1.Namespace (enterpriseApi.ObjectMeta g);
     nn_Name := metav1.Name (enterpriseApi.ObjectMeta g) +:+ "-raycluster" |}.
Proof. reflexivity. Qed.

Lemma constructFor_key svc s g :
  keyOf (appsv1.ObjectMeta (constructFor svc s g)) =
  derivedKey svc (metav1.Namespace (enterpriseApi.ObjectMeta g))
                 (metav1.Name (enterpriseApi.ObjectMeta g)).
Proof.
  destruct svc; [apply constructSaisServiceDeployment_key | apply constructVectorDbDeployment_key].
Qed.

(** What one run of the shared deployment step can look like, on any client. *)
Lemma reconcileDeployment_trace {W} (r : GenAIDeploymentReconciler W) cm um desired w :
  let key := keyOf (appsv1.ObjectMeta desired) in
  let t := trace (reconcileDeployment r cm um desired w) in
  t = [CallGetDeployment key]
  \/ t = [CallGetDeployment key; CallCreateDeployment desired]
  \/ exists existing,
       (Get_Deployment (r_Client r) key w).2 = inr existing
       /\ isEqual desired existing = Some false
       /\ t = [CallGetDeployment key;
               CallUpdateDeployment (withSpec existing (appsv1.Spec desired))].
Proof.
  intros key t; subst t. unfold reconcileDeployment, bind, call, ret, panic, trace.
  fold (keyOf (appsv1.ObjectMeta desired)); fold key.
  destruct (Get_Deployment (r_Client r) key w) as [w1 [e|existing]] eqn:Hget; cbn.
  - destruct (IgnoreNotFound e); cbn; [by left|].
    destruct (Create_Deployment _ _ _) as [w2 [e'|]]; cbn; by right; left.
  - destruct (isEqual desired existing) as [[]|] eqn:Heq; cbn; [by left| |by left].
    right; right. exists existing. split; [done|]. split; [done|].
    destruct (Update_Deployment _ _ _) as [w2 [e'|]]; by cbn.
Qed.

(** Either service step opens with the fetch of its deployment under the
    derived name. *)
Lemma reconcileFor_fetches_first {W} (r : GenAIDeploymentReconciler W) svc g w :
  exists rest,
    trace (reconcileFor svc r g w)
    = CallGetDeployment (derivedKey svc (metav1.Namespace (enterpriseApi.ObjectMeta g))
                                    (metav1.Name (enterpriseApi.ObjectMeta g))) :: rest.
Proof.
  assert (Hshape : exists cm um, reconcileFor svc r g w
            = reconcileDeployment r cm um (constructFor svc (r_Scheme r) g) w).
  { destruct svc; eexists _, _; reflexivity. }
  destruct Hshape as (cm & um & ->).
  destruct (reconcileDeployment_trace r cm um (constructFor svc (r_Scheme r) g) w)
    as [-> | [-> | (existing & _ & _ & ->)]]; rewrite constructFor_key; by eexists.
Qed.

(** C7. For a descriptor named [x] in namespace [ns], the service-A
    deployment is constructed with name [x-sais-service] in [ns] and the
    service-B deployment with name [x-vectordb-service] in [ns]; on any
    client, the step of either service starts by fetching that name in that
    namespace, and every fetch and create of the step is addressed to it. *)
Theorem naming_determinism {W} (r : GenAIDeploymentReconciler W)
    (g : enterpriseApi.GenAIDeployment) (w : W) (svc : Service) :
  let ns := metav1.Namespace (enterpriseApi.ObjectMeta g) in
  let x := metav1.Name (enterpriseApi.ObjectMeta g) in
  let addressed := {| nn_Namespace := ns;
                      nn_Name := x +:+ match svc with
                                       | ServiceA => "-sais-service"
                                       | ServiceB => "-vectordb-service"
                                       end |} in
  metav1.Name (appsv1.ObjectMeta (constructFor svc (r_Scheme r) g)) = nn_Name addressed
  /\ metav1.Namespace (appsv1.ObjectMeta (constructFor svc (r_Scheme r) g)) = ns
  /\ (exists rest, trace (reconcileFor svc r g w) = CallGetDeployment addressed :: rest)
  /\ Forall (fun c => isUpdate c = false -> target c = addressed)
            (trace (reconcileFor svc r g w)).
Proof.
  intros ns x addressed.
  assert (Hkey : keyOf (appsv1.ObjectMeta (constructFor svc (r_Scheme r) g)) = addressed).
  { rewrite constructFor_key. by destruct svc. }
  split; [by rewrite <- Hkey|]. split; [by apply (f_equal nn_Namespace) in Hkey|].
  assert (Hshape : exists cm um, reconcileFor svc r g w
            = reconcileDeployment r cm um (constructFor svc (r_Scheme r) g) w).
  { destruct svc; eexists _, _; reflexivity. }
  destruct Hshape as (cm & um & ->).
  destruct (reconcileDeployment_trace r cm um (constructFor svc (r_Scheme r) g) w)
    as [-> | [-> | (existing & _ & _ & ->)]]; rewrite Hkey.
  - split; [by eexists|]. by repeat constructor.
  - split; [by eexists|]. repeat constructor; cbn; by rewrite ?Hkey.
  - split; [by eexists|]. repeat constructor; cbn; done.
Qed.

(** ** The diff/equality evaluator *)

Lemma isEqual_defined desired existing :
  podContainers desired <> [] -> podContainers existing <> [] ->
  exists b, isEqual desired existing = Some b.
Proof.
  intros Hd He. unfold isEqual.
  destruct (ptr_eqb _ _); [|by eexists].
  destruct (podContainers desired); [done|].
  destruct (podContainers existing); [done|]. by eexists.
Qed.

(** Exactly when [isEqual] panics: the two [Replicas] pointers are equal, so
    that the right operand of [&&] is evaluated, and one side has no
    container. *)
Lemma isEqual_panics_iff desired existing :
  isEqual desired existing = None
  <-> ptr_eqb (appsv1.Replicas (appsv1.Spec desired))
              (appsv1.Replicas (appsv1.Spec existing)) = true
      /\ (podContainers desired = [] \/ podContainers existing = []).
Proof.
  unfold isEqual. destruct (ptr_eqb _ _).
  - destruct (podContainers desired); [by intuition|].
    destruct (podContainers existing); [by intuition|].
    split; [done|]. by intros [_ [?|?]].
  - split; [done|]. by intros [? _].
Qed.

(** C10. [isEqual] indexes the first container of both deployments without a
    guard: it returns a verdict whenever both pod templates have at least one
    container, and there is an input, an existing deployment whose pod
    template has no container, on which it panics with an index out of
    range. *)
Theorem isEqual_unguarded_index :
  (forall desired existing,
      podContainers desired <> [] -> podContainers existing <> [] ->
      isEqual desired existing <> None)
  /\ (exists desired existing,
        podContainers desired <> [] /\ podContainers existing = []
        /\ isEqual desired existing = None).
Proof.
  split.
  - intros desired existing Hd He.
    destruct (isEqual_defined desired existing Hd He) as [b ->]. done.
  - exists (nilReplicas (constructSaisServiceDeployment sample.scheme (sample.descriptor false))).
    exists (nilReplicas (withPodSpec
              (constructSaisServiceDeployment sample.scheme (sample.descriptor false))
              (noContainers (podSpecOf
                 (constructSaisServiceDeployment sample.scheme (sample.descriptor false)))))).
    split; [done|]. split; reflexivity.
Qed.

Lemma isEqual_unguarded_index_witness :
  let d := constructSaisServiceDeployment sample.scheme (sample.descriptor false) in
  podContainers d <> [] /\ isEqual d d <> None.
Proof.
  intros d. split; [done|].
  apply (proj1 isEqual_unguarded_index d d); done.
Defined.

(** [isEqual] reads two things only: the [Replicas] pointers and, when these
    are the same pointer, the image of the first container of each side. *)
Lemma isEqual_reads_two_fields desired existing c c' cs cs' :
  podContainers desired = c :: cs -> podContainers existing = c' :: cs' ->
  isEqual desired existing =
  Some (ptr_eqb (appsv1.Replicas (appsv1.Spec desired)) (appsv1.Replicas (appsv1.Spec existing))
        && bool_decide (corev1.Image c = corev1.Image c')).
Proof.
  intros Hd He. unfold isEqual. rewrite Hd, He. by destruct (ptr_eqb _ _).
Qed.

(** C3, as the spec states it, fails: two deployment specs that differ only
    in their topology-spread constraints are classified as equal. *)
Lemma diff_completeness_counterexample :
  appsv1.Spec diffSample.desired <> appsv1.Spec diffSample.existing
  /\ corev1.TopologySpreadConstraints (podSpecOf diffSample.desired) = []
  /\ corev1.TopologySpreadConstraints (podSpecOf diffSample.existing) = [diffSample.zoneSpread]
  /\ isEqual diffSample.desired diffSample.existing = Some true.
Proof.
  split; [|split; [reflexivity|split; reflexivity]].
  intros H.
  apply (f_equal (fun s => corev1.TopologySpreadConstraints
                             (corev1.Template_Spec (appsv1.Template s)))) in H.
  discriminate H.
Qed.

(** C3, amended. The evaluator compares the replica-count reference and the
    image of the first container, and nothing else: two deployments that
    agree on these two are classified as equal, whatever their topology-spread
    constraints, tolerations, affinity, volumes, scheduler name or resource
    requests are. *)
Theorem isEqual_compares_two_fields (desired existing : appsv1.Deployment) (image : string) :
  appsv1.Replicas (appsv1.Spec desired) = appsv1.Replicas (appsv1.Spec existing) ->
  firstImage desired = Some image ->
  firstImage existing = Some image ->
  isEqual desired existing = Some true.
Proof.
  unfold firstImage. intros Hr Hd He.
  destruct (podContainers desired) as [|c cs] eqn:Ed; [discriminate|].
  destruct (podContainers existing) as [|c' cs'] eqn:Ee; [discriminate|].
  rewrite (isEqual_reads_two_fields _ _ _ _ _ _ Ed Ee), Hr.
  cbn in Hd, He. injection Hd as Hd. injection He as He.
  rewrite Hd, He, bool_decide_eq_true_2 by done.
  destruct (appsv1.Replicas (appsv1.Spec existing)) as [ref|]; cbn; [|done].
  by rewrite bool_decide_eq_true_2.
Qed.

Lemma isEqual_compares_two_fields_witness :
  appsv1.Replicas (appsv1.Spec diffSample.desired)
    = appsv1.Replicas (appsv1.Spec diffSample.existing)
  /\ firstImage diffSample.desired = Some "vectordb:0.4"
  /\ firstImage diffSample.existing = Some "vectordb:0.4"
  /\ isEqual diffSample.desired diffSample.existing = Some true.
Proof.
  split; [reflexivity|]. split; [reflexivity|]. split; [reflexivity|].
  apply (isEqual_compares_two_fields diffSample.desired diffSample.existing "vectordb:0.4");
    reflexivity.
Defined.

(** ** Ownership *)

Lemma SetControllerReference_fresh g m gvk :
  metav1.Namespace m = metav1.Namespace (enterpriseApi.ObjectMeta g) ->
  metav1.OwnerReferences m = [] ->
  metav1.OwnerReferences
    (SetControllerReference g m {| gvk_GenAIDeployment := Some gvk |}).1 = [ownerRefTo gvk g].
Proof.
  intros Hns Hrefs. unfold SetControllerReference, validateOwner. rewrite Hns.
  destruct gvk as [v k].
  repeat case_bool_decide; try congruence; cbn; rewrite Hrefs; reflexivity.
Qed.

(** With the descriptor's kind registered in the scheme, both service
    deployments leave their constructor owned by the descriptor. *)
Lemma constructFor_owner svc gvk g :
  metav1.OwnerReferences
    (appsv1.ObjectMeta (constructFor svc {| gvk_GenAIDeployment := Some gvk |} g))
  = [ownerRefTo gvk g].
Proof. destruct svc; by apply SetControllerReference_fresh. Qed.

Lemma constructRayCluster_no_owner g :
  metav1.OwnerReferences (rayv1.ObjectMeta (constructRayCluster g)) = [].
Proof. reflexivity. Qed.

(** C5 does not hold of the compute cluster: on the first pass over the
    sample descriptor the cluster is created without any owner reference,
    while the two service deployments are created with the reference to
    their descriptor. *)
Theorem RayCluster_created_without_owner :
  let pass := Reconcile sample.reconciler sample.request (sample.fresh true) in
  let owner := ownerRefTo ("enterprise.splunk.com/v4", "GenAIDeployment") (sample.descriptor true) in
  exists rc a b,
    List.filter isCreate (trace pass)
      = [CallCreateRayCluster rc; CallCreateDeployment a; CallCreateDeployment b]
    /\ metav1.OwnerReferences (rayv1.ObjectMeta rc) = []
    /\ metav1.OwnerReferences (appsv1.ObjectMeta a) = [owner]
    /\ metav1.OwnerReferences (appsv1.ObjectMeta b) = [owner].
Proof.
  cbv zeta. eexists _, _, _. split; [vm_compute; reflexivity|].
  split; [reflexivity|split; reflexivity].
Qed.

(** ** The pass on an arbitrary client *)

(** C6. When the fetch of the parent descriptor answers not-found, the pass
    returns success and the fetch of the descriptor is the only call it
    issues: no get, create, update or status-update for a managed resource. *)
Theorem Reconcile_descriptor_not_found {W} (r : GenAIDeploymentReconciler W)
    (req : Request) (w w' : W) (e : error) :
  Get_GenAIDeployment (r_Client r) (req_NamespacedName req) w = (w', inl e) ->
  IsNotFound e = true ->
  returned (Reconcile r req w) = Some None
  /\ trace (Reconcile r req w) = [CallGetGenAIDeployment (req_NamespacedName req)]
  /\ List.filter isManagedResourceCall (trace (Reconcile r req w)) = []
  /\ world (Reconcile r req w) = w'.
Proof.
  intros Hget Hnf.
  assert (Hrun : Reconcile r req w
                 = (w', [CallGetGenAIDeployment (req_NamespacedName req)], Some None)).
  { unfold Reconcile, bind, call, ret. rewrite Hget. cbn.
    unfold IgnoreNotFound. by rewrite Hnf. }
  rewrite Hrun. done.
Qed.

Lemma Reconcile_descriptor_not_found_witness :
  Get_GenAIDeployment (r_Client sample.reconciler) (req_NamespacedName sample.request)
    cluster.empty = (cluster.empty, inl ErrNotFound)
  /\ IsNotFound ErrNotFound = true
  /\ returned (Reconcile sample.reconciler sample.request cluster.empty) = Some None
  /\ List.filter isManagedResourceCall
       (trace (Reconcile sample.reconciler sample.request cluster.empty)) = [].
Proof.
  split; [reflexivity|]. split; [reflexivity|].
  destruct (Reconcile_descriptor_not_found sample.reconciler sample.request
              cluster.empty cluster.empty ErrNotFound) as (Hret & _ & Hnone & _);
    [reflexivity | reflexivity |].
  split; [exact Hret | exact Hnone].
Defined.

(** C9. When the deployment of service A or of service B exists and the
    evaluator reports a divergence, the step issues one update, and the
    object it sends is the existing one with its specification replaced by
    the desired one: name, namespace, owner references and the rest of the
    metadata are those of the existing object. *)
Theorem update_replaces_only_the_spec {W} (r : GenAIDeploymentReconciler W)
    (svc : Service) (g : enterpriseApi.GenAIDeployment) (w w' : W)
    (existing : appsv1.Deployment) :
  let desired := constructFor svc (r_Scheme r) g in
  Get_Deployment (r_Client r) (keyOf (appsv1.ObjectMeta desired)) w = (w', inr existing) ->
  isEqual desired existing = Some false ->
  exists sent,
    trace (reconcileFor svc r g w)
      = [CallGetDeployment (keyOf (appsv1.ObjectMeta desired)); CallUpdateDeployment sent]
    /\ appsv1.Spec sent = appsv1.Spec desired
    /\ appsv1.ObjectMeta sent = appsv1.ObjectMeta existing
    /\ metav1.Name (appsv1.ObjectMeta sent) = metav1.Name (appsv1.ObjectMeta existing)
    /\ metav1.Namespace (appsv1.ObjectMeta sent) = metav1.Namespace (appsv1.ObjectMeta existing)
    /\ metav1.OwnerReferences (appsv1.ObjectMeta sent)
       = metav1.OwnerReferences (appsv1.ObjectMeta existing).
Proof.
  intros desired Hget Hneq.
  exists (withSpec existing (appsv1.Spec desired)).
  split; [|by repeat split].
  assert (Hshape : exists cm um, reconcileFor svc r g w = reconcileDeployment r cm um desired w).
  { destruct svc; eexists _, _; reflexivity. }
  destruct Hshape as (cm & um & ->).
  unfold reconcileDeployment, bind, call, ret, trace.
  fold (keyOf (appsv1.ObjectMeta desired)). rewrite Hget. cbn. rewrite Hneq.
  destruct (Update_Deployment _ _ _) as [w2 [e|]]; reflexivity.
Qed.

(** The two service steps in sequence: the fetch for service A comes first,
    and the fetch for service B follows when the step of service A returned
    nil. *)
Lemma reconcileServices_trace {W} (r : GenAIDeploymentReconciler W) g w :
  let ns := metav1.Namespace (enterpriseApi.ObjectMeta g) in
  let x := metav1.Name (enterpriseApi.ObjectMeta g) in
  (exists rest,
      trace (reconcileServices r g w) = CallGetDeployment (derivedKey ServiceA ns x) :: rest)
  /\ (returned (reconcileSaisServiceDeployment r g w) = Some None ->
      In (CallGetDeployment (derivedKey ServiceB ns x)) (trace (reconcileServices r g w))).
Proof.
  intros ns x.
  destruct (reconcileFor_fetches_first r ServiceA g w) as [restA HA].
  cbn [reconcileFor] in HA. fold ns x in HA.
  unfold reconcileServices. unfold bind, ret. unfold trace, returned in *.
  destruct (reconcileSaisServiceDeployment r g w) as [[wa ta] ra].
  cbn [fst snd] in HA |- *. subst ta.
  destruct ra as [[err|]|]; cbn [fst snd].
  - split; [by eexists | done].
  - destruct (reconcileFor_fetches_first r ServiceB g wa) as [restB HB].
    cbn [reconcileFor] in HB. fold ns x in HB. unfold trace in HB.
    destruct (reconcileVectorDbDeployment r g wa) as [[wb tb] rb].
    cbn [fst snd] in HB. subst tb.
    destruct rb as [[eb|]|]; cbn [fst snd]; (split; [by eexists|]); intros _;
      rewrite ?app_nil_r; apply in_or_app; right; by left.
  - split; [by eexists | done].
Qed.

(** ** Status aggregation is best effort *)

(** C8. When the compute cluster has been fetched and created or updated and
    the status update that follows fails, the pass goes on: its calls are
    those made so far followed by the calls of the two service steps, the
    first of which is the fetch of the service-A deployment, with the fetch of
    the service-B deployment after it when the service-A step returns nil; and
    the pass returns what the service steps return, not the status-update
    error. *)
Theorem status_failure_does_not_abort {W} (r : GenAIDeploymentReconciler W)
    (req : Request) (g : enterpriseApi.GenAIDeployment)
    (rayCluster : rayv1.RayCluster) (w0 w1 w2 w3 : W) (t : list Call) (e : error) :
  let g' := withRayClusterStatus g rayCluster in
  let services := reconcileServices r g' w3 in
  Get_GenAIDeployment (r_Client r) (req_NamespacedName req) w0 = (w1, inr g) ->
  enterpriseApi.Enabled (enterpriseApi.RayService (enterpriseApi.Spec g)) = true ->
  ensureRayCluster r req g w1 = (w2, t, Some (inr rayCluster)) ->
  StatusUpdate_GenAIDeployment (r_Client r) g' w2 = (w3, Some e) ->
  trace (Reconcile r req w0)
    = (CallGetGenAIDeployment (req_NamespacedName req) :: t)
        ++ CallStatusUpdate g' :: trace services
  /\ returned (Reconcile r req w0) = returned services
  /\ world (Reconcile r req w0) = world services
  /\ (exists rest,
        trace services
        = CallGetDeployment (derivedKey ServiceA (metav1.Namespace (enterpriseApi.ObjectMeta g))
                                        (metav1.Name (enterpriseApi.ObjectMeta g))) :: rest)
  /\ (returned (reconcileSaisServiceDeployment r g' w3) = Some None ->
      In (CallGetDeployment (derivedKey ServiceB (metav1.Namespace (enterpriseApi.ObjectMeta g))
                                        (metav1.Name (enterpriseApi.ObjectMeta g))))
         (trace services)).
Proof.
  intros g' services Hget Hen Hray Hstatus.
  assert (Hrun : Reconcile r req w0
            = (world services,
               (CallGetGenAIDeployment (req_NamespacedName req) :: t)
                 ++ CallStatusUpdate g' :: trace services,
               returned services)).
  { unfold Reconcile, bind at 1, call at 1. rewrite Hget. cbn [ret]. rewrite Hen.
    unfold bind at 1, reconcileRayCluster, bind at 1. rewrite Hray.
    unfold updateRayClusterStatus, bind, call, ret. fold g'. rewrite Hstatus.
    fold services. destruct services as [[ws ts] rs]. cbn.
    rewrite <- !app_assoc. reflexivity. }
  rewrite Hrun. split; [done|]. split; [done|]. split; [done|].
  exact (reconcileServices_trace r g' w3).
Qed.

(** ** Concrete passes over the sample cluster *)

Lemma update_replaces_only_the_spec_witness :
  let w := world (run.first false) in
  let g := sample.descriptor false in
  let desired := constructFor ServiceB sample.scheme g in
  let got := Get_Deployment cluster.client (keyOf (appsv1.ObjectMeta desired)) w in
  let existing := run.fromInr desired got.2 in
  got = (got.1, inr existing)
  /\ isEqual desired existing = Some false
  /\ exists sent,
       trace (reconcileFor ServiceB sample.reconciler g w)
         = [CallGetDeployment (keyOf (appsv1.ObjectMeta desired)); CallUpdateDeployment sent]
       /\ appsv1.ObjectMeta sent = appsv1.ObjectMeta existing.
Proof.
  intros w g desired got existing.
  assert (Hget : got = (got.1, inr existing)) by (vm_compute; reflexivity).
  assert (Hneq : isEqual desired existing = Some false) by (vm_compute; reflexivity).
  split; [exact Hget|]. split; [exact Hneq|].
  destruct (update_replaces_only_the_spec sample.reconciler ServiceB g w got.1 existing
              Hget Hneq) as (sent & Htrace & _ & Hmeta & _).
  exists sent. split; [exact Htrace | exact Hmeta].
Defined.

Lemma status_failure_does_not_abort_witness :
  let req := sample.request in
  let w0 := sample.fresh true in
  let fetched := Get_GenAIDeployment (r_Client run.statusDown) (req_NamespacedName req) w0 in
  let g := run.fromInr (sample.descriptor true) fetched.2 in
  let ensured := ensureRayCluster run.statusDown req g fetched.1 in
  let rayCluster := run.fromInr rayv1.zero (default (inr rayv1.zero) (returned ensured)) in
  let g' := withRayClusterStatus g rayCluster in
  let status := StatusUpdate_GenAIDeployment (r_Client run.statusDown) g' (world ensured) in
  fetched = (fetched.1, inr g)
  /\ enterpriseApi.Enabled (enterpriseApi.RayService (enterpriseApi.Spec g)) = true
  /\ ensured = (world ensured, trace ensured, Some (inr rayCluster))
  /\ status = (status.1, Some (ErrOther "status unavailable"))
  /\ returned (Reconcile run.statusDown req w0)
     = returned (reconcileServices run.statusDown g' status.1)
  /\ returned (Reconcile run.statusDown req w0) = Some None.
Proof.
  intros req w0 fetched g ensured rayCluster g' status.
  assert (H1 : fetched = (fetched.1, inr g)) by (vm_compute; reflexivity).
  assert (H2 : enterpriseApi.Enabled (enterpriseApi.RayService (enterpriseApi.Spec g)) = true)
    by reflexivity.
  assert (H3 : ensured = (world ensured, trace ensured, Some (inr rayCluster)))
    by (vm_compute; reflexivity).
  assert (H4 : status = (status.1, Some (ErrOther "status unavailable")))
    by (vm_compute; reflexivity).
  split; [exact H1|]. split; [exact H2|]. split; [exact H3|]. split; [exact H4|].
  destruct (status_failure_does_not_abort run.statusDown req g rayCluster w0 fetched.1
              (world ensured) status.1 (trace ensured) (ErrOther "status unavailable")
              H1 H2 H3 H4) as (_ & Hret & _).
  split; [exact Hret|]. vm_compute; reflexivity.
Defined.

(** ** Create and update of the compute cluster *)

(** [util.CreateResource] lets an already-exists answer pass as success. *)
Lemma CreateResource_AlreadyExists {W} (create : M W (option error)) w w' t e :
  create w = (w', t, Some (Some e)) -> IsAlreadyExists e = true ->
  util.CreateResource create w = (w', t, Some None).
Proof.
  intros Hc He. unfold util.CreateResource, bind, ret. rewrite Hc, He. cbn.
  by rewrite app_nil_r.
Qed.

(** The engine calls the client's [Create] itself, and any error of it ends
    the pass with that error. *)
Lemma ensureRayCluster_create_error {W} (r : GenAIDeploymentReconciler W) req g w w1 w2 e0 e :
  let key := {| nn_Namespace := req_Namespace req; nn_Name := req_Name req +:+ "-raycluster" |} in
  Get_RayCluster (r_Client r) key w = (w1, inl e0) ->
  Create_RayCluster (r_Client r) (constructRayCluster g) w1 = (w2, Some e) ->
  ensureRayCluster r req g w
  = (w2, [CallGetRayCluster key; CallCreateRayCluster (constructRayCluster g)], Some (inl e)).
Proof.
  intros key Hget Hcreate. unfold ensureRayCluster, bind, call, ret.
  fold key. rewrite Hget. cbn. by rewrite Hcreate.
Qed.

Lemma reconcileDeployment_create_error {W} (r : GenAIDeploymentReconciler W)
    cm um desired w w1 w2 e0 e :
  Get_Deployment (r_Client r) (keyOf (appsv1.ObjectMeta desired)) w = (w1, inl e0) ->
  IsNotFound e0 = true ->
  Create_Deployment (r_Client r) desired w1 = (w2, Some e) ->
  returned (reconcileDeployment r cm um desired w) = Some (Some (ErrWrap cm e)).
Proof.
  intros Hget Hnf Hcreate. unfold reconcileDeployment, bind, call, ret, returned.
  fold (keyOf (appsv1.ObjectMeta desired)). rewrite Hget. cbn.
  unfold IgnoreNotFound. rewrite Hnf. cbn. by rewrite Hcreate.
Qed.

(** An existing compute cluster is sent back in an update as it was fetched,
    whatever it and the descriptor say. *)
Lemma ensureRayCluster_existing_updates {W} (r : GenAIDeploymentReconciler W)
    req g w w1 rayCluster :
  let key := {| nn_Namespace := req_Namespace req; nn_Name := req_Name req +:+ "-raycluster" |} in
  Get_RayCluster (r_Client r) key w = (w1, inr rayCluster) ->
  trace (ensureRayCluster r req g w) = [CallGetRayCluster key; CallUpdateRayCluster rayCluster].
Proof.
  intros key Hget. unfold ensureRayCluster, bind, call, ret, trace, updateRayCluster.
  fold key. rewrite Hget. cbn.
  destruct (Update_RayCluster _ _ _) as [w2 [e|]]; reflexivity.
Qed.

(** C4 does not hold of the engine: the compute cluster of the sample
    descriptor exists, its fetch times out, the create that follows answers
    already-exists, and the pass stops there and returns that error; the same
    create issued through [util.CreateResource] counts as success. *)
Theorem create_AlreadyExists_fails_the_pass :
  let w := world (run.first true) in
  let pass := Reconcile run.rayFetchDown sample.request w in
  let rc := constructRayCluster (sample.descriptor true) in
  returned pass = Some (Some ErrAlreadyExists)
  /\ IsAlreadyExists ErrAlreadyExists = true
  /\ List.skipn 1 (trace pass)
     = [CallGetRayCluster (keyOf (rayv1.ObjectMeta rc)); CallCreateRayCluster rc]
  /\ returned (util.CreateResource
                 (call (CallCreateRayCluster rc) (Create_RayCluster cluster.client rc)) w)
     = Some None.
Proof. cbv zeta. repeat split; vm_compute; reflexivity. Qed.

(** C2 does not hold of the engine: on the pass after the one that created
    the compute cluster from the sample descriptor, with the descriptor
    unchanged, the cluster just fetched is sent in an update. *)
Theorem RayCluster_updated_though_unchanged :
  let desired := constructRayCluster (sample.descriptor true) in
  let key := keyOf (rayv1.ObjectMeta desired) in
  trace (run.first true) !! 2 = Some (CallCreateRayCluster desired)
  /\ trace (run.second true) !! 1 = Some (CallGetRayCluster key)
  /\ trace (run.second true) !! 2 = Some (CallUpdateRayCluster (decodeRayCluster key 0 desired))
  /\ rayv1.HeadGroup (rayv1.Spec (decodeRayCluster key 0 desired))
     = rayv1.HeadGroup (rayv1.Spec desired)
  /\ map (fun g => (rayv1.GroupName g, ref_val <$> rayv1.Replicas g, rayv1.Worker_Template g))
         (rayv1.WorkerGroupSpecs (rayv1.Spec (decodeRayCluster key 0 desired)))
     = map (fun g => (rayv1.GroupName g, ref_val <$> rayv1.Replicas g, rayv1.Worker_Template g))
           (rayv1.WorkerGroupSpecs (rayv1.Spec desired)).
Proof. cbv zeta. repeat split; vm_compute; reflexivity. Qed.

(** C1, as the spec states it, fails: the second of two passes over the
    unchanged sample descriptor, both successful, issues write calls, a status
    update among them. *)
Lemma idempotence_counterexample :
  returned (run.first true) = Some None
  /\ returned (run.second true) = Some None
  /\ List.filter isWrite (trace (run.second true)) <> []
  /\ length (List.filter isStatusUpdate (trace (run.second true))) = 1.
Proof.
  split; [vm_compute; reflexivity|]. split; [vm_compute; reflexivity|].
  split; [|vm_compute; reflexivity].
  intros H. apply (f_equal length) in H. vm_compute in H. discriminate H.
Qed.

(** ** Two passes over a cluster nobody else writes to *)

Lemma bind_run {W A B} (m : M W A) (k : A -> M W B) w w1 t1 a :
  m w = (w1, t1, Some a) ->
  bind m k w = (world (k a w1), t1 ++ trace (k a w1), returned (k a w1)).
Proof. intros Hm. unfold bind. rewrite Hm. by destruct (k a w1) as [[w2 t2] r2]. Qed.

Section TwoPasses.
Variable s : Scheme.

(** A freshly decoded deployment never shares its [Replicas] cell with the
    desired one, whose pointer goes into the descriptor. *)
Lemma isEqual_decoded desired f v key cell stored :
  appsv1.Replicas (appsv1.Spec desired) = addressOf f v ->
  isEqual desired (decodeDeployment key cell stored) = Some false.
Proof.
  intros Hr. unfold isEqual. rewrite Hr. cbn.
  by destruct (appsv1.Replicas (appsv1.Spec stored)).
Qed.

Lemma cluster_reconcileDeployment cm um desired f v c :
  appsv1.Replicas (appsv1.Spec desired) = addressOf f v ->
  let res := reconcileDeployment (onCluster s) cm um desired c in
  let key := keyOf (appsv1.ObjectMeta desired) in
  returned res = Some None
  /\ genAIDeployments (world res) = genAIDeployments c
  /\ rayClusters (world res) = rayClusters c
  /\ (exists d, deployments (world res) = <[key := d]> (deployments c))
  /\ (is_Some (deployments c !! key) -> List.filter isCreate (trace res) = []).
Proof.
  intros Hr res key. subst res.
  unfold reconcileDeployment, bind, call, ret, panic, returned, world, trace.
  fold (keyOf (appsv1.ObjectMeta desired)). fold key.
  cbn [r_Client onCluster Get_Deployment Create_Deployment Update_Deployment cluster.client].
  unfold cluster.getDeployment.
  destruct (deployments c !! key) as [stored|] eqn:Hlook.
  - cbn. rewrite (isEqual_decoded desired f v key (nextCell c) stored Hr).
    unfold cluster.updateDeployment. cbn. fold key.
    replace (keyOf (identify key (appsv1.ObjectMeta stored))) with key by (by destruct key).
    rewrite Hlook. cbn.
    replace (keyOf (identify key (appsv1.ObjectMeta stored))) with key by (by destruct key).
    repeat split; eauto.
  - cbn. unfold cluster.createDeployment. fold key. rewrite Hlook. cbn.
    repeat split; eauto. by intros [? ?].
Qed.

Lemma cluster_ensureRayCluster req g c :
  keyOf (enterpriseApi.ObjectMeta g) = req_NamespacedName req ->
  let res := ensureRayCluster (onCluster s) req g c in
  (exists rc, returned res = Some (inr rc))
  /\ genAIDeployments (world res) = genAIDeployments c
  /\ deployments (world res) = deployments c
  /\ (exists rc, rayClusters (world res) = <[rayKey req := rc]> (rayClusters c))
  /\ (is_Some (rayClusters c !! rayKey req) -> List.filter isCreate (trace res) = [])
  /\ List.filter isStatusUpdate (trace res) = [].
Proof.
  intros Hkey res. subst res.
  unfold ensureRayCluster, bind, call, ret, returned, world, trace, updateRayCluster.
  fold (rayKey req).
  cbn [r_Client onCluster Get_RayCluster Create_RayCluster Update_RayCluster cluster.client].
  unfold cluster.getRayCluster.
  assert (Hnew : keyOf (rayv1.ObjectMeta (constructRayCluster g)) = rayKey req).
  { rewrite constructRayCluster_key. unfold rayKey.
    apply (f_equal nn_Namespace) in Hkey as Hns. apply (f_equal nn_Name) in Hkey as Hname.
    cbn in Hns, Hname. by rewrite Hns, Hname. }
  destruct (rayClusters c !! rayKey req) as [stored|] eqn:Hlook.
  - cbn. unfold cluster.updateRayCluster. cbn.
    replace (keyOf (identify (rayKey req) (rayv1.ObjectMeta stored)))
      with (rayKey req) by reflexivity.
    rewrite Hlook. cbn.
    replace (keyOf (identify (rayKey req) (rayv1.ObjectMeta stored)))
      with (rayKey req) by reflexivity.
    repeat split; eauto.
  - cbn. unfold cluster.createRayCluster, cluster.putRayCluster. rewrite !Hnew, Hlook. cbn.
    repeat split; eauto. by intros [? ?].
Qed.

Lemma cluster_reconcileRayCluster req g0 c :
  genAIDeployments c !! req_NamespacedName req = Some g0 ->
  let g := decodeGenAIDeployment (req_NamespacedName req) g0 in
  let res := reconcileRayCluster (onCluster s) req g c in
  (exists g', returned res = Some (inr g')
              /\ enterpriseApi.ObjectMeta g' = enterpriseApi.ObjectMeta g
              /\ enterpriseApi.Spec g' = enterpriseApi.Spec g)
  /\ (exists g1, genAIDeployments (world res)
                   = <[req_NamespacedName req := g1]> (genAIDeployments c)
                 /\ enterpriseApi.Spec g1 = enterpriseApi.Spec g0)
  /\ deployments (world res) = deployments c
  /\ (exists rc, rayClusters (world res) = <[rayKey req := rc]> (rayClusters c))
  /\ (is_Some (rayClusters c !! rayKey req) -> List.filter isCreate (trace res) = [])
  /\ List.filter isStatusUpdate (trace res) <> [].
Proof.
  intros Hdesc g res.
  assert (Hkey : keyOf (enterpriseApi.ObjectMeta g) = req_NamespacedName req) by reflexivity.
  destruct (cluster_ensureRayCluster req g c Hkey)
    as ([rc Hret] & Hgen & Hdep & Hray & Hcreate & Hstatus).
  subst res. unfold reconcileRayCluster. unfold bind.
  destruct (ensureRayCluster (onCluster s) req g c) as [[c1 t1] r1].
  unfold returned, world, trace in *. cbn in Hret, Hgen, Hdep, Hray, Hcreate, Hstatus.
  subst r1.
  unfold updateRayClusterStatus, bind, call, ret.
  cbn [r_Client onCluster StatusUpdate_GenAIDeployment cluster.client].
  unfold cluster.statusUpdate.
  replace (keyOf (enterpriseApi.ObjectMeta (withRayClusterStatus g rc)))
    with (req_NamespacedName req) by reflexivity.
  rewrite Hgen, Hdesc. cbn.
  split; [eauto|]. split; [eauto|]. split; [done|]. split; [done|]. split.
  - intros Hsome. rewrite List.filter_app, (Hcreate Hsome). reflexivity.
  - rewrite List.filter_app, Hstatus. cbn. done.
Qed.

Lemma cluster_reconcileServices g c :
  let ns := metav1.Namespace (enterpriseApi.ObjectMeta g) in
  let x := metav1.Name (enterpriseApi.ObjectMeta g) in
  let res := reconcileServices (onCluster s) g c in
  returned res = Some None
  /\ genAIDeployments (world res) = genAIDeployments c
  /\ rayClusters (world res) = rayClusters c
  /\ is_Some (deployments (world res) !! derivedKey ServiceA ns x)
  /\ is_Some (deployments (world res) !! derivedKey ServiceB ns x)
  /\ (is_Some (deployments c !! derivedKey ServiceA ns x) ->
      is_Some (deployments c !! derivedKey ServiceB ns x) ->
      List.filter isCreate (trace res) = [])
  /\ List.filter isStatusUpdate (trace res) = [].
Proof.
  intros ns x res. subst res.
  unfold reconcileServices, reconcileSaisServiceDeployment, reconcileVectorDbDeployment.
  pose proof (constructFor_key ServiceA s g) as HkA.
  pose proof (constructFor_key ServiceB s g) as HkB.
  cbn [constructFor] in HkA, HkB. fold ns x in HkA, HkB.
  cbn [r_Scheme onCluster].
  set (dA := constructSaisServiceDeployment s g) in *.
  set (dB := constructVectorDbDeployment s g) in *.
  unfold bind.
  destruct (cluster_reconcileDeployment "failed to create new Deployment"
              "failed to update Deployment" dA SaisReplicasField
              (enterpriseApi.Sais_Replicas (enterpriseApi.SaisService (enterpriseApi.Spec g)))
              c eq_refl) as (HretA & HgenA & HrayA & [a HdepA] & HcreateA).
  pose proof (reconcileDeployment_trace (onCluster s) "failed to create new Deployment"
                "failed to update Deployment" dA c) as HtraceA.
  destruct (reconcileDeployment (onCluster s) _ _ dA c) as [[cA tA] rA].
  unfold returned, world, trace in HretA, HgenA, HrayA, HdepA, HcreateA, HtraceA.
  cbn [fst snd] in HretA, HgenA, HrayA, HdepA, HcreateA, HtraceA. subst rA.
  destruct (cluster_reconcileDeployment "failed to create new VectorDb Deployment"
              "failed to update VectorDb Deployment" dB VectorDbReplicasField
              (enterpriseApi.VectorDb_Replicas
                 (enterpriseApi.VectorDbService (enterpriseApi.Spec g)))
              cA eq_refl) as (HretB & HgenB & HrayB & [b HdepB] & HcreateB).
  pose proof (reconcileDeployment_trace (onCluster s) "failed to create new VectorDb Deployment"
                "failed to update VectorDb Deployment" dB cA) as HtraceB.
  destruct (reconcileDeployment (onCluster s) _ _ dB cA) as [[cB tB] rB].
  unfold returned, world, trace in HretB, HgenB, HrayB, HdepB, HcreateB, HtraceB.
  cbn [fst snd] in HretB, HgenB, HrayB, HdepB, HcreateB, HtraceB. subst rB.
  unfold ret, returned, world, trace. cbn [fst snd]. rewrite !app_nil_r.
  rewrite HkA in *. rewrite HkB in *.
  split; [done|]. split; [congruence|]. split; [congruence|].
  split. { rewrite HdepB, HdepA. rewrite lookup_insert. case_decide; [done|].
           rewrite lookup_insert_eq. done. }
  split. { rewrite HdepB. rewrite lookup_insert_eq. done. }
  split.
  - intros HA HB. rewrite List.filter_app, (HcreateA HA).
    rewrite HcreateB; [done|]. rewrite HdepA, lookup_insert. by case_decide.
  - rewrite List.filter_app.
    assert (HsA : List.filter isStatusUpdate tA = []).
    { destruct HtraceA as [-> | [-> | (? & _ & _ & ->)]]; reflexivity. }
    assert (HsB : List.filter isStatusUpdate tB = []).
    { destruct HtraceB as [-> | [-> | (? & _ & _ & ->)]]; reflexivity. }
    by rewrite HsA, HsB.
Qed.

Lemma cluster_Reconcile req c :
  let res := Reconcile (onCluster s) req c in
  returned res = Some None
  /\ converged req (world res)
  /\ (converged req c -> List.filter isCreate (trace res) = [])
  /\ (forall g0,
        genAIDeployments c !! req_NamespacedName req = Some g0 ->
        exists g1, genAIDeployments (world res) !! req_NamespacedName req = Some g1
                   /\ enterpriseApi.Spec g1 = enterpriseApi.Spec g0)
  /\ (forall g0,
        genAIDeployments c !! req_NamespacedName req = Some g0 ->
        enterpriseApi.Enabled (enterpriseApi.RayService (enterpriseApi.Spec g0)) = true ->
        List.filter isStatusUpdate (trace res) <> []).
Proof.
  intros res. subst res.
  destruct (genAIDeployments c !! req_NamespacedName req) as [g0|] eqn:Hdesc.
  - set (g := decodeGenAIDeployment (req_NamespacedName req) g0).
    assert (Hfetch : call (CallGetGenAIDeployment (req_NamespacedName req))
                       (Get_GenAIDeployment (r_Client (onCluster s)) (req_NamespacedName req)) c
                     = (c, [CallGetGenAIDeployment (req_NamespacedName req)], Some (inr g))).
    { unfold call. cbn. unfold cluster.getGenAIDeployment. by rewrite Hdesc. }
    unfold Reconcile. rewrite (bind_run _ _ _ _ _ _ Hfetch).
    replace (enterpriseApi.Enabled (enterpriseApi.RayService (enterpriseApi.Spec g)))
      with (enterpriseApi.Enabled (enterpriseApi.RayService (enterpriseApi.Spec g0)))
      by reflexivity.
    destruct (enterpriseApi.Enabled (enterpriseApi.RayService (enterpriseApi.Spec g0)))
      eqn:Hen.
    + destruct (cluster_reconcileRayCluster req g0 c Hdesc)
        as ((g' & Hret & Hmeta & Hspec) & (g1 & Hgen & Hspec1) & Hdep & [rc Hray]
            & Hcreate & Hstatus).
      fold g in Hret, Hmeta, Hspec, Hgen, Hdep, Hray, Hcreate, Hstatus.
      destruct (reconcileRayCluster (onCluster s) req g c) as [[c1 t1] r1] eqn:Hrun.
      unfold returned, world, trace in Hret, Hgen, Hdep, Hray, Hcreate, Hstatus.
      cbn [fst snd] in Hret, Hgen, Hdep, Hray, Hcreate, Hstatus. subst r1.
      rewrite (bind_run _ _ _ _ _ _ Hrun).
      destruct (cluster_reconcileServices g' c1)
        as (HretS & HgenS & HrayS & HA & HB & HcreateS & HstatusS).
      rewrite Hmeta in HA, HB, HcreateS. cbn in HA, HB, HcreateS.
      unfold returned, world, trace in *. cbn [fst snd].
      split; [done|]. split.
      { intros g2 _. split; [done|]. split; [done|]. intros _.
        rewrite HrayS, Hray, lookup_insert_eq. done. }
      split.
      { intros Hconv. destruct (Hconv g0 Hdesc) as (HcA & HcB & HcR).
        cbn. rewrite List.filter_app, (Hcreate (HcR Hen)).
        rewrite HcreateS; [done| |]; by rewrite Hdep. }
      split.
      { intros g2 Hg2. injection Hg2 as <-. exists g1.
        rewrite HgenS, Hgen, lookup_insert_eq. done. }
      intros g2 _ _. cbn. rewrite List.filter_app. intros Hnil.
      apply app_eq_nil in Hnil as [Hnil _]. done.
    + destruct (cluster_reconcileServices g c)
        as (HretS & HgenS & HrayS & HA & HB & HcreateS & HstatusS).
      cbn in HA, HB, HcreateS.
      unfold returned, world, trace in *. cbn [fst snd].
      split; [done|]. split.
      { intros g2 Hg2. split; [done|]. split; [done|].
        rewrite HgenS, Hdesc in Hg2. injection Hg2 as <-. congruence. }
      split.
      { intros Hconv. destruct (Hconv g0 Hdesc) as (HcA & HcB & _).
        cbn. by apply HcreateS. }
      split.
      { intros g2 Hg2. injection Hg2 as <-. exists g0. by rewrite HgenS. }
      intros g2 Hg2. injection Hg2 as <-. congruence.
  - assert (Hrun : Reconcile (onCluster s) req c
                   = (c, [CallGetGenAIDeployment (req_NamespacedName req)], Some None)).
    { unfold Reconcile, bind, call, ret. cbn. unfold cluster.getGenAIDeployment.
      by rewrite Hdesc. }
    rewrite Hrun. unfold returned, world, trace. cbn.
    split; [done|]. split; [intros g0 Hg0; congruence|]. by repeat split.
Qed.
End TwoPasses.

(** C1, amended. On a cluster nobody else writes to, a pass and the pass
    after it both return success, and the second pass issues no create call;
    it does issue a status update again when the descriptor enables the
    compute cluster.  (Whether it issues update calls is left open here.) *)
Theorem second_pass_creates_nothing (s : Scheme) (req : Request) (c : Cluster) :
  let first := Reconcile (onCluster s) req c in
  let second := Reconcile (onCluster s) req (world first) in
  returned first = Some None
  /\ returned second = Some None
  /\ List.filter isCreate (trace second) = []
  /\ (forall g0,
        genAIDeployments c !! req_NamespacedName req = Some g0 ->
        enterpriseApi.Enabled (enterpriseApi.RayService (enterpriseApi.Spec g0)) = true ->
        List.filter isStatusUpdate (trace second) <> []).
Proof.
  intros first second.
  destruct (cluster_Reconcile s req c) as (Hret1 & Hconv1 & _ & Hkeep & _).
  destruct (cluster_Reconcile s req (world first)) as (Hret2 & _ & Hcreate2 & _ & Hstatus2).
  fold first in Hret1, Hconv1, Hkeep. fold second in Hret2, Hcreate2, Hstatus2.
  split; [done|]. split; [done|]. split; [by apply Hcreate2|].
  intros g0 Hg0 Hen. destruct (Hkeep g0 Hg0) as (g1 & Hg1 & Hspec).
  apply (Hstatus2 g1 Hg1). by rewrite Hspec.
Qed.

Lemma second_pass_creates_nothing_witness :
  genAIDeployments (sample.fresh true) !! req_NamespacedName sample.request
    = Some (sample.descriptor true)
  /\ List.filter isCreate (trace (run.second true)) = []
  /\ List.filter isStatusUpdate (trace (run.second true)) <> [].
Proof.
  destruct (second_pass_creates_nothing sample.scheme sample.request (sample.fresh true))
    as (_ & _ & Hcreate & Hstatus).
  split; [reflexivity|]. split; [exact Hcreate|].
  apply (Hstatus (sample.descriptor true)); reflexivity.
Defined.

(** * Further properties of the pass, on any client *)

Lemma trace_of {W A} (w : W) (t : list Call) (x : option A) : trace (w, t, x) = t.
Proof. reflexivity. Qed.

Lemma returned_of {W A} (w : W) (t : list Call) (x : option A) : returned (w, t, x) = x.
Proof. reflexivity. Qed.

Lemma world_of {W A} (w : W) (t : list Call) (x : option A) : world (w, t, x) = w.
Proof. reflexivity. Qed.

Lemma count_app p t1 t2 : count p (t1 ++ t2) = count p t1 + count p t2.
Proof. unfold count. by rewrite List.filter_app, length_app. Qed.

(** The three shapes of the trace of the compute-cluster fetch-and-write. *)
Lemma ensureRayCluster_trace {W} (r : GenAIDeploymentReconciler W) req g w :
  trace (ensureRayCluster r req g w)
    = [CallGetRayCluster (rayKey req); CallCreateRayCluster (constructRayCluster g)]
  \/ exists rayCluster,
       (Get_RayCluster (r_Client r) (rayKey req) w).2 = inr rayCluster
       /\ trace (ensureRayCluster r req g w)
          = [CallGetRayCluster (rayKey req); CallUpdateRayCluster rayCluster].
Proof.
  unfold ensureRayCluster, bind, call, ret, trace, updateRayCluster. fold (rayKey req).
  destruct (Get_RayCluster (r_Client r) (rayKey req) w) as [w1 [e|rc]]; cbn.
  - left. destruct (Create_RayCluster _ _ _) as [w2 [e'|]]; reflexivity.
  - right. exists rc. split; [done|].
    destruct (Update_RayCluster _ _ _) as [w2 [e'|]]; reflexivity.
Qed.

(** The fetch-and-write never panics: it returns an error or a cluster. *)
Lemma ensureRayCluster_returns {W} (r : GenAIDeploymentReconciler W) req g w :
  exists x, returned (ensureRayCluster r req g w) = Some x.
Proof.
  unfold ensureRayCluster, bind, call, ret, returned.
  destruct (Get_RayCluster _ _ _) as [w1 [e|rc]]; cbn.
  - destruct (Create_RayCluster _ _ _) as [w2 [e'|]]; by eexists.
  - destruct (Update_RayCluster _ _ _) as [w2 [e'|]]; by eexists.
Qed.

(** The compute-cluster block, decomposed. *)
Lemma reconcileRayCluster_run {W} (r : GenAIDeploymentReconciler W) req g w :
  let E := ensureRayCluster r req g w in
  reconcileRayCluster r req g w =
  match returned E with
  | Some (inr rayCluster) =>
    let g' := withRayClusterStatus g rayCluster in
    ((StatusUpdate_GenAIDeployment (r_Client r) g' (world E)).1,
     trace E ++ [CallStatusUpdate g'], Some (inr g'))
  | Some (inl e) => (world E, trace E, Some (inl e))
  | None => (world E, trace E, None)
  end.
Proof.
  intros E. subst E. unfold reconcileRayCluster. unfold bind at 1.
  unfold returned, world, trace.
  destruct (ensureRayCluster r req g w) as [[w1 t1] [[e|rc]|]]; cbn [fst snd].
  - unfold ret. by rewrite app_nil_r.
  - unfold updateRayClusterStatus, bind, call, ret.
    destruct (StatusUpdate_GenAIDeployment _ _ _) as [w2 [e|]]; cbn; by rewrite ?app_nil_r.
  - reflexivity.
Qed.

(** The two service steps, decomposed: the step of service B runs exactly
    when the step of service A returned nil. *)
Lemma reconcileServices_run {W} (r : GenAIDeploymentReconciler W) g w :
  let A := reconcileSaisServiceDeployment r g w in
  reconcileServices r g w =
  match returned A with
  | Some None =>
    let B := reconcileVectorDbDeployment r g (world A) in
    (world B, trace A ++ trace B, returned B)
  | other => (world A, trace A, other)
  end.
Proof.
  intros A. subst A. unfold reconcileServices. unfold bind at 1.
  unfold returned, world, trace.
  destruct (reconcileSaisServiceDeployment r g w) as [[wa ta] [[e|]|]]; cbn [fst snd].
  - unfold ret. by rewrite app_nil_r.
  - unfold bind, ret.
    destruct (reconcileVectorDbDeployment r g wa) as [[wb tb] [[e|]|]]; cbn;
      by rewrite ?app_nil_r.
  - reflexivity.
Qed.

(** The whole pass, decomposed along the early returns of [Reconcile]. *)
Lemma Reconcile_run {W} (r : GenAIDeploymentReconciler W) req w :
  let fetched := Get_GenAIDeployment (r_Client r) (req_NamespacedName req) w in
  let first := CallGetGenAIDeployment (req_NamespacedName req) in
  Reconcile r req w =
  match fetched.2 with
  | inl err => (fetched.1, [first], Some (IgnoreNotFound err))
  | inr g =>
    if enterpriseApi.Enabled (enterpriseApi.RayService (enterpriseApi.Spec g)) then
      let R := reconcileRayCluster r req g fetched.1 in
      match returned R with
      | Some (inr g') =>
        let S := reconcileServices r g' (world R) in
        (world S, first :: trace R ++ trace S, returned S)
      | Some (inl e) => (world R, first :: trace R, Some (Some e))
      | None => (world R, first :: trace R, None)
      end
    else
      let S := reconcileServices r g fetched.1 in
      (world S, first :: trace S, returned S)
  end.
Proof.
  intros fetched first. subst fetched first. unfold Reconcile. unfold bind at 1, call at 1.
  destruct (Get_GenAIDeployment _ _ _) as [w1 [err|g]]; cbn [fst snd].
  - reflexivity.
  - destruct (enterpriseApi.Enabled _).
    + unfold bind. unfold returned, world, trace.
      destruct (reconcileRayCluster r req g w1) as [[w2 t2] [[e|g']|]]; cbn [fst snd].
      * unfold ret. by rewrite app_nil_r.
      * by destruct (reconcileServices r g' w2) as [[w3 t3] r3].
      * reflexivity.
    + by destruct (reconcileServices r g w1) as [[w3 t3] r3].
Qed.

Lemma reconcileFor_shape {W} (r : GenAIDeploymentReconciler W) svc g w :
  exists cm um, reconcileFor svc r g w
                = reconcileDeployment r cm um (constructFor svc (r_Scheme r) g) w.
Proof. destruct svc; eexists _, _; reflexivity. Qed.

(** A service step consists of deployment calls only, two at most, of which
    one at most is a write. *)
Lemma reconcileFor_calls {W} (r : GenAIDeploymentReconciler W) svc g w :
  let t := trace (reconcileFor svc r g w) in
  Forall (fun c => isDeploymentCall c = true) t
  /\ length t <= 2 /\ count isWrite t <= 1.
Proof.
  intros t. subst t. destruct (reconcileFor_shape r svc g w) as (cm & um & ->).
  destruct (reconcileDeployment_trace r cm um (constructFor svc (r_Scheme r) g) w)
    as [-> | [-> | (existing & _ & _ & ->)]]; (split; [by repeat constructor|]);
    unfold count; cbn; lia.
Qed.

Lemma reconcileServices_calls {W} (r : GenAIDeploymentReconciler W) g w :
  let t := trace (reconcileServices r g w) in
  Forall (fun c => isDeploymentCall c = true) t
  /\ length t <= 4 /\ count isWrite t <= 2.
Proof.
  intros t. subst t. rewrite reconcileServices_run.
  destruct (reconcileFor_calls r ServiceA g w) as (HfA & HlA & HwA).
  cbn [reconcileFor] in HfA, HlA, HwA.
  destruct (returned (reconcileSaisServiceDeployment r g w)) as [[e|]|];
    cbv zeta; rewrite trace_of; try (split; [done|]; lia).
  destruct (reconcileFor_calls r ServiceB g (world (reconcileSaisServiceDeployment r g w)))
    as (HfB & HlB & HwB).
  cbn [reconcileFor] in HfB, HlB, HwB.
  split; [by apply Forall_app|]. rewrite length_app, count_app. lia.
Qed.

Lemma count_none p t : Forall (fun c => p c = false) t -> count p t = 0.
Proof.
  unfold count. induction 1 as [|c t Hc _ IH]; [done|]. cbn. by rewrite Hc.
Qed.

Lemma deployment_calls_only t :
  Forall (fun c => isDeploymentCall c = true) t ->
  Forall (fun c => isRayClusterCall c = false /\ isStatusUpdate c = false) t.
Proof. intros H. eapply Forall_impl; [exact H|]. by intros []. Qed.

(** X1. With the compute-cluster sub-spec disabled, the pass consists of the
    descriptor fetch followed by the two service steps: it issues no get,
    create or update on the compute cluster and no status update. *)
Theorem disabled_compute_cluster_untouched {W} (r : GenAIDeploymentReconciler W)
    (req : Request) (w w1 : W) (g : enterpriseApi.GenAIDeployment) :
  Get_GenAIDeployment (r_Client r) (req_NamespacedName req) w = (w1, inr g) ->
  enterpriseApi.Enabled (enterpriseApi.RayService (enterpriseApi.Spec g)) = false ->
  trace (Reconcile r req w)
    = CallGetGenAIDeployment (req_NamespacedName req) :: trace (reconcileServices r g w1)
  /\ returned (Reconcile r req w) = returned (reconcileServices r g w1)
  /\ Forall (fun c => isRayClusterCall c = false /\ isStatusUpdate c = false)
            (trace (Reconcile r req w)).
Proof.
  intros Hget Hen. rewrite Reconcile_run, Hget. cbn [fst snd]. rewrite Hen. cbv zeta.
  rewrite trace_of, returned_of. split; [done|]. split; [done|].
  constructor; [done|]. apply deployment_calls_only.
  by destruct (reconcileServices_calls r g w1).
Qed.

Lemma disabled_compute_cluster_untouched_witness :
  let fetched := Get_GenAIDeployment (r_Client sample.reconciler)
                   (req_NamespacedName sample.request) (sample.fresh false) in
  let g := run.fromInr (sample.descriptor false) fetched.2 in
  fetched = (fetched.1, inr g)
  /\ enterpriseApi.Enabled (enterpriseApi.RayService (enterpriseApi.Spec g)) = false
  /\ Forall (fun c => isRayClusterCall c = false /\ isStatusUpdate c = false)
            (trace (run.first false)).
Proof.
  intros fetched g.
  assert (H1 : fetched = (fetched.1, inr g)) by (vm_compute; reflexivity).
  assert (H2 : enterpriseApi.Enabled (enterpriseApi.RayService (enterpriseApi.Spec g)) = false)
    by reflexivity.
  split; [exact H1|]. split; [exact H2|].
  exact (proj2 (proj2 (disabled_compute_cluster_untouched sample.reconciler sample.request
                         (sample.fresh false) fetched.1 g H1 H2))).
Defined.

Lemma reconcileRayCluster_calls {W} (r : GenAIDeploymentReconciler W) req g w :
  let t := trace (reconcileRayCluster r req g w) in
  length t <= 3
  /\ count (fun c => isWrite c && isRayClusterCall c) t = 1
  /\ count isStatusUpdate t <= 1
  /\ count isDeploymentCall t = 0.
Proof.
  intros t. subst t. rewrite reconcileRayCluster_run. cbv zeta.
  assert (Hens : length (trace (ensureRayCluster r req g w)) = 2
                 /\ count (fun c => isWrite c && isRayClusterCall c)
                          (trace (ensureRayCluster r req g w)) = 1
                 /\ count isStatusUpdate (trace (ensureRayCluster r req g w)) = 0
                 /\ count isDeploymentCall (trace (ensureRayCluster r req g w)) = 0).
  { destruct (ensureRayCluster_trace r req g w) as [-> | (rc & _ & ->)]; by repeat split. }
  destruct Hens as (Hl & Hw & Hs & Hd).
  destruct (returned (ensureRayCluster r req g w)) as [[e|rc]|]; rewrite trace_of;
    rewrite ?length_app, ?count_app, ?Hl, ?Hw, ?Hs, ?Hd; unfold count; cbn; lia.
Qed.

(** X2. Whatever the client answers, a pass starts with the fetch of the
    descriptor and issues at most eight calls, of which at most four are
    writes: at most one write on the compute cluster, at most one status
    update and at most two writes on deployments. *)
Theorem pass_call_bounds {W} (r : GenAIDeploymentReconciler W) (req : Request) (w : W) :
  let t := trace (Reconcile r req w) in
  (exists rest, t = CallGetGenAIDeployment (req_NamespacedName req) :: rest)
  /\ length t <= 8
  /\ count isWrite t <= 4
  /\ count (fun c => isWrite c && isRayClusterCall c) t <= 1
  /\ count isStatusUpdate t <= 1
  /\ count (fun c => isWrite c && isDeploymentCall c) t <= 2.
Proof.
  intros t. subst t. rewrite Reconcile_run. cbv zeta.
  assert (Hsplit : forall t : list Call,
             count isWrite t
             = count (fun c => isWrite c && isRayClusterCall c) t
               + count isStatusUpdate t
               + count (fun c => isWrite c && isDeploymentCall c) t).
  { intros t. unfold count. induction t as [|c t IH]; [done|].
    destruct c; cbn; rewrite ?length_cons; lia. }
  assert (Hsvc : forall g w',
             length (trace (reconcileServices r g w')) <= 4
             /\ count (fun c => isWrite c && isRayClusterCall c)
                      (trace (reconcileServices r g w')) = 0
             /\ count isStatusUpdate (trace (reconcileServices r g w')) = 0
             /\ count (fun c => isWrite c && isDeploymentCall c)
                      (trace (reconcileServices r g w')) <= 2).
  { intros g w'. destruct (reconcileServices_calls r g w') as (Hf & Hl & Hw).
    split; [done|].
    assert (H0 : count (fun c => isWrite c && isRayClusterCall c)
                   (trace (reconcileServices r g w')) = 0).
    { apply count_none. eapply Forall_impl; [exact Hf|]. by intros []. }
    assert (H1 : count isStatusUpdate (trace (reconcileServices r g w')) = 0).
    { apply count_none. eapply Forall_impl; [exact Hf|]. by intros []. }
    split; [done|]. split; [done|]. rewrite Hsplit in Hw. lia. }
  assert (Hray : forall g w',
             count (fun c => isWrite c && isDeploymentCall c)
                   (trace (reconcileRayCluster r req g w')) = 0).
  { intros g w'. destruct (reconcileRayCluster_calls r req g w') as (_ & _ & _ & Hd).
    unfold count in *. apply length_zero_iff_nil. apply length_zero_iff_nil in Hd.
    induction (trace (reconcileRayCluster r req g w')) as [|c t IH]; [done|].
    destruct c; cbn in *; try discriminate; by apply IH. }
  destruct (Get_GenAIDeployment _ _ _) as [w1 [err|g]]; cbn [fst snd].
  - rewrite trace_of. split; [by eexists|]. unfold count. cbn. lia.
  - destruct (enterpriseApi.Enabled _).
    + destruct (reconcileRayCluster_calls r req g w1) as (Hl & Hw & Hs & _).
      specialize (Hray g w1).
      destruct (returned (reconcileRayCluster r req g w1)) as [[e|g']|]; rewrite trace_of;
        (split; [by eexists|]); rewrite Hsplit; rewrite ?app_comm_cons;
        change (count ?p (?c :: ?t)) with (count p ([c] ++ t));
        rewrite ?length_cons, ?length_app, ?count_app;
        try (destruct (Hsvc g' (world (reconcileRayCluster r req g w1))) as (? & ? & ? & ?));
        unfold count at 1; cbn [List.filter isWrite isCreate isUpdate isStatusUpdate
                                 isRayClusterCall isDeploymentCall orb andb length];
        unfold count; cbn [List.filter isWrite isCreate isUpdate isStatusUpdate
                             isRayClusterCall isDeploymentCall orb andb length];
        unfold count in *; lia.
    + rewrite trace_of. destruct (Hsvc g w1) as (? & ? & ? & ?).
      split; [by eexists|]. rewrite Hsplit.
      change (count ?p (?c :: ?t)) with (count p ([c] ++ t)).
      rewrite ?length_cons, ?count_app. unfold count in *. cbn. lia.
Qed.

(** X3. When the create or the update of the compute cluster fails, the pass
    returns that error at once: the calls of the pass are the descriptor
    fetch, the cluster fetch and the failed write, with no status update and
    no call on a deployment after them. *)
Theorem compute_cluster_error_aborts {W} (r : GenAIDeploymentReconciler W)
    (req : Request) (w w1 : W) (g : enterpriseApi.GenAIDeployment) (e : error) :
  Get_GenAIDeployment (r_Client r) (req_NamespacedName req) w = (w1, inr g) ->
  enterpriseApi.Enabled (enterpriseApi.RayService (enterpriseApi.Spec g)) = true ->
  returned (ensureRayCluster r req g w1) = Some (inl e) ->
  returned (Reconcile r req w) = Some (Some e)
  /\ trace (Reconcile r req w)
     = CallGetGenAIDeployment (req_NamespacedName req) :: trace (ensureRayCluster r req g w1)
  /\ length (trace (Reconcile r req w)) = 3
  /\ count isStatusUpdate (trace (Reconcile r req w)) = 0
  /\ count isDeploymentCall (trace (Reconcile r req w)) = 0.
Proof.
  intros Hget Hen Herr. rewrite Reconcile_run, Hget. cbn [fst snd]. rewrite Hen. cbv zeta.
  rewrite reconcileRayCluster_run, Herr. cbv zeta.
  rewrite !returned_of, !trace_of. split; [done|]. split; [done|].
  destruct (ensureRayCluster_trace r req g w1) as [-> | (rc & _ & ->)]; by repeat split.
Qed.

Lemma compute_cluster_error_aborts_witness :
  let w := world (run.first true) in
  let fetched := Get_GenAIDeployment (r_Client run.rayFetchDown)
                   (req_NamespacedName sample.request) w in
  let g := run.fromInr (sample.descriptor true) fetched.2 in
  fetched = (fetched.1, inr g)
  /\ enterpriseApi.Enabled (enterpriseApi.RayService (enterpriseApi.Spec g)) = true
  /\ returned (ensureRayCluster run.rayFetchDown sample.request g fetched.1)
     = Some (inl ErrAlreadyExists)
  /\ length (trace (Reconcile run.rayFetchDown sample.request w)) = 3.
Proof.
  intros w fetched g.
  assert (H1 : fetched = (fetched.1, inr g)) by (vm_compute; reflexivity).
  assert (H2 : enterpriseApi.Enabled (enterpriseApi.RayService (enterpriseApi.Spec g)) = true)
    by reflexivity.
  assert (H3 : returned (ensureRayCluster run.rayFetchDown sample.request g fetched.1)
               = Some (inl ErrAlreadyExists)) by (vm_compute; reflexivity).
  split; [exact H1|]. split; [exact H2|]. split; [exact H3|].
  destruct (compute_cluster_error_aborts run.rayFetchDown sample.request w fetched.1 g
              ErrAlreadyExists H1 H2 H3) as (_ & _ & Hlen & _).
  exact Hlen.
Defined.

Lemma derivedKey_services_differ ns x : derivedKey ServiceA ns x <> derivedKey ServiceB ns x.
Proof.
  unfold derivedKey. intros H. apply (f_equal nn_Name) in H. cbn in H.
  apply (inj (String.app x)) in H. discriminate H.
Qed.

(** X4. When the step of service A returns an error, the step of service B
    is not attempted: the two steps together return that error, with the
    world and the calls of the service-A step, and the deployment of service
    B is not fetched. *)
Theorem serviceA_error_skips_serviceB {W} (r : GenAIDeploymentReconciler W)
    (g : enterpriseApi.GenAIDeployment) (w : W) (e : error) :
  returned (reconcileSaisServiceDeployment r g w) = Some (Some e) ->
  reconcileServices r g w
    = (world (reconcileSaisServiceDeployment r g w),
       trace (reconcileSaisServiceDeployment r g w), Some (Some e))
  /\ ~ In (CallGetDeployment (derivedKey ServiceB (metav1.Namespace (enterpriseApi.ObjectMeta g))
                                         (metav1.Name (enterpriseApi.ObjectMeta g))))
          (trace (reconcileServices r g w)).
Proof.
  intros Herr. rewrite reconcileServices_run, Herr. split; [done|]. rewrite trace_of.
  destruct (reconcileFor_shape r ServiceA g w) as (cm & um & Hshape).
  cbn [reconcileFor] in Hshape. rewrite Hshape.
  pose proof (constructFor_key ServiceA (r_Scheme r) g) as Hkey.
  pose proof (derivedKey_services_differ (metav1.Namespace (enterpriseApi.ObjectMeta g))
                (metav1.Name (enterpriseApi.ObjectMeta g))) as Hne.
  destruct (reconcileDeployment_trace r cm um (constructFor ServiceA (r_Scheme r) g) w)
    as [-> | [-> | (existing & _ & _ & ->)]]; rewrite Hkey;
    intros H; cbn [In] in H; repeat (destruct H as [H|H]); try done; try discriminate H;
    apply Hne; congruence.
Qed.

Lemma serviceA_error_skips_serviceB_witness :
  let r := scenario.deploymentFetchDown in
  let g := sample.descriptor false in
  returned (reconcileSaisServiceDeployment r g cluster.empty) = Some (Some (ErrOther "timeout"))
  /\ length (trace (reconcileServices r g cluster.empty)) = 1.
Proof.
  intros r g.
  assert (H : returned (reconcileSaisServiceDeployment r g cluster.empty)
              = Some (Some (ErrOther "timeout"))) by reflexivity.
  split; [exact H|].
  destruct (serviceA_error_skips_serviceB r g cluster.empty (ErrOther "timeout") H) as [-> _].
  reflexivity.
Defined.

(** X5. A fetch of a service deployment that fails with anything but
    not-found ends the step: the error is returned as it is, and neither a
    create nor an update is issued. *)
Theorem deployment_fetch_error_returned {W} (r : GenAIDeploymentReconciler W)
    (svc : Service) (g : enterpriseApi.GenAIDeployment) (w w1 : W) (e : error) :
  let key := derivedKey svc (metav1.Namespace (enterpriseApi.ObjectMeta g))
                        (metav1.Name (enterpriseApi.ObjectMeta g)) in
  Get_Deployment (r_Client r) key w = (w1, inl e) ->
  IsNotFound e = false ->
  reconcileFor svc r g w = (w1, [CallGetDeployment key], Some (Some e)).
Proof.
  intros key Hget Hnf. destruct (reconcileFor_shape r svc g w) as (cm & um & ->).
  unfold reconcileDeployment, bind, call, ret.
  fold (keyOf (appsv1.ObjectMeta (constructFor svc (r_Scheme r) g))).
  rewrite constructFor_key. fold key. rewrite Hget. cbn.
  unfold IgnoreNotFound. by rewrite Hnf.
Qed.

Lemma deployment_fetch_error_returned_witness :
  let r := scenario.deploymentFetchDown in
  let g := sample.descriptor false in
  Get_Deployment (r_Client r) (derivedKey ServiceB "ns" "x") cluster.empty
    = (cluster.empty, inl (ErrOther "timeout"))
  /\ IsNotFound (ErrOther "timeout") = false
  /\ returned (reconcileFor ServiceB r g cluster.empty) = Some (Some (ErrOther "timeout")).
Proof.
  intros r g. split; [reflexivity|]. split; [reflexivity|].
  rewrite (deployment_fetch_error_returned r ServiceB g cluster.empty cluster.empty
             (ErrOther "timeout")); reflexivity.
Defined.

(** X6. Every error a service step returns is either the error of its fetch,
    returned as it is and not a not-found one, or the error of the create or
    update the step has just issued, wrapped with the step's message; the
    wrapped error still counts as not-found or already-exists exactly when
    the client's error does. *)
Theorem service_step_error_origin {W} (r : GenAIDeploymentReconciler W)
    (svc : Service) (g : enterpriseApi.GenAIDeployment) (w : W) (err : error) :
  returned (reconcileFor svc r g w) = Some (Some err) ->
  let desired := constructFor svc (r_Scheme r) g in
  let key := keyOf (appsv1.ObjectMeta desired) in
  let fetched := Get_Deployment (r_Client r) key w in
  (fetched.2 = inl err /\ IsNotFound err = false
   /\ trace (reconcileFor svc r g w) = [CallGetDeployment key])
  \/ (exists e,
        err = ErrWrap (createMessage svc) e
        /\ (Create_Deployment (r_Client r) desired fetched.1).2 = Some e
        /\ trace (reconcileFor svc r g w) = [CallGetDeployment key; CallCreateDeployment desired]
        /\ IsNotFound err = IsNotFound e /\ IsAlreadyExists err = IsAlreadyExists e)
  \/ (exists e existing,
        err = ErrWrap (updateMessage svc) e
        /\ fetched.2 = inr existing
        /\ (Update_Deployment (r_Client r) (withSpec existing (appsv1.Spec desired)) fetched.1).2
           = Some e
        /\ trace (reconcileFor svc r g w)
           = [CallGetDeployment key;
              CallUpdateDeployment (withSpec existing (appsv1.Spec desired))]
        /\ IsNotFound err = IsNotFound e /\ IsAlreadyExists err = IsAlreadyExists e).
Proof.
  intros Herr desired key fetched. subst fetched.
  assert (Hshape : reconcileFor svc r g w
                   = reconcileDeployment r (createMessage svc) (updateMessage svc) desired w)
    by (by destruct svc).
  rewrite Hshape in Herr |- *. revert Herr.
  unfold reconcileDeployment, bind, call, ret, panic, returned, trace.
  fold (keyOf (appsv1.ObjectMeta desired)). fold key.
  destruct (Get_Deployment (r_Client r) key w) as [w1 [e0|existing]]; cbn.
  - unfold IgnoreNotFound. destruct (IsNotFound e0) eqn:Hnf; cbn.
    + destruct (Create_Deployment (r_Client r) desired w1) as [w2 [e|]]; cbn;
        intros H; [|discriminate H]. injection H as <-.
      right; left. exists e. by repeat split.
    + intros H. injection H as <-. by left.
  - destruct (isEqual desired existing) as [[]|]; cbn; try (intros H; discriminate H).
    destruct (Update_Deployment _ _ _) as [w2 [e|]] eqn:Hupd; cbn; intros H; [|discriminate H].
    injection H as <-. right; right. exists e, existing. rewrite Hupd. by repeat split.
Qed.

Lemma service_step_error_origin_witness :
  let r := scenario.deploymentFetchStale in
  let g := sample.descriptor false in
  let w := world (run.first false) in
  returned (reconcileFor ServiceA r g w)
    = Some (Some (ErrWrap "failed to create new Deployment" ErrAlreadyExists))
  /\ IsAlreadyExists (ErrWrap "failed to create new Deployment" ErrAlreadyExists) = true
  /\ length (trace (reconcileFor ServiceA r g w)) = 2.
Proof.
  intros r g w.
  assert (H : returned (reconcileFor ServiceA r g w)
              = Some (Some (ErrWrap "failed to create new Deployment" ErrAlreadyExists)))
    by (vm_compute; reflexivity).
  split; [exact H|]. split; [reflexivity|].
  destruct (service_step_error_origin r ServiceA g w _ H)
    as [(Hf & _) | [(e & _ & _ & -> & _) | (e & existing & _ & _ & _ & -> & _)]];
    [|reflexivity|reflexivity].
  vm_compute in Hf. discriminate Hf.
Defined.

(** The compute-cluster block after a failed fetch. *)
Lemma ensureRayCluster_after_fetch_error {W} (r : GenAIDeploymentReconciler W)
    (req : Request) (g : enterpriseApi.GenAIDeployment) (w w1 : W) (e0 : error) :
  Get_RayCluster (r_Client r) (rayKey req) w = (w1, inl e0) ->
  trace (ensureRayCluster r req g w)
    = [CallGetRayCluster (rayKey req); CallCreateRayCluster (constructRayCluster g)]
  /\ world (ensureRayCluster r req g w)
     = (Create_RayCluster (r_Client r) (constructRayCluster g) w1).1
  /\ returned (ensureRayCluster r req g w)
     = Some match (Create_RayCluster (r_Client r) (constructRayCluster g) w1).2 with
            | Some e => inl e
            | None => inr rayv1.zero
            end.
Proof.
  intros Hget. unfold ensureRayCluster, bind, call, ret, trace, world, returned.
  fold (rayKey req). rewrite Hget. cbn.
  by destruct (Create_RayCluster _ _ _) as [w2 [e|]].
Qed.

(** X7. For the compute cluster every error of the fetch counts as absence:
    whatever the error is, not-found or not, the engine goes on to create the
    cluster it constructs from the descriptor. *)
Theorem RayCluster_fetch_error_creates {W} (r : GenAIDeploymentReconciler W)
    (req : Request) (g : enterpriseApi.GenAIDeployment) (w w1 : W) (e0 : error) :
  Get_RayCluster (r_Client r) (rayKey req) w = (w1, inl e0) ->
  trace (ensureRayCluster r req g w)
    = [CallGetRayCluster (rayKey req); CallCreateRayCluster (constructRayCluster g)]
  /\ world (ensureRayCluster r req g w)
     = (Create_RayCluster (r_Client r) (constructRayCluster g) w1).1
  /\ returned (ensureRayCluster r req g w)
     = Some match (Create_RayCluster (r_Client r) (constructRayCluster g) w1).2 with
            | Some e => inl e
            | None => inr rayv1.zero
            end.
Proof. exact (ensureRayCluster_after_fetch_error r req g w w1 e0). Qed.

Lemma RayCluster_fetch_error_creates_witness :
  let w := world (run.first true) in
  Get_RayCluster (r_Client run.rayFetchDown) (rayKey sample.request) w
    = (w, inl (ErrOther "timeout"))
  /\ IsNotFound (ErrOther "timeout") = false
  /\ trace (ensureRayCluster run.rayFetchDown sample.request (scenario.fetched true) w)
     = [CallGetRayCluster (rayKey sample.request);
        CallCreateRayCluster (constructRayCluster (scenario.fetched true))].
Proof.
  intros w. split; [reflexivity|]. split; [reflexivity|].
  apply (RayCluster_fetch_error_creates run.rayFetchDown sample.request
           (scenario.fetched true) w w (ErrOther "timeout")).
  reflexivity.
Defined.

(** X8. The object of every status update of a pass is the descriptor the
    pass fetched with only its status changed: metadata and specification
    are the fetched ones. *)
Theorem status_update_keeps_spec {W} (r : GenAIDeploymentReconciler W)
    (req : Request) (w w1 : W) (g : enterpriseApi.GenAIDeployment) :
  Get_GenAIDeployment (r_Client r) (req_NamespacedName req) w = (w1, inr g) ->
  Forall (fun c => match c with
                   | CallStatusUpdate obj =>
                     enterpriseApi.ObjectMeta obj = enterpriseApi.ObjectMeta g
                     /\ enterpriseApi.Spec obj = enterpriseApi.Spec g
                   | _ => True
                   end) (trace (Reconcile r req w)).
Proof.
  intros Hget. rewrite Reconcile_run, Hget. cbn [fst snd].
  assert (Hsvc : forall g' w',
             Forall (fun c => match c with
                              | CallStatusUpdate obj =>
                                enterpriseApi.ObjectMeta obj = enterpriseApi.ObjectMeta g
                                /\ enterpriseApi.Spec obj = enterpriseApi.Spec g
                              | _ => True
                              end) (trace (reconcileServices r g' w'))).
  { intros g' w'. destruct (reconcileServices_calls r g' w') as (Hf & _).
    eapply Forall_impl; [exact Hf|]. by intros []. }
  assert (Hray : Forall (fun c => match c with
                              | CallStatusUpdate obj =>
                                enterpriseApi.ObjectMeta obj = enterpriseApi.ObjectMeta g
                                /\ enterpriseApi.Spec obj = enterpriseApi.Spec g
                              | _ => True
                              end) (trace (reconcileRayCluster r req g w1))).
  { rewrite reconcileRayCluster_run. cbv zeta.
    assert (Hens : Forall (fun c => match c with
                              | CallStatusUpdate obj =>
                                enterpriseApi.ObjectMeta obj = enterpriseApi.ObjectMeta g
                                /\ enterpriseApi.Spec obj = enterpriseApi.Spec g
                              | _ => True
                              end) (trace (ensureRayCluster r req g w1))).
    { destruct (ensureRayCluster_trace r req g w1) as [-> | (rc & _ & ->)];
        by repeat constructor. }
    destruct (returned (ensureRayCluster r req g w1)) as [[e|rc]|]; rewrite trace_of;
      [done| |done].
    apply Forall_app. split; [done|]. by repeat constructor. }
  destruct (enterpriseApi.Enabled _); cbv zeta.
  - destruct (returned (reconcileRayCluster r req g w1)) as [[e|g']|]; rewrite trace_of;
      constructor; try done.
    apply Forall_app. by split.
  - rewrite trace_of. by constructor.
Qed.

Lemma status_update_keeps_spec_witness :
  let fetched := Get_GenAIDeployment (r_Client sample.reconciler)
                   (req_NamespacedName sample.request) (sample.fresh true) in
  fetched = (fetched.1, inr (scenario.fetched true))
  /\ count isStatusUpdate (trace (run.first true)) = 1
  /\ Forall (fun c => match c with
                      | CallStatusUpdate obj =>
                        enterpriseApi.Spec obj = enterpriseApi.Spec (scenario.fetched true)
                      | _ => True
                      end) (trace (run.first true)).
Proof.
  intros fetched.
  assert (H : fetched = (fetched.1, inr (scenario.fetched true))) by (vm_compute; reflexivity).
  split; [exact H|]. split; [vm_compute; reflexivity|].
  eapply Forall_impl;
    [exact (status_update_keeps_spec sample.reconciler sample.request (sample.fresh true)
              fetched.1 (scenario.fetched true) H)|].
  intros []; tauto.
Defined.

(** X9. After the engine has created the compute cluster, the status it
    writes on the descriptor in the same pass is blank: the cluster name, the
    state and the conditions are those of an empty cluster object, not of the
    cluster just created. *)
Theorem status_after_create_is_blank {W} (r : GenAIDeploymentReconciler W)
    (req : Request) (w w1 w2 w3 : W) (g : enterpriseApi.GenAIDeployment) (e0 : error) :
  Get_GenAIDeployment (r_Client r) (req_NamespacedName req) w = (w1, inr g) ->
  enterpriseApi.Enabled (enterpriseApi.RayService (enterpriseApi.Spec g)) = true ->
  Get_RayCluster (r_Client r) (rayKey req) w1 = (w2, inl e0) ->
  Create_RayCluster (r_Client r) (constructRayCluster g) w2 = (w3, None) ->
  exists obj,
    trace (Reconcile r req w) !! 3 = Some (CallStatusUpdate obj)
    /\ enterpriseApi.RayClusterStatus_ (enterpriseApi.Status obj)
       = {| enterpriseApi.ClusterName := ""; enterpriseApi.State := "";
            enterpriseApi.Conditions := [] |}.
Proof.
  intros Hget Hen Hray Hcreate.
  destruct (ensureRayCluster_after_fetch_error r req g w1 w2 e0 Hray) as (Ht & Hw & Hr).
  rewrite Hcreate in Hr, Hw. cbn [fst snd] in Hr, Hw.
  exists (withRayClusterStatus g rayv1.zero). split; [|reflexivity].
  rewrite Reconcile_run, Hget. cbn [fst snd]. rewrite Hen. cbv zeta.
  rewrite reconcileRayCluster_run, Hr. cbv zeta. rewrite returned_of, !trace_of, Ht.
  reflexivity.
Qed.

Lemma status_after_create_is_blank_witness :
  let w := sample.fresh true in
  let g := scenario.fetched true in
  Get_GenAIDeployment (r_Client sample.reconciler) (req_NamespacedName sample.request) w
    = (w, inr g)
  /\ enterpriseApi.Enabled (enterpriseApi.RayService (enterpriseApi.Spec g)) = true
  /\ Get_RayCluster (r_Client sample.reconciler) (rayKey sample.request) w = (w, inl ErrNotFound)
  /\ Create_RayCluster (r_Client sample.reconciler) (constructRayCluster g) w
     = (cluster.putRayCluster (constructRayCluster g) w, None)
  /\ exists obj,
       trace (run.first true) !! 3 = Some (CallStatusUpdate obj)
       /\ enterpriseApi.ClusterName (enterpriseApi.RayClusterStatus_ (enterpriseApi.Status obj))
          = "".
Proof.
  intros w g.
  assert (H1 : Get_GenAIDeployment (r_Client sample.reconciler)
                 (req_NamespacedName sample.request) w = (w, inr g)) by reflexivity.
  assert (H2 : enterpriseApi.Enabled (enterpriseApi.RayService (enterpriseApi.Spec g)) = true)
    by reflexivity.
  assert (H3 : Get_RayCluster (r_Client sample.reconciler) (rayKey sample.request) w
               = (w, inl ErrNotFound)) by reflexivity.
  assert (H4 : Create_RayCluster (r_Client sample.reconciler) (constructRayCluster g) w
               = (cluster.putRayCluster (constructRayCluster g) w, None)) by reflexivity.
  split; [exact H1|]. split; [exact H2|]. split; [exact H3|]. split; [exact H4|].
  destruct (status_after_create_is_blank sample.reconciler sample.request w w w _ g
              ErrNotFound H1 H2 H3 H4) as (obj & Hobj & Hblank).
  exists obj. split; [exact Hobj|]. by rewrite Hblank.
Defined.

(** * Further properties of the pass, on a cluster nobody else writes to *)

Lemma identify_keyOf key m : keyOf (identify key m) = key.
Proof. by destruct key. Qed.

Lemma identify_own m : identify (keyOf m) m = m.
Proof. by destruct m. Qed.

Lemma identify_idem key m : identify key (identify key m) = identify key m.
Proof. reflexivity. Qed.

(** The constructors read the metadata and the specification of the
    descriptor, not its status. *)
Lemma constructFor_ext svc s g g' :
  enterpriseApi.ObjectMeta g' = enterpriseApi.ObjectMeta g ->
  enterpriseApi.Spec g' = enterpriseApi.Spec g ->
  constructFor svc s g' = constructFor svc s g.
Proof. destruct g, g'; cbn; intros -> ->. by destruct svc. Qed.

Lemma constructFor_replicas svc s g :
  exists f v, appsv1.Replicas (appsv1.Spec (constructFor svc s g)) = addressOf f v.
Proof. destruct svc; by eexists _, _. Qed.

Section OnCluster.
Variable s : Scheme.

(** One service step on the cluster, exactly. *)
Lemma cluster_reconcileFor_run svc g c :
  let desired := constructFor svc s g in
  let key := keyOf (appsv1.ObjectMeta desired) in
  let res := reconcileFor svc (onCluster s) g c in
  returned res = Some None
  /\ trace res = [CallGetDeployment key; deploymentWrite desired c]
  /\ genAIDeployments (world res) = genAIDeployments c
  /\ rayClusters (world res) = rayClusters c
  /\ deployments (world res) = <[key := deploymentAfter desired c]> (deployments c).
Proof.
  intros desired key res. subst res.
  destruct (reconcileFor_shape (onCluster s) svc g c) as (cm & um & ->).
  cbn [r_Scheme onCluster]. fold desired.
  destruct (constructFor_replicas svc s g) as (f & v & Hr). fold desired in Hr.
  unfold deploymentWrite, deploymentAfter. fold key.
  unfold reconcileDeployment, bind, call, ret, panic, returned, world, trace.
  fold (keyOf (appsv1.ObjectMeta desired)). fold key.
  cbn [r_Client onCluster Get_Deployment Create_Deployment Update_Deployment cluster.client].
  unfold cluster.getDeployment.
  destruct (deployments c !! key) as [stored|] eqn:Hlook.
  - cbn. rewrite (isEqual_decoded desired f v key (nextCell c) stored Hr).
    unfold cluster.updateDeployment. cbn.
    rewrite !identify_keyOf, Hlook. cbn. rewrite !identify_keyOf. done.
  - cbn. unfold cluster.createDeployment. fold key. rewrite Hlook. done.
Qed.

(** The two service steps on the cluster, exactly. *)
Lemma cluster_services_run g c :
  let dA := constructFor ServiceA s g in
  let dB := constructFor ServiceB s g in
  let cA := world (reconcileFor ServiceA (onCluster s) g c) in
  let res := reconcileServices (onCluster s) g c in
  returned res = Some None
  /\ trace res = [CallGetDeployment (keyOf (appsv1.ObjectMeta dA)); deploymentWrite dA c;
                  CallGetDeployment (keyOf (appsv1.ObjectMeta dB)); deploymentWrite dB cA]
  /\ genAIDeployments (world res) = genAIDeployments c
  /\ rayClusters (world res) = rayClusters c
  /\ deployments (world res)
     = <[keyOf (appsv1.ObjectMeta dB) := deploymentAfter dB cA]>
         (<[keyOf (appsv1.ObjectMeta dA) := deploymentAfter dA c]> (deployments c)).
Proof.
  intros dA dB cA res. subst res.
  destruct (cluster_reconcileFor_run ServiceA g c) as (HrA & HtA & HgA & HyA & HdA).
  destruct (cluster_reconcileFor_run ServiceB g cA) as (HrB & HtB & HgB & HyB & HdB).
  fold dA in HtA, HdA. fold dB in HtB, HdB. fold cA in HgA, HyA, HdA.
  cbn [reconcileFor] in HrA, HtA, HrB, HtB, HgB, HyB, HdB.
  rewrite reconcileServices_run, HrA. cbv zeta.
  change (world (reconcileSaisServiceDeployment (onCluster s) g c)) with cA.
  rewrite returned_of, trace_of, world_of, HrB, HtA, HtB, HgB, HyB, HdB, HgA, HyA, HdA.
  done.
Qed.

Lemma cluster_rayCluster_run req g0 c :
  genAIDeployments c !! req_NamespacedName req = Some g0 ->
  let g := decodeGenAIDeployment (req_NamespacedName req) g0 in
  let g' := withRayClusterStatus g (rayClusterSeen req c) in
  let res := reconcileRayCluster (onCluster s) req g c in
  returned res = Some (inr g')
  /\ trace res
     = [CallGetRayCluster (rayKey req);
        match rayClusters c !! rayKey req with
        | None => CallCreateRayCluster (constructRayCluster g)
        | Some _ => CallUpdateRayCluster (rayClusterAfter req g c)
        end;
        CallStatusUpdate g']
  /\ genAIDeployments (world res)
     = <[req_NamespacedName req :=
           {| enterpriseApi.ObjectMeta := enterpriseApi.ObjectMeta g0;
              enterpriseApi.Spec := enterpriseApi.Spec g0;
              enterpriseApi.Status := enterpriseApi.Status g' |}]> (genAIDeployments c)
  /\ rayClusters (world res) = <[rayKey req := rayClusterAfter req g c]> (rayClusters c)
  /\ deployments (world res) = deployments c.
Proof.
  intros Hdesc g g' res. subst res g'.
  unfold rayClusterAfter, rayClusterSeen.
  assert (Hnew : keyOf (rayv1.ObjectMeta (constructRayCluster g)) = rayKey req) by reflexivity.
  rewrite reconcileRayCluster_run. cbv zeta.
  unfold ensureRayCluster, bind, call, ret, updateRayCluster. fold (rayKey req).
  cbn [r_Client onCluster Get_RayCluster Create_RayCluster Update_RayCluster
       StatusUpdate_GenAIDeployment cluster.client].
  unfold cluster.getRayCluster.
  destruct (rayClusters c !! rayKey req) as [rc|] eqn:Hlook.
  - cbn [fst snd]. unfold cluster.updateRayCluster, cluster.putRayCluster.
    cbn [rayv1.ObjectMeta decodeRayCluster rayClusters].
    rewrite !identify_keyOf, Hlook.
    unfold returned, world, trace. cbn [fst snd app].
    unfold cluster.statusUpdate.
    cbn [withRayClusterStatus enterpriseApi.ObjectMeta genAIDeployments
         decodeGenAIDeployment g].
    rewrite !identify_keyOf, Hdesc. cbn. done.
  - cbn [fst snd]. unfold cluster.createRayCluster, cluster.putRayCluster.
    rewrite !Hnew, Hlook.
    unfold returned, world, trace. cbn [fst snd app].
    unfold cluster.statusUpdate.
    cbn [withRayClusterStatus enterpriseApi.ObjectMeta genAIDeployments
         decodeGenAIDeployment g].
    rewrite !identify_keyOf, Hdesc. cbn. done.
Qed.

(** A whole pass on the cluster, in terms of its blocks. *)
Lemma cluster_pass_run req g0 c :
  genAIDeployments c !! req_NamespacedName req = Some g0 ->
  let g := decodeGenAIDeployment (req_NamespacedName req) g0 in
  let enabled := enterpriseApi.Enabled (enterpriseApi.RayService (enterpriseApi.Spec g0)) in
  let R := reconcileRayCluster (onCluster s) req g c in
  let c1 := if enabled then world R else c in
  let g' := if enabled then withRayClusterStatus g (rayClusterSeen req c) else g in
  let S := reconcileServices (onCluster s) g' c1 in
  Reconcile (onCluster s) req c
  = (world S,
     CallGetGenAIDeployment (req_NamespacedName req)
       :: (if enabled then trace R else []) ++ trace S,
     Some None).
Proof.
  intros Hdesc g enabled R c1 g' S. subst S c1 g' R.
  rewrite Reconcile_run. cbn [r_Client onCluster Get_GenAIDeployment cluster.client].
  unfold cluster.getGenAIDeployment. rewrite Hdesc. cbn [fst snd]. fold g.
  change (enterpriseApi.Enabled (enterpriseApi.RayService (enterpriseApi.Spec g)))
    with enabled.
  destruct enabled; cbv zeta.
  - destruct (cluster_rayCluster_run req g0 c Hdesc) as (Hr & _). fold g in Hr.
    rewrite Hr.
    by destruct (cluster_services_run (withRayClusterStatus g (rayClusterSeen req c))
                   (world (reconcileRayCluster (onCluster s) req g c))) as (-> & _).
  - by destruct (cluster_services_run g c) as (-> & _).
Qed.

Lemma deploymentAfter_spec desired c :
  appsv1.Spec (deploymentAfter desired c) = appsv1.Spec desired.
Proof. unfold deploymentAfter. by destruct (deployments c !! _). Qed.

Lemma deploymentAfter_key desired c :
  keyOf (appsv1.ObjectMeta (deploymentAfter desired c)) = keyOf (appsv1.ObjectMeta desired).
Proof.
  unfold deploymentAfter. destruct (deployments c !! _); [|done].
  cbn. by rewrite identify_keyOf.
Qed.

(** The deployments of a cluster after a pass for a descriptor it holds. *)
Lemma cluster_pass_deployments req g0 c :
  genAIDeployments c !! req_NamespacedName req = Some g0 ->
  let g := decodeGenAIDeployment (req_NamespacedName req) g0 in
  let dA := constructFor ServiceA s g in
  let dB := constructFor ServiceB s g in
  let keyA := derivedKey ServiceA (req_Namespace req) (req_Name req) in
  let keyB := derivedKey ServiceB (req_Namespace req) (req_Name req) in
  exists n m,
    deployments (world (Reconcile (onCluster s) req c))
    = <[keyB := match deployments c !! keyB with
                | None => dB
                | Some stored => withSpec (decodeDeployment keyB m stored) (appsv1.Spec dB)
                end]>
        (<[keyA := match deployments c !! keyA with
                   | None => dA
                   | Some stored => withSpec (decodeDeployment keyA n stored) (appsv1.Spec dA)
                   end]> (deployments c)).
Proof.
  intros Hdesc g dA dB keyA keyB.
  rewrite (cluster_pass_run req g0 c Hdesc). cbv zeta. rewrite world_of. fold g.
  set (enabled := enterpriseApi.Enabled (enterpriseApi.RayService (enterpriseApi.Spec g0))).
  set (g' := if enabled then withRayClusterStatus g (rayClusterSeen req c) else g).
  set (c1 := if enabled then world (reconcileRayCluster (onCluster s) req g c) else c).
  assert (Hext : forall svc, constructFor svc s g' = constructFor svc s g).
  { intros svc. subst g'. destruct enabled; [|done]. by apply constructFor_ext. }
  assert (Hdeps : deployments c1 = deployments c).
  { subst c1. destruct enabled; [|done].
    destruct (cluster_rayCluster_run req g0 c Hdesc) as (_ & _ & _ & _ & H). exact H. }
  destruct (cluster_services_run g' c1) as (_ & _ & _ & _ & Hd).
  rewrite !Hext in Hd. fold dA dB in Hd.
  pose proof (constructFor_key ServiceA s g) as HkA.
  pose proof (constructFor_key ServiceB s g) as HkB.
  fold dA in HkA. fold dB in HkB.
  change (keyOf (appsv1.ObjectMeta dA) = keyA) in HkA.
  change (keyOf (appsv1.ObjectMeta dB) = keyB) in HkB.
  rewrite Hd, HkA, HkB. unfold deploymentAfter. rewrite HkA, HkB.
  destruct (cluster_reconcileFor_run ServiceA g' c1) as (_ & _ & _ & _ & HdA).
  rewrite HdA, Hext. fold dA. rewrite HkA.
  rewrite lookup_insert_ne by apply derivedKey_services_differ.
  rewrite Hdeps. by eexists _, _.
Qed.
End OnCluster.

(** X10. Convergence of the service deployments: after a pass for a
    descriptor the cluster holds, each of the two services has a deployment
    under its derived name whose specification is the one constructed from the
    descriptor; when none was stored before, the stored object is the
    constructed one itself, with its metadata. *)
Theorem deployments_converge_in_one_pass (s : Scheme) (req : Request) (c : Cluster)
    (g0 : enterpriseApi.GenAIDeployment) (svc : Service) :
  genAIDeployments c !! req_NamespacedName req = Some g0 ->
  let g := decodeGenAIDeployment (req_NamespacedName req) g0 in
  let key := derivedKey svc (req_Namespace req) (req_Name req) in
  exists d,
    deployments (world (Reconcile (onCluster s) req c)) !! key = Some d
    /\ appsv1.Spec d = appsv1.Spec (constructFor svc s g)
    /\ keyOf (appsv1.ObjectMeta d) = key
    /\ (deployments c !! key = None -> d = constructFor svc s g).
Proof.
  intros Hdesc g key.
  destruct (cluster_pass_deployments s req g0 c Hdesc) as (n & m & ->).
  pose proof (constructFor_key svc s g) as Hk.
  change (keyOf (appsv1.ObjectMeta (constructFor svc s g)) = key) in Hk.
  destruct svc; subst key.
  - rewrite lookup_insert_ne
      by (intros H; symmetry in H; by apply derivedKey_services_differ in H).
    rewrite lookup_insert_eq. eexists. split; [done|].
    destruct (deployments c !! _); [|done].
    split; [done|]. split; [by cbn; rewrite identify_keyOf | done].
  - rewrite lookup_insert_eq. eexists. split; [done|].
    destruct (deployments c !! _); [|done].
    split; [done|]. split; [by cbn; rewrite identify_keyOf | done].
Qed.

Lemma deployments_converge_in_one_pass_witness :
  genAIDeployments (sample.fresh true) !! req_NamespacedName sample.request
    = Some (sample.descriptor true)
  /\ exists d,
       deployments (world (run.first true)) !! derivedKey ServiceB "ns" "x" = Some d
       /\ appsv1.Spec d
          = appsv1.Spec (constructVectorDbDeployment sample.scheme (scenario.fetched true)).
Proof.
  assert (H : genAIDeployments (sample.fresh true) !! req_NamespacedName sample.request
              = Some (sample.descriptor true)) by reflexivity.
  split; [exact H|].
  destruct (deployments_converge_in_one_pass sample.scheme sample.request (sample.fresh true)
              (sample.descriptor true) ServiceB H) as (d & Hd & Hspec & _).
  exists d. split; [exact Hd | exact Hspec].
Defined.

(** The descriptors and the compute clusters of a cluster after a pass. *)
Lemma cluster_pass_others s req g0 c :
  genAIDeployments c !! req_NamespacedName req = Some g0 ->
  let g := decodeGenAIDeployment (req_NamespacedName req) g0 in
  let res := Reconcile (onCluster s) req c in
  if enterpriseApi.Enabled (enterpriseApi.RayService (enterpriseApi.Spec g0)) then
    genAIDeployments (world res)
    = <[req_NamespacedName req :=
          {| enterpriseApi.ObjectMeta := enterpriseApi.ObjectMeta g0;
             enterpriseApi.Spec := enterpriseApi.Spec g0;
             enterpriseApi.Status :=
               enterpriseApi.Status (withRayClusterStatus g (rayClusterSeen req c)) |}]>
        (genAIDeployments c)
    /\ rayClusters (world res) = <[rayKey req := rayClusterAfter req g c]> (rayClusters c)
  else
    genAIDeployments (world res) = genAIDeployments c
    /\ rayClusters (world res) = rayClusters c.
Proof.
  intros Hdesc g res. subst res.
  rewrite (cluster_pass_run s req g0 c Hdesc). cbv zeta. rewrite world_of. fold g.
  destruct (enterpriseApi.Enabled (enterpriseApi.RayService (enterpriseApi.Spec g0))).
  - destruct (cluster_rayCluster_run s req g0 c Hdesc) as (_ & _ & Hg & Hy & _).
    destruct (cluster_services_run s (withRayClusterStatus g (rayClusterSeen req c))
                (world (reconcileRayCluster (onCluster s) req g c)))
      as (_ & _ & Hg' & Hy' & _).
    split; [rewrite Hg'; exact Hg | rewrite Hy'; exact Hy].
  - by destruct (cluster_services_run s g c) as (_ & _ & -> & -> & _).
Qed.

(** X11. Frame of a pass: on the cluster, a pass for one descriptor leaves
    every other descriptor, every compute cluster but the one of its derived
    name and every deployment but the two of its derived names as they were. *)
Theorem pass_touches_only_its_own_objects (s : Scheme) (req : Request) (c : Cluster) :
  let after := world (Reconcile (onCluster s) req c) in
  (forall k, k <> req_NamespacedName req ->
             genAIDeployments after !! k = genAIDeployments c !! k)
  /\ (forall k, k <> rayKey req -> rayClusters after !! k = rayClusters c !! k)
  /\ (forall k, k <> derivedKey ServiceA (req_Namespace req) (req_Name req) ->
                k <> derivedKey ServiceB (req_Namespace req) (req_Name req) ->
                deployments after !! k = deployments c !! k).
Proof.
  intros after. subst after.
  destruct (genAIDeployments c !! req_NamespacedName req) as [g0|] eqn:Hdesc.
  - pose proof (cluster_pass_others s req g0 c Hdesc) as Hothers. cbv zeta in Hothers.
    destruct (cluster_pass_deployments s req g0 c Hdesc) as (n & m & Hdeps).
    split; [|split].
    + intros k Hk.
      destruct (enterpriseApi.Enabled _); destruct Hothers as [-> _]; [|done].
      by rewrite lookup_insert_ne.
    + intros k Hk.
      destruct (enterpriseApi.Enabled _); destruct Hothers as [_ ->]; [|done].
      by rewrite lookup_insert_ne.
    + intros k HkA HkB. rewrite Hdeps. by rewrite !lookup_insert_ne.
  - assert (Hrun : Reconcile (onCluster s) req c
                   = (c, [CallGetGenAIDeployment (req_NamespacedName req)], Some None)).
    { unfold Reconcile, bind, call, ret. cbn. unfold cluster.getGenAIDeployment.
      by rewrite Hdesc. }
    rewrite Hrun. by repeat split.
Qed.

Lemma decodeWorkerGroups_content cell groups :
  map (fun g => (rayv1.GroupName g, ref_val <$> rayv1.Replicas g, rayv1.Worker_Template g))
      (imap (fun i => decodeWorkerGroup (cell + i)) groups)
  = map (fun g => (rayv1.GroupName g, ref_val <$> rayv1.Replicas g, rayv1.Worker_Template g))
        groups.
Proof.
  revert cell. induction groups as [|grp groups IH]; intros cell; [done|].
  cbn [imap map]. f_equal.
  - cbn. by destruct (rayv1.Replicas grp).
  - rewrite <- (IH (S cell)). f_equal. apply imap_ext. intros i x _. cbn.
    by replace (cell + S i) with (S cell + i) by lia.
Qed.

Lemma decodeRayCluster_content key cell rc :
  rayClusterContent (decodeRayCluster key cell rc) = rayClusterContent rc.
Proof.
  unfold rayClusterContent. cbn [decodeRayCluster rayv1.Spec rayv1.HeadGroup
                                   rayv1.WorkerGroupSpecs].
  by rewrite decodeWorkerGroups_content.
Qed.

(** X12. Drift of the compute cluster is never repaired: when the cluster of
    a descriptor that enables it exists, a pass issues no create for it and
    leaves under its name the object it fetched, so that head group, worker
    groups and replica counts are what they were before the pass, whatever
    the descriptor asks for. *)
Theorem existing_RayCluster_never_repaired (s : Scheme) (req : Request) (c : Cluster)
    (g0 : enterpriseApi.GenAIDeployment) (rc : rayv1.RayCluster) :
  genAIDeployments c !! req_NamespacedName req = Some g0 ->
  enterpriseApi.Enabled (enterpriseApi.RayService (enterpriseApi.Spec g0)) = true ->
  rayClusters c !! rayKey req = Some rc ->
  let res := Reconcile (onCluster s) req c in
  exists rc',
    rayClusters (world res) !! rayKey req = Some rc'
    /\ rayClusterContent rc' = rayClusterContent rc
    /\ rayv1.Status rc' = rayv1.Status rc
    /\ trace res !! 2 = Some (CallUpdateRayCluster rc')
    /\ count (fun c => isCreate c && isRayClusterCall c) (trace res) = 0.
Proof.
  intros Hdesc Hen Hray res. subst res.
  exists (decodeRayCluster (rayKey req) (nextCell c) rc).
  pose proof (cluster_pass_others s req g0 c Hdesc) as Hothers. cbv zeta in Hothers.
  rewrite Hen in Hothers. destruct Hothers as [_ Hy].
  unfold rayClusterAfter in Hy. rewrite Hray in Hy.
  split; [by rewrite Hy, lookup_insert_eq|].
  split; [apply decodeRayCluster_content|]. split; [done|].
  rewrite (cluster_pass_run s req g0 c Hdesc). cbv zeta. rewrite trace_of, Hen.
  destruct (cluster_rayCluster_run s req g0 c Hdesc) as (_ & Ht & _).
  rewrite Ht. unfold rayClusterAfter. rewrite Hray. split; [done|].
  change (?a :: ?l ++ ?t) with ((a :: l) ++ t). rewrite count_app.
  rewrite (count_none _ (trace (reconcileServices _ _ _))); [done|].
  eapply Forall_impl; [apply reconcileServices_calls|]. by intros [].
Qed.

Lemma existing_RayCluster_never_repaired_witness :
  let c := world (run.first true) in
  let rc := constructRayCluster (scenario.fetched true) in
  genAIDeployments c !! req_NamespacedName sample.request <> None
  /\ rayClusters c !! rayKey sample.request = Some rc
  /\ exists rc',
       rayClusters (world (run.second true)) !! rayKey sample.request = Some rc'
       /\ rayClusterContent rc' = rayClusterContent rc.
Proof.
  intros c rc.
  destruct (genAIDeployments c !! req_NamespacedName sample.request) as [g0|] eqn:Hdesc;
    [|vm_compute in Hdesc; discriminate Hdesc].
  assert (Hen : enterpriseApi.Enabled (enterpriseApi.RayService (enterpriseApi.Spec g0)) = true).
  { vm_compute in Hdesc. injection Hdesc as <-. reflexivity. }
  assert (Hray : rayClusters c !! rayKey sample.request = Some rc) by (vm_compute; reflexivity).
  split; [done|]. split; [exact Hray|].
  destruct (existing_RayCluster_never_repaired sample.scheme sample.request c g0 rc
              Hdesc Hen Hray) as (rc' & Hlook & Hcontent & _).
  exists rc'. split; [exact Hlook | exact Hcontent].
Defined.

(** X13. On the cluster an existing service deployment is written on every
    pass: whatever is stored under the derived name, even the very deployment
    the step would construct, the step fetches it and sends one update, never
    finding it equal, because the evaluator compares the two [Replicas]
    pointers and the fetched one is a cell of its own. *)
Theorem existing_deployment_always_updated (s : Scheme) (svc : Service)
    (g : enterpriseApi.GenAIDeployment) (c : Cluster) (stored : appsv1.Deployment) :
  let desired := constructFor svc s g in
  let key := keyOf (appsv1.ObjectMeta desired) in
  deployments c !! key = Some stored ->
  let fetched := decodeDeployment key (nextCell c) stored in
  isEqual desired fetched = Some false
  /\ trace (reconcileFor svc (onCluster s) g c)
     = [CallGetDeployment key; CallUpdateDeployment (withSpec fetched (appsv1.Spec desired))]
  /\ returned (reconcileFor svc (onCluster s) g c) = Some None.
Proof.
  intros desired key Hlook fetched.
  destruct (constructFor_replicas svc s g) as (f & v & Hr).
  split; [by apply (isEqual_decoded desired f v)|].
  destruct (cluster_reconcileFor_run s svc g c) as (Hret & Ht & _).
  fold desired key in Ht. unfold deploymentWrite, deploymentAfter in Ht.
  fold key in Ht. rewrite Hlook in Ht. done.
Qed.

Lemma existing_deployment_always_updated_witness :
  let g := scenario.fetched false in
  let desired := constructFor ServiceA sample.scheme g in
  let c := world (run.first false) in
  deployments c !! keyOf (appsv1.ObjectMeta desired) = Some desired
  /\ length (List.filter isUpdate
               (trace (reconcileFor ServiceA (onCluster sample.scheme) g c))) = 1.
Proof.
  intros g desired c.
  assert (H : deployments c !! keyOf (appsv1.ObjectMeta desired) = Some desired)
    by (vm_compute; reflexivity).
  split; [exact H|].
  destruct (existing_deployment_always_updated sample.scheme ServiceA g c desired H)
    as (_ & -> & _).
  reflexivity.
Defined.

Lemma withSpec_own d : withSpec d (appsv1.Spec d) = d.
Proof. by destruct d. Qed.

(** X14. The updates of the second pass change nothing in the store: after
    two passes in a row the deployments of the cluster are exactly those
    after the first. *)
Theorem second_pass_leaves_deployments (s : Scheme) (req : Request) (c : Cluster) :
  let first := Reconcile (onCluster s) req c in
  let second := Reconcile (onCluster s) req (world first) in
  deployments (world second) = deployments (world first).
Proof.
  intros first second. subst second first.
  destruct (genAIDeployments c !! req_NamespacedName req) as [g0|] eqn:Hdesc.
  - set (c1 := world (Reconcile (onCluster s) req c)).
    assert (Hdesc1 : exists g1, genAIDeployments c1 !! req_NamespacedName req = Some g1
                                /\ enterpriseApi.ObjectMeta g1 = enterpriseApi.ObjectMeta g0
                                /\ enterpriseApi.Spec g1 = enterpriseApi.Spec g0).
    { pose proof (cluster_pass_others s req g0 c Hdesc) as Hothers. cbv zeta in Hothers.
      fold c1 in Hothers.
      destruct (enterpriseApi.Enabled _); destruct Hothers as [-> _].
      - rewrite lookup_insert_eq. by eexists.
      - by exists g0. }
    destruct Hdesc1 as (g1 & Hdesc1 & Hmeta & Hspec).
    destruct (cluster_pass_deployments s req g0 c Hdesc) as (n & m & Hd1).
    destruct (cluster_pass_deployments s req g1 c1 Hdesc1) as (n' & m' & Hd2).
    fold c1 in Hd1.
    assert (Hext : forall svc,
               constructFor svc s (decodeGenAIDeployment (req_NamespacedName req) g1)
               = constructFor svc s (decodeGenAIDeployment (req_NamespacedName req) g0)).
    { intros svc. apply constructFor_ext; cbn; by rewrite ?Hmeta, ?Hspec. }
    rewrite !Hext in Hd2.
    set (g := decodeGenAIDeployment (req_NamespacedName req) g0) in *.
    set (keyA := derivedKey ServiceA (req_Namespace req) (req_Name req)) in *.
    set (keyB := derivedKey ServiceB (req_Namespace req) (req_Name req)) in *.
    assert (Hne : keyA <> keyB) by apply derivedKey_services_differ.
    pose proof (constructFor_key ServiceA s g) as HkA.
    pose proof (constructFor_key ServiceB s g) as HkB.
    change (keyOf (appsv1.ObjectMeta (constructFor ServiceA s g)) = keyA) in HkA.
    change (keyOf (appsv1.ObjectMeta (constructFor ServiceB s g)) = keyB) in HkB.
    set (dA := constructFor ServiceA s g) in *. set (dB := constructFor ServiceB s g) in *.
    set (a1 := match deployments c !! keyA with
               | None => dA
               | Some stored => withSpec (decodeDeployment keyA n stored) (appsv1.Spec dA)
               end) in *.
    set (b1 := match deployments c !! keyB with
               | None => dB
               | Some stored => withSpec (decodeDeployment keyB m stored) (appsv1.Spec dB)
               end) in *.
    assert (Ha : forall cell, withSpec (decodeDeployment keyA cell a1) (appsv1.Spec dA) = a1).
    { intros cell. subst a1. destruct (deployments c !! keyA) as [stored|].
      - reflexivity.
      - unfold withSpec, decodeDeployment. cbn [appsv1.ObjectMeta].
        rewrite <- HkA, identify_own. by destruct dA. }
    assert (Hb : forall cell, withSpec (decodeDeployment keyB cell b1) (appsv1.Spec dB) = b1).
    { intros cell. subst b1. destruct (deployments c !! keyB) as [stored|].
      - reflexivity.
      - unfold withSpec, decodeDeployment. cbn [appsv1.ObjectMeta].
        rewrite <- HkB, identify_own. by destruct dB. }
    assert (HlookA : deployments c1 !! keyA = Some a1).
    { rewrite Hd1, lookup_insert_ne, lookup_insert_eq by done. done. }
    assert (HlookB : deployments c1 !! keyB = Some b1).
    { by rewrite Hd1, lookup_insert_eq. }
    rewrite Hd2, HlookA, HlookB, Ha, Hb.
    rewrite (insert_id _ keyA a1) by done. by rewrite insert_id.
  - assert (Hrun : Reconcile (onCluster s) req c
                   = (c, [CallGetGenAIDeployment (req_NamespacedName req)], Some None)).
    { unfold Reconcile, bind, call, ret. cbn. unfold cluster.getGenAIDeployment.
      by rewrite Hdesc. }
    rewrite Hrun, world_of, Hrun. done.
Qed.

(** X15. What a pass leaves of the descriptor in the cluster: metadata and
    specification are never changed; with the compute cluster disabled the
    status is not changed either, and with it enabled the status names the
    cluster fetched at the start of the pass, with its state and conditions,
    or is blank when the pass had to create the cluster. *)
Theorem descriptor_after_pass (s : Scheme) (req : Request) (c : Cluster)
    (g0 : enterpriseApi.GenAIDeployment) :
  genAIDeployments c !! req_NamespacedName req = Some g0 ->
  exists g1,
    genAIDeployments (world (Reconcile (onCluster s) req c)) !! req_NamespacedName req = Some g1
    /\ enterpriseApi.ObjectMeta g1 = enterpriseApi.ObjectMeta g0
    /\ enterpriseApi.Spec g1 = enterpriseApi.Spec g0
    /\ enterpriseApi.RayClusterStatus_ (enterpriseApi.Status g1)
       = if enterpriseApi.Enabled (enterpriseApi.RayService (enterpriseApi.Spec g0)) then
           match rayClusters c !! rayKey req with
           | Some rc =>
             {| enterpriseApi.ClusterName := req_Name req +:+ "-raycluster";
                enterpriseApi.State := rayv1.State (rayv1.Status rc);
                enterpriseApi.Conditions := rayv1.Conditions (rayv1.Status rc) |}
           | None =>
             {| enterpriseApi.ClusterName := ""; enterpriseApi.State := "";
                enterpriseApi.Conditions := [] |}
           end
         else enterpriseApi.RayClusterStatus_ (enterpriseApi.Status g0).
Proof.
  intros Hdesc.
  pose proof (cluster_pass_others s req g0 c Hdesc) as Hothers. cbv zeta in Hothers.
  destruct (enterpriseApi.Enabled _); destruct Hothers as [-> _].
  - rewrite lookup_insert_eq. eexists. split; [done|]. split; [done|]. split; [done|].
    unfold rayClusterSeen. by destruct (rayClusters c !! rayKey req).
  - exists g0. by rewrite Hdesc.
Qed.

Lemma descriptor_after_pass_witness :
  let c := world (run.first true) in
  exists g0 g1,
    genAIDeployments c !! req_NamespacedName sample.request = Some g0
    /\ genAIDeployments (world (run.second true)) !! req_NamespacedName sample.request = Some g1
    /\ enterpriseApi.Spec g1 = enterpriseApi.Spec g0
    /\ enterpriseApi.ClusterName (enterpriseApi.RayClusterStatus_ (enterpriseApi.Status g1))
       = "x-raycluster".
Proof.
  intros c.
  destruct (genAIDeployments c !! req_NamespacedName sample.request) as [g0|] eqn:Hdesc;
    [|vm_compute in Hdesc; discriminate Hdesc].
  destruct (descriptor_after_pass sample.scheme sample.request c g0 Hdesc)
    as (g1 & Hlook & _ & Hspec & Hstatus).
  exists g0, g1. split; [done|]. split; [exact Hlook|]. split; [exact Hspec|].
  rewrite Hstatus.
  assert (Hen : enterpriseApi.Enabled (enterpriseApi.RayService (enterpriseApi.Spec g0)) = true).
  { vm_compute in Hdesc. injection Hdesc as <-. reflexivity. }
  rewrite Hen.
  assert (Hray : rayClusters c !! rayKey sample.request
                 = Some (constructRayCluster (scenario.fetched true)))
    by (vm_compute; reflexivity).
  rewrite Hray. reflexivity.
Defined.

(** * Further properties of the constructors and of the evaluator *)

Lemma list_ascii_of_string_app a b :
  Strings.String.list_ascii_of_string (a +:+ b) = Strings.String.list_ascii_of_string a ++ Strings.String.list_ascii_of_string b.
Proof. induction a as [|ch a IH]; [done|]. simpl. f_equal. exact IH. Qed.

Lemma list_ascii_of_string_inj a b :
  Strings.String.list_ascii_of_string a = Strings.String.list_ascii_of_string b -> a = b.
Proof.
  intros H. rewrite <- (Strings.String.string_of_list_ascii_of_string a), <- (Strings.String.string_of_list_ascii_of_string b).
  by rewrite H.
Qed.

(** A name is recovered from the name derived from it. *)
Lemma derived_name_inj x y suffix : x +:+ suffix = y +:+ suffix -> x = y.
Proof.
  intros H. apply (f_equal Strings.String.list_ascii_of_string) in H.
  rewrite !list_ascii_of_string_app in H. apply app_inv_tail in H.
  by apply list_ascii_of_string_inj.
Qed.

Lemma derived_names_apart x y : x +:+ "-sais-service" <> y +:+ "-vectordb-service".
Proof.
  intros H. apply (f_equal Strings.String.list_ascii_of_string) in H.
  rewrite !list_ascii_of_string_app in H.
  apply (f_equal (fun l => take 13 (reverse l))) in H.
  rewrite !reverse_app in H.
  rewrite !take_app_le in H by (cbn; lia).
  vm_compute in H. discriminate H.
Qed.

(** X16. Derived names identify their deployment: the deployments of one
    service for two descriptors have the same namespaced name only when the
    descriptors have the same name and namespace, and a deployment of service
    A never has the namespaced name of a deployment of service B, whatever the
    two descriptors are called. *)
Theorem derived_names_identify (svc svc' : Service) (ns ns' x x' : string) :
  derivedKey svc ns x = derivedKey svc' ns' x' <-> svc = svc' /\ ns = ns' /\ x = x'.
Proof.
  split; [|by intros (-> & -> & ->)].
  unfold derivedKey. intros H. injection H as Hns Hname.
  destruct svc, svc'; cbn in Hname.
  - by apply derived_name_inj in Hname.
  - by apply derived_names_apart in Hname.
  - symmetry in Hname. by apply derived_names_apart in Hname.
  - by apply derived_name_inj in Hname.
Qed.

(** X17. Each service deployment selects its own pods and no others: its
    selector is the label set of its pod template, and it selects the pods of
    a deployment constructed for a service and a descriptor exactly when
    service and descriptor name are its own. *)
Theorem selector_selects_own_pods (s s' : Scheme) (svc svc' : Service)
    (g g' : enterpriseApi.GenAIDeployment) :
  let d := constructFor svc s g in
  let d' := constructFor svc' s' g' in
  appsv1.Selector (appsv1.Spec d) = Some {| metav1.MatchLabels := podLabels d |}
  /\ (selects {| metav1.MatchLabels := podLabels d |} (podLabels d')
      <-> svc = svc'
          /\ metav1.Name (enterpriseApi.ObjectMeta g) = metav1.Name (enterpriseApi.ObjectMeta g')).
Proof.
  intros d d'. split; [by destruct svc|].
  unfold selects. cbn [metav1.MatchLabels]. rewrite map_subseteq_spec. split.
  - intros H.
    assert (Happ : exists a, podLabels d !! "app" = Some a /\ podLabels d' !! "app" = Some a).
    { destruct svc; eexists; (split; [reflexivity|]); by apply H. }
    assert (Hname : podLabels d' !! "deployment"
                    = Some (metav1.Name (enterpriseApi.ObjectMeta g))).
    { apply H. by destruct svc. }
    destruct Happ as (a & Ha & Ha').
    split.
    + destruct svc, svc'; try done; vm_compute in Ha, Ha'; congruence.
    + assert (H' : podLabels d' !! "deployment"
                   = Some (metav1.Name (enterpriseApi.ObjectMeta g'))) by (by destruct svc').
      congruence.
  - intros [<- Hname] k v Hk.
    assert (Heq : podLabels d' = podLabels d).
    { subst d d'. unfold podLabels. destruct svc; cbn; by rewrite Hname. }
    by rewrite Heq.
Qed.

(** X18. The pod template of either service deployment is well formed: it
    has exactly one container, and the volume mounts of that container, which
    all go to [/data], name volumes the pod declares. *)
Theorem pod_template_well_formed (s : Scheme) (svc : Service)
    (g : enterpriseApi.GenAIDeployment) :
  let pod := podSpecOf (constructFor svc s g) in
  length (corev1.Containers pod) = 1
  /\ mountsDeclared pod
  /\ Forall (fun c => Forall (fun m => corev1.MountPath m = "/data") (corev1.VolumeMounts c))
            (corev1.Containers pod).
Proof.
  intros pod. subst pod. destruct svc; cbn; (split; [done|]); split.
  - repeat constructor. eexists. split; [by left|done].
  - by repeat constructor.
  - repeat constructor. eexists. split; [by left|done].
  - by repeat constructor.
Qed.

Lemma addressOf_inj f v v' : addressOf f v = addressOf f v' -> v = v'.
Proof. intros H. by injection H. Qed.

(** X19. No configurable field is lost in construction: two descriptors for
    which the constructor of a service deployment yields the same
    specification have the same name and the same sub-spec of that service,
    in every field. *)
Theorem constructors_keep_every_field (s s' : Scheme) (g g' : enterpriseApi.GenAIDeployment) :
  (appsv1.Spec (constructSaisServiceDeployment s g)
   = appsv1.Spec (constructSaisServiceDeployment s' g') ->
   metav1.Name (enterpriseApi.ObjectMeta g) = metav1.Name (enterpriseApi.ObjectMeta g')
   /\ enterpriseApi.SaisService (enterpriseApi.Spec g)
      = enterpriseApi.SaisService (enterpriseApi.Spec g'))
  /\ (appsv1.Spec (constructVectorDbDeployment s g)
      = appsv1.Spec (constructVectorDbDeployment s' g') ->
      metav1.Name (enterpriseApi.ObjectMeta g) = metav1.Name (enterpriseApi.ObjectMeta g')
      /\ enterpriseApi.VectorDbService (enterpriseApi.Spec g)
         = enterpriseApi.VectorDbService (enterpriseApi.Spec g')).
Proof.
  split; intros H.
  - assert (Hname : podLabels (constructSaisServiceDeployment s g) !! "deployment"
                    = podLabels (constructSaisServiceDeployment s' g') !! "deployment").
    { unfold podLabels. by rewrite H. }
    cbn in Hname. injection Hname as Hname. split; [done|].
    unfold constructSaisServiceDeployment in H. cbn [appsv1.Spec] in H.
    injection H as Hr _ _ Himg Hres _ Hvol Hsch Haff Htol.
    destruct (enterpriseApi.SaisService (enterpriseApi.Spec g)),
             (enterpriseApi.SaisService (enterpriseApi.Spec g')).
    cbn in *. congruence.
  - assert (Hname : podLabels (constructVectorDbDeployment s g) !! "deployment"
                    = podLabels (constructVectorDbDeployment s' g') !! "deployment").
    { unfold podLabels. by rewrite H. }
    cbn in Hname. injection Hname as Hname. split; [done|].
    unfold constructVectorDbDeployment in H. cbn [appsv1.Spec] in H.
    injection H as Hr _ _ Himg Hres _ Hvol Haff Htol Htop.
    destruct (enterpriseApi.VectorDbService (enterpriseApi.Spec g)),
             (enterpriseApi.VectorDbService (enterpriseApi.Spec g')).
    cbn in *. congruence.
Qed.

Lemma ptr_eqb_sym p q : ptr_eqb p q = ptr_eqb q p.
Proof.
  destruct p as [a|], q as [b|]; cbn; try done.
  apply bool_decide_ext. by split.
Qed.

(** X20. The evaluator is symmetric in its two arguments, panic included,
    and it answers true exactly when the two deployments hold the same
    [Replicas] pointer and both have a first container, with the same image. *)
Theorem isEqual_symmetric_and_exact (d e : appsv1.Deployment) :
  isEqual d e = isEqual e d
  /\ (isEqual d e = Some true
      <-> ptr_eqb (appsv1.Replicas (appsv1.Spec d)) (appsv1.Replicas (appsv1.Spec e)) = true
          /\ exists image, firstImage d = Some image /\ firstImage e = Some image).
Proof.
  unfold isEqual, firstImage. rewrite (ptr_eqb_sym (appsv1.Replicas (appsv1.Spec e))).
  destruct (ptr_eqb _ _).
  - destruct (podContainers d) as [|c cs], (podContainers e) as [|c' cs']; cbn.
    + split; [done|]. split; [done|]. by intros (_ & ? & ? & _).
    + split; [done|]. split; [done|]. by intros (_ & ? & ? & _).
    + split; [done|]. split; [done|]. by intros (_ & ? & _ & ?).
    + split.
      * f_equal. apply bool_decide_ext. by split.
      * split.
        -- intros H. injection H as H. apply bool_decide_eq_true_1 in H.
           split; [done|]. exists (corev1.Image c). by rewrite H.
        -- intros (_ & image & Hc & Hc'). f_equal. apply bool_decide_eq_true_2. congruence.
  - split; [done|]. split; [done|]. by intros [? _].
Qed.

(** X21. The owner reference of a service deployment depends on the scheme
    alone: with the kind of the descriptor registered, the constructed
    deployment has exactly one owner reference, a controller reference to the
    descriptor by name and UID; with no kind registered the error of
    [SetControllerReference] is dropped and the deployment is constructed
    without any owner reference. *)
Theorem service_deployment_owner (svc : Service) (s : Scheme)
    (g : enterpriseApi.GenAIDeployment) :
  metav1.OwnerReferences (appsv1.ObjectMeta (constructFor svc s g))
  = match gvk_GenAIDeployment s with
    | Some gvk => [ownerRefTo gvk g]
    | None => []
    end.
Proof.
  destruct s as [[gvk|]].
  - apply constructFor_owner.
  - destruct svc; cbn; unfold SetControllerReference, validateOwner; cbn;
      repeat case_bool_decide; try done; congruence.
Qed.

(** X22. The compute cluster carries every field of its sub-spec: two
    descriptors for which [constructRayCluster] yields the same object have
    the same name and namespace and agree on image, head CPU count, head and
    worker resources and worker replica count. *)
Theorem constructRayCluster_keeps_every_field (g g' : enterpriseApi.GenAIDeployment) :
  rayv1.ObjectMeta (constructRayCluster g) = rayv1.ObjectMeta (constructRayCluster g') ->
  rayClusterContent (constructRayCluster g) = rayClusterContent (constructRayCluster g') ->
  keyOf (enterpriseApi.ObjectMeta g) = keyOf (enterpriseApi.ObjectMeta g')
  /\ let ray := enterpriseApi.RayService (enterpriseApi.Spec g) in
     let ray' := enterpriseApi.RayService (enterpriseApi.Spec g') in
     enterpriseApi.Ray_Image ray = enterpriseApi.Ray_Image ray'
     /\ enterpriseApi.Ray_HeadGroup ray = enterpriseApi.Ray_HeadGroup ray'
     /\ enterpriseApi.Ray_WorkerGroup ray = enterpriseApi.Ray_WorkerGroup ray'
     /\ enterpriseApi.Ray_Replicas ray = enterpriseApi.Ray_Replicas ray'.
Proof.
  intros Hmeta Hcontent. split.
  - unfold constructRayCluster in Hmeta. cbn in Hmeta. injection Hmeta as Hname Hns.
    apply derived_name_inj in Hname. unfold keyOf. by rewrite Hname, Hns.
  - pose proof (f_equal fst Hcontent) as Hhead. pose proof (f_equal snd Hcontent) as Hwork.
    unfold rayClusterContent in Hhead, Hwork. cbn [fst snd] in Hhead, Hwork.
    pose proof (f_equal (fun h => rayv1.RayStartParams h !! "num-cpus") Hhead) as Hcpu.
    pose proof (f_equal (fun h => corev1.Containers (corev1.Template_Spec (rayv1.Head_Template h)))
                        Hhead) as Hhc.
    clear Hhead Hcontent Hmeta.
    unfold constructRayCluster in Hcpu.
    cbn [rayv1.Spec rayv1.HeadGroup rayv1.RayStartParams] in Hcpu.
    rewrite !lookup_singleton_eq in Hcpu. cbn in Hhc, Hwork.
    injection Hcpu as Hcpu. injection Hhc as Himg Hres. injection Hwork as Hrep _ Hwres.
    cbv zeta.
    destruct (enterpriseApi.Ray_HeadGroup _), (enterpriseApi.Ray_HeadGroup _),
             (enterpriseApi.Ray_WorkerGroup _), (enterpriseApi.Ray_WorkerGroup _).
    cbn in *. repeat split; congruence.
Qed.

Lemma constructRayCluster_keeps_every_field_witness :
  let g := sample.descriptor true in
  rayv1.ObjectMeta (constructRayCluster g) = rayv1.ObjectMeta (constructRayCluster g)
  /\ rayClusterContent (constructRayCluster g) = rayClusterContent (constructRayCluster g)
  /\ keyOf (enterpriseApi.ObjectMeta g) = keyOf (enterpriseApi.ObjectMeta g).
Proof.
  intros g. split; [reflexivity|]. split; [reflexivity|].
  exact (proj1 (constructRayCluster_keeps_every_field g g eq_refl eq_refl)).
Defined.

(** * Properties of the resource helpers of package util *)

(** X23. The three resource helpers pass the client's call through and
    differ from it in one point only: an already-exists error becomes
    success.  Every other error is returned as it is, so that a not-found on
    delete or a conflict on update is a failure. *)
Theorem resource_helpers_ignore_AlreadyExists {W} (op : M W (option error)) (w : W)
    (err : option error) :
  returned (op w) = Some err ->
  let verdict := match err with
                 | Some e => if IsAlreadyExists e then None else Some e
                 | None => None
                 end in
  util.CreateResource op w = (world (op w), trace (op w), Some verdict)
  /\ util.UpdateResource op w = (world (op w), trace (op w), Some verdict)
  /\ util.DeleteResource op w = (world (op w), trace (op w), Some verdict).
Proof.
  intros Hop verdict. subst verdict.
  unfold util.CreateResource, util.UpdateResource, util.DeleteResource, bind, ret.
  unfold returned, world, trace in *.
  destruct (op w) as [[w1 t1] r1]. cbn [fst snd] in *. subst r1.
  destruct err as [e|]; [destruct (IsAlreadyExists e)|]; cbn; by rewrite app_nil_r.
Qed.

Lemma resource_helpers_ignore_AlreadyExists_witness :
  let gone : M Cluster (option error) := fun c => (c, [], Some (Some ErrNotFound)) in
  returned (gone cluster.empty) = Some (Some ErrNotFound)
  /\ returned (util.DeleteResource gone cluster.empty) = Some (Some ErrNotFound).
Proof.
  intros gone. split; [reflexivity|].
  destruct (resource_helpers_ignore_AlreadyExists gone cluster.empty (Some ErrNotFound)
              eq_refl) as (_ & _ & ->).
  reflexivity.
Defined.

Lemma setIndex_Some b i v :
  i < length b -> util.setIndex b i v = Some (<[i := v]> b).
Proof. intros H. unfold util.setIndex. by rewrite decide_True. Qed.

Lemma setIndex_None b i v : length b <= i -> util.setIndex b i v = None.
Proof. intros H. unfold util.setIndex. rewrite decide_False; [done|lia]. Qed.

(** X24. [generateHECToken] panics on fewer than 24 bytes; on 24 bytes or
    more it returns a token of the same length that has a dash at the offsets
    8, 13, 18 and 23 and the given byte everywhere else, which on the 36
    bytes it asks for is the 8-4-4-4-12 layout of a UUID. *)
Theorem generateHECToken_layout (secret : list Byte.byte) :
  (length secret < 24 -> util.generateHECToken secret = None)
  /\ (24 <= length secret ->
      exists token,
        util.generateHECToken secret = Some token
        /\ length token = length secret
        /\ forall i,
             token !! i = if bool_decide (i ∈ [8; 13; 18; 23]) then Some util.dash
                          else secret !! i).
Proof.
  unfold util.generateHECToken. split.
  - intros Hlen.
    destruct (decide (8 < length secret));
      [rewrite setIndex_Some by done | by rewrite setIndex_None by lia]. cbn.
    destruct (decide (13 < length secret));
      [rewrite setIndex_Some by (rewrite !length_insert; lia)
      | by rewrite setIndex_None by (rewrite !length_insert; lia)]. cbn.
    destruct (decide (18 < length secret));
      [rewrite setIndex_Some by (rewrite !length_insert; lia)
      | by rewrite setIndex_None by (rewrite !length_insert; lia)]. cbn.
    by rewrite setIndex_None by (rewrite !length_insert; lia).
  - intros Hlen.
    rewrite setIndex_Some by lia. cbn.
    rewrite setIndex_Some by (rewrite !length_insert; lia). cbn.
    rewrite setIndex_Some by (rewrite !length_insert; lia). cbn.
    rewrite setIndex_Some by (rewrite !length_insert; lia). cbn.
    eexists. split; [done|]. split; [by rewrite !length_insert|].
    intros i.
    destruct (decide (i = 23)) as [->|H23].
    { rewrite list_lookup_insert_eq by (rewrite !length_insert; lia). done. }
    rewrite list_lookup_insert_ne by done.
    destruct (decide (i = 18)) as [->|H18].
    { rewrite list_lookup_insert_eq by (rewrite !length_insert; lia). done. }
    rewrite list_lookup_insert_ne by done.
    destruct (decide (i = 13)) as [->|H13].
    { rewrite list_lookup_insert_eq by (rewrite !length_insert; lia). done. }
    rewrite list_lookup_insert_ne by done.
    destruct (decide (i = 8)) as [->|H8].
    { rewrite list_lookup_insert_eq by lia. done. }
    rewrite list_lookup_insert_ne by done.
    rewrite bool_decide_eq_false_2; [done|].
    rewrite !elem_of_cons, elem_of_nil. lia.
Qed.

Lemma generateHECToken_layout_witness :
  let secret := replicate 36 Byte.x61 in
  24 <= length secret
  /\ exists token, util.generateHECToken secret = Some token /\ length token = 36.
Proof.
  intros secret.
  assert (H : 24 <= length secret) by (vm_compute; lia).
  split; [exact H|].
  destruct (proj2 (generateHECToken_layout secret) H) as (token & Htok & Hlen & _).
  exists token. split; [exact Htok|]. by rewrite Hlen.
Defined.

(** X25. [PodExecCommand] called without stream options never succeeds:
    when the pod, the configuration, the REST client and the executor are all
    obtained it panics on the nil options, and otherwise it returns the error
    of the step that failed. *)
Theorem PodExecCommand_without_streamOptions (env : util.ExecEnv) (podName namespace : string)
    (cmd : list string) (tty mock : bool) :
  match util.PodExecCommand env podName namespace cmd None tty mock with
  | None => True
  | Some (stdout, stderr, err) => stdout = "" /\ stderr = "" /\ err <> None
  end
  /\ (util.getPod env {| nn_Namespace := namespace; nn_Name := podName |} = None ->
      forall restConfig,
        (if negb mock then util.getConfig env
         else util.buildConfigFromFlags env (util.pwd env +:+ "/kubeconfig")) = inr restConfig ->
        util.restClientForGVK env restConfig = None ->
        (forall req, util.newSPDYExecutor env restConfig req = None) ->
        util.PodExecCommand env podName namespace cmd None tty mock = None).
Proof.
  unfold util.PodExecCommand. split.
  - destruct (util.getPod env _); [done|].
    destruct (if negb mock then _ else _) as [e|restConfig]; [done|].
    destruct (util.restClientForGVK env restConfig); [done|].
    by destruct (util.newSPDYExecutor env restConfig _).
  - intros -> restConfig -> -> Hexec. by rewrite Hexec.
Qed.

(** X26. An error of [PodExecCommand] comes with two empty strings, also
    when the stream had produced output before it failed; a success returns
    what the stream wrote to the two buffers. *)
Theorem PodExecCommand_error_has_no_output (env : util.ExecEnv) (podName namespace : string)
    (cmd : list string) (streamOptions : option util.StreamOptions) (tty mock : bool)
    (stdout stderr : string) (err : option error) :
  util.PodExecCommand env podName namespace cmd streamOptions tty mock
    = Some (stdout, stderr, err) ->
  match err with
  | Some _ => stdout = "" /\ stderr = ""
  | None =>
    exists req options,
      streamOptions = Some options
      /\ util.exec_Name req = podName /\ util.exec_Namespace req = namespace
      /\ util.Command (util.exec_Options req) = cmd
      /\ util.stream env req options = (stdout, stderr, None)
  end.
Proof.
  unfold util.PodExecCommand.
  destruct (util.getPod env _); [by intros [= <- <- <-]|].
  destruct (if negb mock then _ else _) as [e|restConfig]; [by intros [= <- <- <-]|].
  destruct (util.restClientForGVK env restConfig); [by intros [= <- <- <-]|].
  destruct (util.newSPDYExecutor env restConfig _); [by intros [= <- <- <-]|].
  destruct streamOptions as [options|]; [|done].
  destruct (util.stream env _ options) as [[out errOut] [e|]] eqn:Hstream.
  - by intros [= <- <- <-].
  - intros [= <- <- <-]. eexists _, options. by rewrite Hstream.
Qed.

Lemma PodExecCommand_error_has_no_output_witness :
  util.RunPodExecCommand (execSample.env (Some (ErrOther "broken pipe"))) execSample.client "ls"
    = Some ("", "", Some (ErrOther "broken pipe"))
  /\ ("" = "" /\ "" = "").
Proof.
  split; [reflexivity|].
  exact (PodExecCommand_error_has_no_output
           (execSample.env (Some (ErrOther "broken pipe"))) "splunk-idxc-indexer-0" "ns"
           ["/bin/sh"] (Some {| util.stream_Stdin := "ls" |}) false false
           "" "" (Some (ErrOther "broken pipe")) eq_refl).
Defined.


(** X28. The calls of a pass on the cluster, for a descriptor it holds: the
    descriptor is fetched; if the compute cluster is enabled it is fetched,
    created when absent and updated when present, and the status is updated;
    then each service deployment in turn is fetched, created when absent and
    updated when present.  Every call is addressed to the object of the
    respective derived name. *)
Theorem pass_calls_on_cluster (s : Scheme) (req : Request) (c : Cluster)
    (g0 : enterpriseApi.GenAIDeployment) :
  genAIDeployments c !! req_NamespacedName req = Some g0 ->
  let keyA := derivedKey ServiceA (req_Namespace req) (req_Name req) in
  let keyB := derivedKey ServiceB (req_Namespace req) (req_Name req) in
  let t := trace (Reconcile (onCluster s) req c) in
  map (fun call => (verbOf call, target call)) t
  = (GetDescriptor, req_NamespacedName req)
      :: (if enterpriseApi.Enabled (enterpriseApi.RayService (enterpriseApi.Spec g0))
          then [(GetCluster, rayKey req);
                (match rayClusters c !! rayKey req with
                 | None => CreateCluster
                 | Some _ => UpdateCluster
                 end, rayKey req);
                (UpdateStatus, req_NamespacedName req)]
          else [])
      ++ [(GetService, keyA);
          (match deployments c !! keyA with None => CreateService | Some _ => UpdateService end,
           keyA);
          (GetService, keyB);
          (match deployments c !! keyB with None => CreateService | Some _ => UpdateService end,
           keyB)].
Proof.
  intros Hdesc keyA keyB t. subst t.
  rewrite (cluster_pass_run s req g0 c Hdesc). cbv zeta. rewrite trace_of.
  set (g := decodeGenAIDeployment (req_NamespacedName req) g0).
  set (enabled := enterpriseApi.Enabled (enterpriseApi.RayService (enterpriseApi.Spec g0))).
  set (g' := if enabled then withRayClusterStatus g (rayClusterSeen req c) else g).
  set (c1 := if enabled then world (reconcileRayCluster (onCluster s) req g c) else c).
  assert (Hext : forall svc, constructFor svc s g' = constructFor svc s g).
  { intros svc. subst g'. destruct enabled; [|done]. by apply constructFor_ext. }
  assert (Hdeps : deployments c1 = deployments c).
  { subst c1. destruct enabled; [|done].
    destruct (cluster_rayCluster_run s req g0 c Hdesc) as (_ & _ & _ & _ & H). exact H. }
  pose proof (constructFor_key ServiceA s g) as HkA.
  pose proof (constructFor_key ServiceB s g) as HkB.
  change (keyOf (appsv1.ObjectMeta (constructFor ServiceA s g)) = keyA) in HkA.
  change (keyOf (appsv1.ObjectMeta (constructFor ServiceB s g)) = keyB) in HkB.
  destruct (cluster_services_run s g' c1) as (_ & HtS & _).
  destruct (cluster_reconcileFor_run s ServiceA g' c1) as (_ & _ & _ & _ & HdA).
  rewrite ?(Hext ServiceA), ?(Hext ServiceB) in HtS. rewrite ?(Hext ServiceA) in HdA.
  rewrite HkA in HdA. rewrite HkA, HkB in HtS.
  rewrite HtS. rewrite map_cons, map_app. f_equal. f_equal.
  - destruct enabled; [|done].
    destruct (cluster_rayCluster_run s req g0 c Hdesc) as (_ & Ht & _).
    fold g in Ht. rewrite Ht. unfold rayClusterAfter.
    by destruct (rayClusters c !! rayKey req).
  - unfold deploymentWrite, deploymentAfter. rewrite HkA, HkB, HdA.
    rewrite lookup_insert_ne by apply derivedKey_services_differ. rewrite Hdeps.
    destruct (deployments c !! keyA), (deployments c !! keyB);
      cbn [map verbOf target withSpec decodeDeployment appsv1.ObjectMeta];
      rewrite ?identify_keyOf, ?HkA, ?HkB; done.
Qed.

Lemma pass_calls_on_cluster_witness :
  genAIDeployments (sample.fresh true) !! req_NamespacedName sample.request
    = Some (sample.descriptor true)
  /\ map verbOf (trace (run.first true))
     = [GetDescriptor; GetCluster; CreateCluster; UpdateStatus;
        GetService; CreateService; GetService; CreateService].
Proof.
  assert (H : genAIDeployments (sample.fresh true) !! req_NamespacedName sample.request
              = Some (sample.descriptor true)) by reflexivity.
  split; [exact H|].
  pose proof (pass_calls_on_cluster sample.scheme sample.request (sample.fresh true)
                (sample.descriptor true) H) as Hcalls.
  cbv zeta in Hcalls. apply (f_equal (map fst)) in Hcalls.
  rewrite map_map in Hcalls. exact Hcalls.
Defined.
